(** * socket_viewer: the pymavlink bridge (src/pymavlink_bridge.py)

    A shallow embedding of [PymavlinkBridge]: the fused vehicle state, the
    command executors (mode switch, supervised takeoff, pose ingestion,
    recorder start and stop), the message handler with its two clock
    estimators, and the command dispatcher's result reporting.

    Conventions of the embedding.
    - A Python value is a [pyval]; a dict with string keys is an association
      list read by its first binding and updated in place.  A str is a
      string of 8-bit characters, which [upper] and [strip] treat as ASCII
      and [encode("utf-8")] leaves as they are.
    - A Python float is a [pyfloat]: an exact rational kept in lowest terms,
      or one of the three non-finite values.  [float(n)] of an int rounds to
      the nearest binary64 value and raises [OverflowError] beyond the
      largest one; the rounding of float arithmetic ([/], [*], the [.1f]
      format) is not modelled.
    - A decoded message carries the fields that the bridge reads; in the
      MAVLink common dialect each integer among them is at most 32 bits
      wide.
    - An exception carries the text that CPython gives it wherever the
      bridge writes the text out (a failed command); the [TypeError]s that
      are raised while a message is handled or a command type is looked up,
      which nothing writes out, carry a shortened text.
    - The bridge object, both clocks, the standard output and the commands
      handed to the vehicle link form one [World]; a method is a function
      [World -> res A * World] and a raised exception keeps the mutations
      made before it, as in Python.
    - [time.sleep] is the only place where time passes and where the
      receive loop handles messages for a waiting executor; how long each
      sleep overran and which messages it saw is read from a schedule. *)

From Stdlib Require Import ZArith QArith Qround String Ascii List Bool Lia Lqa.
From Stdlib Require Import DecimalString.
Import ListNotations.

#[local] Set Warnings "-register-all".
Local Open Scope string_scope.

(** ** Python values *)

Inductive pyfloat : Type :=
| Fin (q : Q)
| NaN
| Inf (negative : bool).

Inductive pyval : Type :=
| PNone
| PBool (b : bool)
| PInt (z : Z)
| PFloat (f : pyfloat)
| PStr (s : string)
| PList (l : list pyval)
| PDict (d : list (string * pyval)).

Definition dict : Type := list (string * pyval).

Inductive exc_kind : Type :=
| RuntimeError | ValueError | TypeError | TimeoutError
| AttributeError | OverflowError.

Record exc : Type := mkExc { kind : exc_kind; message : string }.

(** The outcome of a call: a value, a raised exception, or [Diverged] when
    a bounded loop ran out of its iteration budget (shown unreachable for
    [wait_until] below). *)
Inductive res (A : Type) : Type :=
| Ok (a : A)
| Raise (e : exc)
| Diverged.
Arguments Ok {A} a.
Arguments Raise {A} e.
Arguments Diverged {A}.

Definition exc_kind_eqb (a b : exc_kind) : bool :=
  match a, b with
  | RuntimeError, RuntimeError | ValueError, ValueError
  | TypeError, TypeError | TimeoutError, TimeoutError
  | AttributeError, AttributeError | OverflowError, OverflowError => true
  | _, _ => false
  end.

(** ** Strings *)

Definition upper_ascii (c : ascii) : ascii :=
  let n := nat_of_ascii c in
  if ((97 <=? n) && (n <=? 122))%nat then ascii_of_nat (n - 32) else c.

Fixpoint upper (s : string) : string :=
  match s with
  | EmptyString => EmptyString
  | String c r => String (upper_ascii c) (upper r)
  end.

Definition is_space (c : ascii) : bool :=
  let n := nat_of_ascii c in
  ((n =? 32) || ((9 <=? n) && (n <=? 13)) || ((28 <=? n) && (n <=? 31)))%nat.

Fixpoint lstrip (s : string) : string :=
  match s with
  | EmptyString => EmptyString
  | String c r => if is_space c then lstrip r else s
  end.

(** [rstrip_by p s] drops the longest suffix of [s] made of characters
    satisfying [p]. *)
Fixpoint rstrip_by (p : ascii -> bool) (s : string) : string :=
  match s with
  | EmptyString => EmptyString
  | String c r =>
      match rstrip_by p r with
      | EmptyString => if p c then EmptyString else String c EmptyString
      | r' => String c r'
      end
  end.

Definition strip (s : string) : string := rstrip_by is_space (lstrip s).

Definition rstrip_char (c : ascii) (s : string) : string :=
  rstrip_by (Ascii.eqb c) s.

Definition str_of_Z (z : Z) : string := NilZero.string_of_int (Z.to_int z).

(** ** Dicts *)

Fixpoint dict_lookup (k : string) (d : dict) : option pyval :=
  match d with
  | [] => None
  | (k', v) :: r => if String.eqb k k' then Some v else dict_lookup k r
  end.

(** [d.get(k)], with Python's default [None]. *)
Definition dict_get (k : string) (d : dict) : pyval :=
  match dict_lookup k d with Some v => v | None => PNone end.

(** [d[k] = v]. *)
Fixpoint dict_set (k : string) (v : pyval) (d : dict) : dict :=
  match d with
  | [] => [(k, v)]
  | (k', v') :: r =>
      if String.eqb k k' then (k', v) :: r else (k', v') :: dict_set k v r
  end.

(** [d.update(e)]. *)
Definition dict_update (d e : dict) : dict :=
  fold_left (fun acc kv => dict_set (fst kv) (snd kv) acc) e d.

(** ** Numbers *)

Local Open Scope Z_scope.
Local Open Scope Q_scope.

(** [int(x)] on a finite float truncates toward zero. *)
Definition Qtrunc (q : Q) : Z := Z.quot (Qnum q) (Zpos (Qden q)).

Definition fin (q : Q) : pyfloat := Fin (Qred q).

Definition float_of_Z (z : Z) : pyfloat := Fin (inject_Z z).

(** The nearest integer with at most 53 significant bits, ties to the even
    one ([n] is not negative). *)
Definition round_to_53 (n : Z) : Z :=
  let shift := (Z.log2 n + 1 - 53)%Z in
  if (shift <=? 0)%Z then n
  else
    let m := Z.shiftr n shift in
    let r := Z.land n (Z.ones shift) in
    let half := Z.shiftl 1 (shift - 1) in
    let m' := if ((half <? r)%Z || ((r =? half)%Z && Z.odd m))%bool
              then (m + 1)%Z else m in
    Z.shiftl m' shift.

(** The least magnitude that rounds to 2^1024, one step beyond the largest
    binary64 value (2^1024 - 2^971). *)
Definition float_overflow : Z := (2 ^ 1024 - 2 ^ 970)%Z.

(** [float(n)] for an int [n]: the nearest binary64 value, ties to even;
    [OverflowError] when that is beyond the largest one. *)
Definition float_of_int (z : Z) : res pyfloat :=
  if (float_overflow <=? Z.abs z)%Z
  then Raise (mkExc OverflowError "int too large to convert to float")
  else Ok (Fin (inject_Z (Z.sgn z * round_to_53 (Z.abs z)))).

(** [f / d] for a finite positive divisor [d]. *)
Definition fdiv_pos (f : pyfloat) (d : Q) : pyfloat :=
  match f with
  | Fin q => fin (q / d)
  | NaN => NaN
  | Inf s => Inf s
  end.

(** [f * d] for a finite positive factor [d]. *)
Definition fmul_pos (f : pyfloat) (d : Q) : pyfloat :=
  match f with
  | Fin q => fin (q * d)
  | NaN => NaN
  | Inf s => Inf s
  end.

(** [f > 0]. *)
Definition fgt0 (f : pyfloat) : bool :=
  match f with
  | Fin q => negb (Qle_bool q 0)
  | NaN => false
  | Inf s => negb s
  end.

(** [a >= b]. *)
Definition fge (a b : pyfloat) : bool :=
  match a, b with
  | NaN, _ | _, NaN => false
  | Fin x, Fin y => Qle_bool y x
  | Inf false, _ => true
  | _, Inf true => true
  | Inf true, _ => false
  | Fin _, Inf false => false
  end.

(** [int(f)]. *)
Definition int_of_float (f : pyfloat) : res Z :=
  match f with
  | Fin q => Ok (Qtrunc q)
  | NaN => Raise (mkExc ValueError "cannot convert float NaN to integer")
  | Inf _ => Raise (mkExc OverflowError "cannot convert float infinity to integer")
  end.

(** [f"{x:.1f}"]: one decimal, ties to even. *)
Definition round_half_even (q : Q) : Z :=
  let fl := Qfloor q in
  let r := q - inject_Z fl in
  match (r ?= (1 # 2))%Q with
  | Lt => fl
  | Gt => (fl + 1)%Z
  | Eq => if Z.even fl then fl else (fl + 1)%Z
  end.

Definition format_1f (f : pyfloat) : string :=
  match f with
  | NaN => "nan"
  | Inf s => if s then "-inf" else "inf"
  | Fin q =>
      let t := round_half_even (q * 10) in
      let a := Z.abs t in
      ((if Qle_bool 0 q then "" else "-")
         ++ str_of_Z (a / 10) ++ "." ++ str_of_Z (a mod 10))%string
  end.

(** ** The host: what the embedding takes from the Python runtime and from
    the process environment *)

Class Host : Type := {
  (** [repr] of a float (shortest round-tripping decimal in CPython). *)
  float_repr : pyfloat -> string;
  (** [float(s)] for a string; [None] when it raises [ValueError]. *)
  float_of_str : string -> option pyfloat;
  (** [str] of a list or dict. *)
  container_str : pyval -> string;
  (** [STATUS_HOLD_SECONDS], read once from the environment (default 4). *)
  STATUS_HOLD_SECONDS : Q;
  (** [PYMAVLINK_DEBUG_TIMING] is a field of the bridge, see [World]. *)
}.

Section Values.
Context {host : Host}.

(** Truth value of a Python object ([bool(v)], [if v], [v or w]). *)
Definition py_truthy (v : pyval) : bool :=
  match v with
  | PNone => false
  | PBool b => b
  | PInt z => negb (z =? 0)%Z
  | PFloat (Fin q) => negb (Qeq_bool q 0)
  | PFloat _ => true
  | PStr s => negb (String.eqb s "")
  | PList l => match l with [] => false | _ => true end
  | PDict d => match d with [] => false | _ => true end
  end.

Definition py_or (v w : pyval) : pyval := if py_truthy v then v else w.

Definition Z_of_bool (b : bool) : Z := if b then 1%Z else 0%Z.

(** [type(v).__name__]. *)
Definition type_name (v : pyval) : string :=
  match v with
  | PNone => "NoneType"
  | PBool _ => "bool"
  | PInt _ => "int"
  | PFloat _ => "float"
  | PStr _ => "str"
  | PList _ => "list"
  | PDict _ => "dict"
  end.

(** [float(v)]. *)
Definition py_float (v : pyval) : res pyfloat :=
  match v with
  | PBool b => Ok (float_of_Z (Z_of_bool b))
  | PInt z => float_of_int z
  | PFloat f => Ok f
  | PStr s =>
      match float_of_str s with
      | Some f => Ok f
      | None => Raise (mkExc ValueError "could not convert string to float")
      end
  | _ => Raise (mkExc TypeError "float() argument must be a string or a real number")
  end.

(** [PymavlinkBridge._safe_float]. *)
Definition _safe_float (value : pyval) : res (option pyfloat) :=
  match value with
  | PNone => Ok None
  | _ =>
      match py_float value with
      | Ok f => Ok (Some f)
      | Raise e =>
          if exc_kind_eqb (kind e) TypeError || exc_kind_eqb (kind e) ValueError
          then Ok None else Raise e
      | Diverged => Diverged
      end
  end.

(** [float(v)] raises [OverflowError]: [v] is an int beyond the floats. *)
Definition beyond_float (v : pyval) : bool :=
  match v with
  | PInt z => (float_overflow <=? Z.abs z)%Z
  | _ => false
  end.

(** [str(v)]. *)
Definition py_str (v : pyval) : string :=
  match v with
  | PNone => "None"
  | PBool b => if b then "True" else "False"
  | PInt z => str_of_Z z
  | PFloat f => float_repr f
  | PStr s => s
  | _ => container_str v
  end.

(** [v == z] for an integer literal [z]. *)
Definition py_eq_int (v : pyval) (z : Z) : bool :=
  match v with
  | PBool b => (Z_of_bool b =? z)%Z
  | PInt x => (x =? z)%Z
  | PFloat (Fin q) => Qeq_bool q (inject_Z z)
  | _ => false
  end.

(** [v & flag] for an integer literal [flag]. *)
Definition py_and_int (v : pyval) (flag : Z) : res Z :=
  match v with
  | PBool b => Ok (Z.land (Z_of_bool b) flag)
  | PInt x => Ok (Z.land x flag)
  | _ => Raise (mkExc TypeError "unsupported operand type(s) for &")
  end.

(** [v / d] for a positive literal [d]: true division, an int operand
    converted as by [float]. *)
Definition py_truediv (v : pyval) (d : Q) : res pyfloat :=
  match v with
  | PBool b => Ok (fdiv_pos (float_of_Z (Z_of_bool b)) d)
  | PInt x =>
      match float_of_int x with
      | Ok f => Ok (fdiv_pos f d)
      | Raise e => Raise e
      | Diverged => Diverged
      end
  | PFloat f => Ok (fdiv_pos f d)
  | _ => Raise (mkExc TypeError "unsupported operand type(s) for /")
  end.

(** [v >= f] for a float [f]; an int is compared by its exact value. *)
Definition py_ge_float (v : pyval) (f : pyfloat) : res bool :=
  match v with
  | PBool b => Ok (fge (float_of_Z (Z_of_bool b)) f)
  | PInt x => Ok (fge (float_of_Z x) f)
  | PFloat g => Ok (fge g f)
  | _ => Raise (mkExc TypeError
                  ("'>=' not supported between instances of '" ++ type_name v
                   ++ "' and 'float'"))
  end.

(** [v.get(k)] where [v] is any object: only a dict has the method. *)
Definition py_get (v : pyval) (k : string) : res pyval :=
  match v with
  | PDict d => Ok (dict_get k d)
  | _ => Raise (mkExc AttributeError
                  ("'" ++ type_name v ++ "' object has no attribute 'get'"))
  end.

Definition opt_float (o : option pyfloat) : pyval :=
  match o with Some f => PFloat f | None => PNone end.

Definition opt_int (o : option Z) : pyval :=
  match o with Some z => PInt z | None => PNone end.

End Values.

(** ** The MAVLink dialect

    Constants of the MAVLink common dialect, as [mavutil.mavlink] exposes
    them to the bridge. *)
Module mavlink.
Definition MAV_MODE_FLAG_CUSTOM_MODE_ENABLED : Z := 1.
Definition MAV_MODE_FLAG_AUTO_ENABLED : Z := 4.
Definition MAV_MODE_FLAG_GUIDED_ENABLED : Z := 8.
Definition MAV_MODE_FLAG_STABILIZE_ENABLED : Z := 16.
Definition MAV_MODE_FLAG_SAFETY_ARMED : Z := 128.
Definition MAV_STATE_STANDBY : Z := 3.
Definition MAV_STATE_ACTIVE : Z := 4.
Definition MAV_CMD_NAV_TAKEOFF : Z := 22.
Definition MAV_CMD_DO_SET_MODE : Z := 176.
Definition MAV_CMD_COMPONENT_ARM_DISARM : Z := 400.
(** [enums["MAV_STATE"]]: value and entry name. *)
Definition MAV_STATE : list (Z * string) :=
  [ (0%Z, "MAV_STATE_UNINIT"); (1%Z, "MAV_STATE_BOOT");
    (2%Z, "MAV_STATE_CALIBRATING"); (3%Z, "MAV_STATE_STANDBY");
    (4%Z, "MAV_STATE_ACTIVE"); (5%Z, "MAV_STATE_CRITICAL");
    (6%Z, "MAV_STATE_EMERGENCY"); (7%Z, "MAV_STATE_POWEROFF");
    (8%Z, "MAV_STATE_FLIGHT_TERMINATION"); (9%Z, "MAV_STATE_ENUM_END") ].
End mavlink.

Definition MODE_EXTRA_FLAGS : list (string * Z) :=
  [ ("GUIDED", mavlink.MAV_MODE_FLAG_GUIDED_ENABLED);
    ("AUTO", mavlink.MAV_MODE_FLAG_AUTO_ENABLED);
    ("RTL", mavlink.MAV_MODE_FLAG_AUTO_ENABLED);
    ("STABILIZE", mavlink.MAV_MODE_FLAG_STABILIZE_ENABLED) ].

Fixpoint assoc_str {A : Type} (k : string) (l : list (string * A)) : option A :=
  match l with
  | [] => None
  | (k', v) :: r => if String.eqb k k' then Some v else assoc_str k r
  end.

Fixpoint assoc_Z {A : Type} (k : Z) (l : list (Z * A)) : option A :=
  match l with
  | [] => None
  | (k', v) :: r => if (k =? k')%Z then Some v else assoc_Z k r
  end.

(** A value that a field read by the bridge can hold once decoded: the
    integer fields of HEARTBEAT, GLOBAL_POSITION_INT, GPS_RAW_INT and VFR_HUD
    that the bridge reads are of the types uint8, uint16, int16, int32 and
    uint32, so an int lies between -2^31 and 2^32 - 1. *)
Definition wire_value (v : pyval) : bool :=
  match v with
  | PInt z => ((- 2 ^ 31 <=? z) && (z <? 2 ^ 32))%Z
  | _ => true
  end.

(** A decoded message of the link: its type name, its fields by name, the
    sender's ids, and the mode name [mavutil.mode_string_v10] derives from
    it (meaningful for a HEARTBEAT). *)
Record Message : Type := mkMessage {
  get_type : string;
  raw_fields : dict;
  get_srcSystem : Z;
  get_srcComponent : Z;
  mode_string_v10 : string
}.

(** The fields of a decoded message: the entries of [raw_fields] that a
    decoded field can hold. *)
Definition fields (msg : Message) : dict :=
  filter (fun kv => wire_value (snd kv)) (raw_fields msg).

(** [getattr(msg, name, default)]. *)
Definition getattr (msg : Message) (name : string) (default : pyval) : pyval :=
  match dict_lookup name (fields msg) with Some v => v | None => default end.

(** The vehicle link ([self.master]) as far as the bridge reads it. *)
Record Link : Type := mkLink {
  target_system : Z;
  target_component : Z;
  mode_mapping : option (list (string * Z))
}.

(** What the bridge hands to [self.master.mav]. *)
Inductive LinkCmd : Type :=
| command_long_send (tsys tcomp command confirmation : Z) (params : list pyval)
| set_mode_send (tsys base_mode custom_mode : Z).

Record SlamSample : Type := mkSlam {
  slam_timestamp : option Z;
  slam_x : option pyfloat; slam_y : option pyfloat; slam_z : option pyfloat;
  slam_qw : option pyfloat; slam_qx : option pyfloat;
  slam_qy : option pyfloat; slam_qz : option pyfloat
}.

Record MavSample : Type := mkMav {
  mav_timestamp : option Z;
  mav_lat : pyval; mav_lon : pyval; mav_alt : pyval; mav_rel : pyval
}.

(** What one [time.sleep] of a waiting executor lets happen: the sleep
    overruns by [overrun_ms] milliseconds and the receive loop handles
    [delivered]. *)
Record Interference : Type := mkInterference {
  overrun_ms : N;
  delivered : list Message
}.

(** ** The world: the bridge object and what surrounds it *)

Record World : Type := mkWorld {
  (* the attributes of [PymavlinkBridge] *)
  master : option Link;
  state : dict;
  _debug_timing : bool;
  _vehicle_boot_offset : option Z;
  _last_vehicle_boot_ms : option Z;
  _status_hold_until : Q;
  logging_active : bool;
  csv_rows : list (list pyval);
  latest_slam : SlamSample;
  latest_mav : MavSample;
  (* [time.time()] and [time.monotonic()], in seconds *)
  wall : Q;
  monotonic : Q;
  (* the lines written to standard output, oldest first *)
  stdout : list dict;
  (* the commands handed to the link, oldest first *)
  link_sent : list LinkCmd;
  (* the sleeps still to come, and how many were taken *)
  schedule : nat -> Interference;
  sleeps : nat
}.

Definition with_state (d : dict) (w : World) : World :=
  mkWorld (master w) d (_debug_timing w) (_vehicle_boot_offset w)
    (_last_vehicle_boot_ms w) (_status_hold_until w) (logging_active w)
    (csv_rows w) (latest_slam w) (latest_mav w) (wall w) (monotonic w)
    (stdout w) (link_sent w) (schedule w) (sleeps w).

Definition with_boot_clock (off last : option Z) (w : World) : World :=
  mkWorld (master w) (state w) (_debug_timing w) off last
    (_status_hold_until w) (logging_active w) (csv_rows w) (latest_slam w)
    (latest_mav w) (wall w) (monotonic w) (stdout w) (link_sent w)
    (schedule w) (sleeps w).

Definition with_status_hold_until (q : Q) (w : World) : World :=
  mkWorld (master w) (state w) (_debug_timing w) (_vehicle_boot_offset w)
    (_last_vehicle_boot_ms w) q (logging_active w) (csv_rows w)
    (latest_slam w) (latest_mav w) (wall w) (monotonic w) (stdout w)
    (link_sent w) (schedule w) (sleeps w).

Definition with_logging_active (b : bool) (w : World) : World :=
  mkWorld (master w) (state w) (_debug_timing w) (_vehicle_boot_offset w)
    (_last_vehicle_boot_ms w) (_status_hold_until w) b (csv_rows w)
    (latest_slam w) (latest_mav w) (wall w) (monotonic w) (stdout w)
    (link_sent w) (schedule w) (sleeps w).

Definition with_csv_rows (r : list (list pyval)) (w : World) : World :=
  mkWorld (master w) (state w) (_debug_timing w) (_vehicle_boot_offset w)
    (_last_vehicle_boot_ms w) (_status_hold_until w) (logging_active w) r
    (latest_slam w) (latest_mav w) (wall w) (monotonic w) (stdout w)
    (link_sent w) (schedule w) (sleeps w).

Definition with_latest_slam (s : SlamSample) (w : World) : World :=
  mkWorld (master w) (state w) (_debug_timing w) (_vehicle_boot_offset w)
    (_last_vehicle_boot_ms w) (_status_hold_until w) (logging_active w)
    (csv_rows w) s (latest_mav w) (wall w) (monotonic w) (stdout w)
    (link_sent w) (schedule w) (sleeps w).

Definition with_latest_mav (m : MavSample) (w : World) : World :=
  mkWorld (master w) (state w) (_debug_timing w) (_vehicle_boot_offset w)
    (_last_vehicle_boot_ms w) (_status_hold_until w) (logging_active w)
    (csv_rows w) (latest_slam w) m (wall w) (monotonic w) (stdout w)
    (link_sent w) (schedule w) (sleeps w).

Definition with_stdout (o : list dict) (w : World) : World :=
  mkWorld (master w) (state w) (_debug_timing w) (_vehicle_boot_offset w)
    (_last_vehicle_boot_ms w) (_status_hold_until w) (logging_active w)
    (csv_rows w) (latest_slam w) (latest_mav w) (wall w) (monotonic w) o
    (link_sent w) (schedule w) (sleeps w).

Definition with_link_sent (l : list LinkCmd) (w : World) : World :=
  mkWorld (master w) (state w) (_debug_timing w) (_vehicle_boot_offset w)
    (_last_vehicle_boot_ms w) (_status_hold_until w) (logging_active w)
    (csv_rows w) (latest_slam w) (latest_mav w) (wall w) (monotonic w)
    (stdout w) l (schedule w) (sleeps w).

(** The clocks after [dt] more seconds (readings kept in lowest terms), one
    more sleep taken. *)
Definition with_slept (dt : Q) (w : World) : World :=
  mkWorld (master w) (state w) (_debug_timing w) (_vehicle_boot_offset w)
    (_last_vehicle_boot_ms w) (_status_hold_until w) (logging_active w)
    (csv_rows w) (latest_slam w) (latest_mav w) (Qred (wall w + dt))
    (Qred (monotonic w + dt)) (stdout w) (link_sent w) (schedule w)
    (S (sleeps w)).

(** ** Methods as state transformers that may raise *)

Definition M (A : Type) : Type := World -> res A * World.

Definition ret {A : Type} (a : A) : M A := fun w => (Ok a, w).

Definition bind {A B : Type} (c : M A) (k : A -> M B) : M B :=
  fun w =>
    match c w with
    | (Ok a, w') => k a w'
    | (Raise e, w') => (Raise e, w')
    | (Diverged, w') => (Diverged, w')
    end.

Definition raise {A : Type} (k : exc_kind) (msg : string) : M A :=
  fun w => (Raise (mkExc k msg), w).

(** A pure computation that may raise, run inside a method. *)
Definition lift {A : Type} (r : res A) : M A := fun w => (r, w).

Definition gets {A : Type} (f : World -> A) : M A := fun w => (Ok (f w), w).

Definition modify (f : World -> World) : M unit := fun w => (Ok tt, f w).

(** [try: c  except Exception as exc: h exc]. *)
Definition try_except {A : Type} (c : M A) (h : exc -> M A) : M A :=
  fun w =>
    match c w with
    | (Raise e, w') => h e w'
    | r => r
    end.

Declare Scope py_scope.
Delimit Scope py_scope with py.
Notation "x <- c ;; k" := (bind c (fun x => k))
  (at level 61, c at next level, right associativity) : py_scope.
Notation "c ;; k" := (bind c (fun _ => k))
  (at level 61, right associativity) : py_scope.
Local Open Scope py_scope.

(** [self.state[k] = v]. *)
Definition state_set (k : string) (v : pyval) : M unit :=
  modify (fun w => with_state (dict_set k v (state w)) w).

(** [self.state.get(k)]. *)
Definition state_get (k : string) : M pyval :=
  gets (fun w => dict_get k (state w)).

(** [int(time.time() * 1000)]. *)
Definition now_ms : M Z := gets (fun w => Qtrunc (wall w * 1000)).

Definition emit (payload : dict) : M unit :=
  modify (fun w => with_stdout (stdout w ++ [payload]) w).

Definition log (msg : string) (level : string) : M unit :=
  emit [("type", PStr "log"); ("level", PStr level); ("message", PStr msg)].

Definition emit_state : M unit :=
  st <- gets state ;;
  emit [("type", PStr "telemetry"); ("data", PDict st)].

Section Bridge.
Context {host : Host}.

Definition update_status (text : string) (hold_seconds : option Q) : M unit :=
  let hold := match hold_seconds with
              | None => STATUS_HOLD_SECONDS
              | Some h => h
              end in
  state_set "status" (PStr text) ;;
  t <- now_ms ;;
  state_set "statusTimestamp" (PInt t) ;;
  modify (fun w => with_status_hold_until (monotonic w + hold) w) ;;
  emit_state.

End Bridge.

Section Handlers.
Context {host : Host}.

(** ** [handle_message] *)

(** The integer a hashable object equals, if any; a list or dict is not
    hashable ([status_enum.get(system_status)]). *)
Definition enum_key (v : pyval) : res (option Z) :=
  match v with
  | PList _ | PDict _ => Raise (mkExc TypeError "unhashable type")
  | PBool b => Ok (Some (Z_of_bool b))
  | PInt z => Ok (Some z)
  | PFloat (Fin q) =>
      if Qeq_bool q (inject_Z (Qfloor q)) then Ok (Some (Qfloor q)) else Ok None
  | _ => Ok None
  end.

(** [getattr(status_enum.get(system_status), "name", str(system_status))]. *)
Definition system_status_name (system_status : pyval) : res string :=
  match enum_key system_status with
  | Ok key =>
      match match key with
            | Some z => assoc_Z z mavlink.MAV_STATE
            | None => None
            end with
      | Some name => Ok name
      | None => Ok (py_str system_status)
      end
  | Raise e => Raise e
  | Diverged => Diverged
  end.

Definition on_heartbeat (msg : Message) : M unit :=
  let base_mode := getattr msg "base_mode" (PInt 0) in
  let system_status := getattr msg "system_status" PNone in
  armed <- lift (py_and_int base_mode mavlink.MAV_MODE_FLAG_SAFETY_ARMED) ;;
  state_set "armed" (PBool (negb (armed =? 0)%Z)) ;;
  state_set "ready"
    (PBool (py_eq_int system_status mavlink.MAV_STATE_STANDBY
            || py_eq_int system_status mavlink.MAV_STATE_ACTIVE)) ;;
  match system_status with
  | PNone => ret tt
  | _ =>
      name <- lift (system_status_name system_status) ;;
      state_set "system_status" (PStr name) ;;
      now <- gets monotonic ;;
      hold_until <- gets _status_hold_until ;;
      if Qle_bool hold_until now then
        s <- state_get "system_status" ;;
        state_set "status" s ;;
        t <- now_ms ;;
        state_set "statusTimestamp" (PInt t)
      else ret tt
  end ;;
  state_set "mode" (py_or (PStr (mode_string_v10 msg)) (PStr "UNKNOWN")) ;;
  state_set "mode_id" (getattr msg "custom_mode" PNone) ;;
  state_set "system_id" (PInt (get_srcSystem msg)) ;;
  state_set "component_id" (PInt (get_srcComponent msg)) ;;
  emit_state.

(** [raw / d if raw is not None else None]. *)
Definition scaled (raw : pyval) (d : Q) : res pyval :=
  match raw with
  | PNone => Ok PNone
  | _ =>
      match py_truediv raw d with
      | Ok f => Ok (PFloat f)
      | Raise e => Raise e
      | Diverged => Diverged
      end
  end.

(** Lines 449-456: the position fields, converted. *)
Definition store_position (msg : Message) : M unit :=
  let lat := getattr msg "lat" PNone in
  let lon := getattr msg "lon" PNone in
  let alt := getattr msg "alt" PNone in
  let rel := getattr msg "relative_alt" PNone in
  v <- lift (scaled lat 10000000) ;; state_set "lat" v ;;
  v <- lift (scaled lon 10000000) ;; state_set "lon" v ;;
  v <- lift (scaled alt 1000) ;; state_set "alt" v ;;
  v <- lift (scaled rel 1000) ;; state_set "relative_alt" v.

(** [isinstance(v, (int, float))], and then [int(v)]. *)
Definition is_int_or_float (v : pyval) : bool :=
  match v with PBool _ | PInt _ | PFloat _ => true | _ => false end.

Definition py_int_of_number (v : pyval) : res Z :=
  match v with
  | PBool b => Ok (Z_of_bool b)
  | PInt z => Ok z
  | PFloat f => int_of_float f
  | _ => Raise (mkExc TypeError "int() argument must be a number")
  end.

(** Lines 457-482: the vehicle-boot-clock estimator and the diagnostics. *)
Definition reconcile_boot_clock (msg : Message) : M unit :=
  now <- now_ms ;;
  let vehicle_boot := getattr msg "time_boot_ms" PNone in
  r <- (if is_int_or_float vehicle_boot then
          vb <- lift (py_int_of_number vehicle_boot) ;;
          off <- gets _vehicle_boot_offset ;;
          last <- gets _last_vehicle_boot_ms ;;
          let off' :=
            match off, last with
            | Some o, Some l => if (vb <? l)%Z then (now - vb)%Z else o
            | _, _ => (now - vb)%Z
            end in
          modify (with_boot_clock (Some off') (Some vb)) ;;
          let estimated_host := (off' + vb)%Z in
          let skew_ms := (now - estimated_host)%Z in
          dbg <- gets _debug_timing ;;
          (if dbg && (250 <? Z.abs skew_ms)%Z then
             log ("GPS timestamp skew " ++ str_of_Z skew_ms
                  ++ " ms (vehicle_boot=" ++ str_of_Z vb
                  ++ " offset=" ++ str_of_Z off' ++ ")") "error"
           else ret tt) ;;
          ret (PInt vb, Some skew_ms)
        else ret (vehicle_boot, None)) ;;
  let vehicle_boot := fst r in
  let skew_ms := snd r in
  state_set "last_gps_host_timestamp" (PInt now) ;;
  off <- gets _vehicle_boot_offset ;;
  v <- match vehicle_boot with
       | PNone => ret PNone
       | PInt vb =>
           ret (PInt (vb + match off with
                           | Some o => if (o =? 0)%Z then 0 else o
                           | None => 0
                           end)%Z)
       | _ => raise TypeError "unsupported operand type(s) for +"
       end ;;
  state_set "last_gps_vehicle_timestamp" v ;;
  state_set "last_gps_vehicle_skew_ms" (opt_int skew_ms) ;;
  st <- gets state ;;
  modify (with_latest_mav
            (mkMav (Some now) (dict_get "lat" st) (dict_get "lon" st)
                   (dict_get "alt" st) (dict_get "relative_alt" st))) ;;
  emit_state.

Definition on_global_position_int (msg : Message) : M unit :=
  store_position msg ;;
  reconcile_boot_clock msg.

Definition on_gps_raw_int (msg : Message) : M unit :=
  state_set "gps_fix_type" (getattr msg "fix_type" PNone) ;;
  state_set "satellites_visible" (getattr msg "satellites_visible" PNone) ;;
  let eph := getattr msg "eph" PNone in
  hdop <- match eph with
          | PNone => ret None
          | _ =>
              if py_eq_int eph 65535 then ret None
              else
                try_except
                  (f <- lift (py_float eph) ;; ret (Some (fdiv_pos f 100)))
                  (fun e =>
                     if exc_kind_eqb (kind e) TypeError
                        || exc_kind_eqb (kind e) ValueError
                     then ret None else lift (Raise e))
          end ;;
  state_set "hdop" (opt_float hdop) ;;
  emit_state.

Definition on_vfr_hud (msg : Message) : M unit :=
  v <- lift (_safe_float (getattr msg "heading" PNone)) ;;
  state_set "heading" (opt_float v) ;;
  v <- lift (_safe_float (getattr msg "alt" PNone)) ;;
  state_set "baro_alt" (opt_float v) ;;
  v <- lift (_safe_float (getattr msg "climb" PNone)) ;;
  state_set "climb" (opt_float v) ;;
  emit_state.

Definition handle_message (msg : Message) : M unit :=
  let mtype := get_type msg in
  if String.eqb mtype "HEARTBEAT" then on_heartbeat msg
  else if String.eqb mtype "GLOBAL_POSITION_INT" then on_global_position_int msg
  else if String.eqb mtype "GPS_RAW_INT" then on_gps_raw_int msg
  else if String.eqb mtype "VFR_HUD" then on_vfr_hud msg
  else ret tt.

End Handlers.

(** ** CSV text and base64, as the standard library produces them *)

Definition quotechar : ascii := "034"%char.
Definition CR : ascii := "013"%char.
Definition LF : ascii := "010"%char.
Definition CRLF : string := String CR (String LF EmptyString).

Fixpoint str_exists (p : ascii -> bool) (s : string) : bool :=
  match s with
  | EmptyString => false
  | String c r => p c || str_exists p r
  end.

Fixpoint double_quotes (s : string) : string :=
  match s with
  | EmptyString => EmptyString
  | String c r =>
      if Ascii.eqb c quotechar then String c (String c (double_quotes r))
      else String c (double_quotes r)
  end.

(** A field under the default dialect (minimal quoting). *)
Definition csv_quote (s : string) : string :=
  if str_exists (fun c => Ascii.eqb c ","%char || Ascii.eqb c quotechar
                          || Ascii.eqb c CR || Ascii.eqb c LF) s
  then String quotechar (double_quotes s ++ String quotechar EmptyString)
  else s.

Fixpoint join (sep : string) (l : list string) : string :=
  match l with
  | [] => EmptyString
  | [x] => x
  | x :: r => x ++ sep ++ join sep r
  end.

Definition header : list string :=
  [ "timestamp_log"; "timestamp_slam"; "slam_x"; "slam_y"; "slam_z";
    "timestamp_mavlink"; "gps_lat"; "gps_lon"; "gps_alt"; "gps_alt_rel" ].

Definition b64_alphabet : string :=
  "ABCDEFGHIJKLMNOPQRSTUVWXYZabcdefghijklmnopqrstuvwxyz0123456789+/".

Definition b64_digit (n : nat) : ascii :=
  match String.get n b64_alphabet with Some c => c | None => "="%char end.

(** [base64.b64encode] on the bytes of a string. *)
Fixpoint b64encode (s : string) : string :=
  match s with
  | EmptyString => EmptyString
  | String a EmptyString =>
      let x := nat_of_ascii a in
      String (b64_digit (x / 4))
        (String (b64_digit ((x mod 4) * 16)) "==")
  | String a (String b EmptyString) =>
      let x := nat_of_ascii a in
      let y := nat_of_ascii b in
      String (b64_digit (x / 4))
        (String (b64_digit ((x mod 4) * 16 + y / 16))
           (String (b64_digit ((y mod 16) * 4)) "="))
  | String a (String b (String c r)) =>
      let x := nat_of_ascii a in
      let y := nat_of_ascii b in
      let z := nat_of_ascii c in
      String (b64_digit (x / 4))
        (String (b64_digit ((x mod 4) * 16 + y / 16))
           (String (b64_digit ((y mod 16) * 4 + z / 64))
              (String (b64_digit (z mod 64)) (b64encode r))))
  end.

Fixpoint index_in (c : ascii) (s : string) (i : nat) : option nat :=
  match s with
  | EmptyString => None
  | String c' r => if Ascii.eqb c c' then Some i else index_in c r (S i)
  end.

Definition b64_value (c : ascii) : option nat := index_in c b64_alphabet 0.

(** The inverse of [b64encode] on padded base64 text. *)
Fixpoint b64decode (s : string) : option string :=
  match s with
  | EmptyString => Some EmptyString
  | String c1 (String c2 (String c3 (String c4 r))) =>
      match b64_value c1, b64_value c2 with
      | Some i1, Some i2 =>
          let a := ascii_of_nat (i1 * 4 + i2 / 16) in
          match b64_value c3, b64_value c4 with
          | Some i3, Some i4 =>
              match b64decode r with
              | Some t =>
                  Some (String a
                          (String (ascii_of_nat ((i2 mod 16) * 16 + i3 / 4))
                             (String (ascii_of_nat ((i3 mod 4) * 64 + i4)) t)))
              | None => None
              end
          | Some i3, None =>
              if (Ascii.eqb c4 "="%char && String.eqb r "")%bool
              then Some (String a
                           (String (ascii_of_nat ((i2 mod 16) * 16 + i3 / 4))
                              EmptyString))
              else None
          | None, _ =>
              if (Ascii.eqb c3 "="%char && Ascii.eqb c4 "="%char
                  && String.eqb r "")%bool
              then Some (String a EmptyString)
              else None
          end
      | _, _ => None
      end
  | _ => None
  end.

Section Recorder.
Context {host : Host}.

(** [csv.writer]: a field is written as [str] of the value, [None] as the
    empty string. *)
Definition csv_field (v : pyval) : string :=
  match v with
  | PNone => ""
  | _ => py_str v
  end.

Definition csv_line (fields : list string) : string :=
  match fields with
  | [f] => if String.eqb f "" then String quotechar (String quotechar CRLF)
           else csv_quote f ++ CRLF
  | _ => join "," (map csv_quote fields) ++ CRLF
  end.

Definition writerow (row : list pyval) : string :=
  csv_line (map csv_field row).

Definition writerows (rows : list (list pyval)) : string :=
  String.concat "" (map writerow rows).

(** ** The recorder and the pose executor *)

Definition append_log_row : M unit :=
  slam <- gets latest_slam ;;
  mav <- gets latest_mav ;;
  match slam_timestamp slam, slam_x slam, slam_y slam, slam_z slam with
  | Some ts, Some x, Some y, Some z =>
      log_time <- now_ms ;;
      let log_vs_slam := (log_time - ts)%Z in
      state_set "last_log_delta_ms" (PInt log_vs_slam) ;;
      dbg <- gets _debug_timing ;;
      (if dbg && (250 <? Z.abs log_vs_slam)%Z then
         log ("LOG timestamp vs SLAM skew " ++ str_of_Z log_vs_slam
              ++ " ms (slam=" ++ str_of_Z ts
              ++ " log=" ++ str_of_Z log_time ++ ")") "error"
       else ret tt) ;;
      let row := [ PInt log_time; PInt ts; PFloat x; PFloat y; PFloat z;
                   opt_int (mav_timestamp mav); mav_lat mav; mav_lon mav;
                   mav_alt mav; mav_rel mav ] in
      modify (fun w => with_csv_rows (csv_rows w ++ [row]) w)
  | _, _, _, _ => ret tt
  end.

(** Lines 312-318: the pose timestamp, in milliseconds. *)
Definition pose_timestamp (raw : pyval) : M Z :=
  timestamp <- lift (_safe_float raw) ;;
  match timestamp with
  | None => now_ms
  | Some f =>
      timestamp <- lift (int_of_float f) ;;
      if (timestamp <? 10 ^ 12)%Z then ret (timestamp * 1000)%Z
      else ret timestamp
  end.

(** [self._safe_float(payload.get(k))]. *)
Definition safe_float_of (payload : pyval) (k : string) : M (option pyfloat) :=
  v <- lift (py_get payload k) ;;
  lift (_safe_float v).

Definition store_slam_pose (payload : pyval) : M unit :=
  if negb (py_truthy payload) then ret tt
  else
    raw <- lift (py_get payload "timestamp") ;;
    timestamp <- pose_timestamp raw ;;
    x <- safe_float_of payload "x" ;;
    y <- safe_float_of payload "y" ;;
    z <- safe_float_of payload "z" ;;
    qw <- safe_float_of payload "qw" ;;
    qx <- safe_float_of payload "qx" ;;
    qy <- safe_float_of payload "qy" ;;
    qz <- safe_float_of payload "qz" ;;
    match x, y, z with
    | Some _, Some _, Some _ =>
        host_now <- now_ms ;;
        let delta := (host_now - timestamp)%Z in
        state_set "last_slam_timestamp" (PInt timestamp) ;;
        state_set "last_slam_host_timestamp" (PInt host_now) ;;
        state_set "last_slam_delta_ms" (PInt delta) ;;
        dbg <- gets _debug_timing ;;
        (if dbg && (250 <? Z.abs delta)%Z then
           log ("SLAM timestamp skew " ++ str_of_Z delta
                ++ " ms (payload=" ++ str_of_Z timestamp ++ ")") "error"
         else ret tt) ;;
        modify (with_latest_slam (mkSlam (Some timestamp) x y z qw qx qy qz)) ;;
        active <- gets logging_active ;;
        if active then append_log_row else ret tt
    | _, _, _ => ret tt
    end.

Definition start_csv_logging : M pyval :=
  modify (with_csv_rows []) ;;
  modify (with_logging_active true) ;;
  update_status "CSV: recording" (Some 2) ;;
  ret (PDict [("status", PStr "started")]).

Definition stop_csv_logging : M pyval :=
  active <- gets logging_active ;;
  if negb active then raise RuntimeError "CSV belum dimulai"
  else
    modify (with_logging_active false) ;;
    rows <- gets csv_rows ;;
    let csv_text := (csv_line header ++ writerows rows)%string in
    modify (with_csv_rows []) ;;
    t <- gets wall ;;
    let file_name := ("slam-log-" ++ str_of_Z (Qtrunc t) ++ ".csv")%string in
    let encoded := b64encode csv_text in
    ret (PDict [("csv", PStr encoded); ("file_name", PStr file_name)]).

End Recorder.

(** ** Waiting, and the vehicle commands *)

Section Commands.
Context {host : Host}.

(** [time.sleep(interval)] in an executor thread: the clocks move on by the
    interval and the overrun, and the receive loop handles the messages
    the schedule delivers meanwhile; an exception in the receive loop is
    not the executor's. *)
Definition sleep (interval : Q) : M unit :=
  fun w =>
    let i := schedule w (sleeps w) in
    let dt := interval + inject_Z (Z.of_N (overrun_ms i)) / 1000 in
    (Ok tt,
     fold_left (fun acc msg => snd (handle_message msg acc)) (delivered i)
       (with_slept dt w)).

(** The loop of [wait_until]; [budget] bounds the number of polls. *)
Fixpoint wait_loop (budget : nat) (predicate : M bool) (end_time : Q)
    (description : string) (interval : Q) : M unit :=
  fun w =>
    if Qle_bool (monotonic w) end_time then
      match budget with
      | O => (Diverged, w)
      | S n =>
          (b <- predicate ;;
           if (b : bool) then ret tt
           else sleep interval ;;
                wait_loop n predicate end_time description interval) w
      end
    else raise TimeoutError ("Timed out waiting for " ++ description) w.

(** No more than [timeout / interval + 1] polls fit before the deadline. *)
Definition polls (timeout interval : Q) : nat :=
  S (Z.to_nat (Qfloor (timeout / interval))).

Definition wait_until (predicate : M bool) (timeout : Q)
    (description : string) (interval : Q) : M unit :=
  fun w =>
    let end_time := monotonic w + timeout in
    wait_loop (polls timeout interval) predicate end_time description
      interval w.

(** The default [interval=0.5] of [wait_until], which every caller takes. *)
Definition interval_default : Q := 1 # 2.

Definition set_mode (mode_name : string) : M unit :=
  m <- gets master ;;
  match m with
  | None => raise RuntimeError "Vehicle connection not ready"
  | Some link =>
      if String.eqb mode_name "" then raise ValueError "Mode name is required"
      else
        let mapping := match mode_mapping link with Some t => t | None => [] end in
        match assoc_str mode_name mapping with
        | None => raise ValueError ("Mode '" ++ mode_name ++ "' not supported")
        | Some mode_id =>
            let base_mode := mavlink.MAV_MODE_FLAG_CUSTOM_MODE_ENABLED in
            let base_mode :=
              match assoc_str mode_name MODE_EXTRA_FLAGS with
              | Some extra_flag =>
                  if (extra_flag =? 0)%Z then base_mode
                  else Z.lor base_mode extra_flag
              | None => base_mode
              end in
            modify (fun w =>
              with_link_sent
                (link_sent w ++
                 [ command_long_send (target_system link) (target_component link)
                     mavlink.MAV_CMD_DO_SET_MODE 0
                     [PInt base_mode; PInt mode_id; PInt 0; PInt 0; PInt 0;
                      PInt 0; PInt 0];
                   set_mode_send (target_system link) base_mode mode_id ]) w)
        end
  end.

Definition arm (should_arm : bool) : M unit :=
  m <- gets master ;;
  match m with
  | None => raise RuntimeError "Vehicle connection not ready"
  | Some link =>
      modify (fun w =>
        with_link_sent
          (link_sent w ++
           [ command_long_send (target_system link) (target_component link)
               mavlink.MAV_CMD_COMPONENT_ARM_DISARM 0
               [PInt (if should_arm then 1 else 0); PInt 0; PInt 0; PInt 0;
                PInt 0; PInt 0; PInt 0] ]) w)
  end.

Definition send_takeoff_command (altitude : pyfloat) : M unit :=
  m <- gets master ;;
  match m with
  | None => raise RuntimeError "Vehicle connection not ready"
  | Some link =>
      modify (fun w =>
        with_link_sent
          (link_sent w ++
           [ command_long_send (target_system link) (target_component link)
               mavlink.MAV_CMD_NAV_TAKEOFF 0
               [PInt 0; PInt 0; PInt 0; PInt 0; PInt 0; PInt 0;
                PFloat altitude] ]) w)
  end.

(** [(self.state.get("mode") or "").upper() == "GUIDED"]. *)
Definition mode_is_guided : M bool :=
  v <- state_get "mode" ;;
  match py_or v (PStr "") with
  | PStr s => ret (String.eqb (upper s) "GUIDED")
  | other =>
      raise AttributeError
        ("'" ++ type_name other ++ "' object has no attribute 'upper'")
  end.

(** [bool(self.state.get(k))]. *)
Definition state_flag (k : string) : M bool :=
  v <- state_get k ;;
  ret (py_truthy v).

(** [(self.state.get("relative_alt") or 0) >= altitude * 0.95]. *)
Definition altitude_reached (altitude : pyfloat) : M bool :=
  v <- state_get "relative_alt" ;;
  lift (py_ge_float (py_or v (PInt 0)) (fmul_pos altitude (95 # 100))).

Definition takeoff_sequence (altitude : pyfloat) : M unit :=
  m <- gets master ;;
  match m with
  | None => raise RuntimeError "Vehicle connection not ready"
  | Some _ =>
      let target_text :=
        rstrip_char "."%char (rstrip_char "0"%char (format_1f altitude)) in
      update_status "TAKEOFF: switching to GUIDED" None ;;
      set_mode "GUIDED" ;;
      wait_until mode_is_guided 15 "mode GUIDED" interval_default ;;
      update_status "TAKEOFF: waiting for vehicle ready" None ;;
      wait_until (state_flag "ready") 15 "vehicle ready" interval_default ;;
      update_status "TAKEOFF: arming motors" None ;;
      arm true ;;
      wait_until (state_flag "armed") 20 "vehicle arm" interval_default ;;
      update_status ("TAKEOFF: climbing to " ++ target_text ++ " m") None ;;
      send_takeoff_command altitude ;;
      wait_until (altitude_reached altitude) 90 "target altitude"
        interval_default ;;
      update_status "TAKEOFF: sequence complete" (Some 6)
  end.

(** ** The dispatcher's executor *)

Definition py_is_str (v : pyval) (s : string) : bool :=
  match v with PStr t => String.eqb t s | _ => false end.

Definition handle_command (payload : dict) : M pyval :=
  let command_type := dict_get "type" payload in
  if py_is_str command_type "set_mode" then
    let mode_name :=
      upper (strip (py_str (py_or (dict_get "mode" payload) (PStr "")))) in
    set_mode mode_name ;;
    ret PNone
  else if py_is_str command_type "takeoff" then
    let altitude := dict_get "altitude" payload in
    altitude_value <-
      try_except (lift (py_float altitude))
        (fun e =>
           if exc_kind_eqb (kind e) TypeError
              || exc_kind_eqb (kind e) ValueError
           then ret (Fin 30) else lift (Raise e)) ;;
    let altitude_value :=
      if fgt0 altitude_value then altitude_value else Fin 30 in
    takeoff_sequence altitude_value ;;
    ret PNone
  else if py_is_str command_type "slam_pose" then
    store_slam_pose (dict_get "data" payload) ;;
    ret PNone
  else if py_is_str command_type "csv_start" then start_csv_logging
  else if py_is_str command_type "csv_stop" then stop_csv_logging
  else ret PNone.

(** The literal dict of [execute_command]: command type to result type. *)
Definition RESULT_TYPES : list (string * string) :=
  [ ("set_mode", "mode_result"); ("takeoff", "takeoff_result");
    ("csv_start", "csv_start_result"); ("csv_stop", "csv_stop_result") ].

(** [RESULT_TYPES.get(command_type)]; a list or dict is not hashable. *)
Definition result_type_of (command_type : pyval) : res (option string) :=
  match command_type with
  | PStr s => Ok (assoc_str s RESULT_TYPES)
  | PList _ | PDict _ => Raise (mkExc TypeError "unhashable type")
  | _ => Ok None
  end.

Definition execute_command (payload : dict) : M unit :=
  let command_type := dict_get "type" payload in
  let request_id := dict_get "request_id" payload in
  result_type <- lift (result_type_of command_type) ;;
  try_except
    (result_payload <- handle_command payload ;;
     match result_type with
     | Some rt =>
         let response :=
           [("type", PStr rt); ("ok", PBool true); ("request_id", request_id)] in
         let response :=
           match result_payload with
           | PDict d => dict_update response d
           | _ => response
           end in
         emit response
     | None => ret tt
     end)
    (fun exc =>
       match result_type with
       | Some rt =>
           emit [("type", PStr rt); ("ok", PBool false);
                 ("request_id", request_id); ("error", PStr (message exc))]
       | None => ret tt
       end ;;
       log ("Command " ++ py_str command_type ++ " failed: " ++ message exc)
         "error").

End Commands.

(** ** The bridge as [__init__] leaves it *)

Definition initial_state : dict :=
  [ ("lat", PNone); ("lon", PNone); ("alt", PNone); ("relative_alt", PNone);
    ("gps_fix_type", PNone); ("satellites_visible", PNone); ("hdop", PNone);
    ("baro_alt", PNone); ("heading", PNone); ("climb", PNone);
    ("last_slam_timestamp", PNone); ("last_slam_host_timestamp", PNone);
    ("last_slam_delta_ms", PNone); ("last_gps_host_timestamp", PNone);
    ("last_gps_vehicle_timestamp", PNone); ("last_gps_vehicle_skew_ms", PNone);
    ("last_log_delta_ms", PNone); ("armed", PBool false); ("ready", PBool false);
    ("status", PStr "Idle"); ("system_status", PStr "Unknown");
    ("mode", PStr "Unknown"); ("mode_id", PNone); ("system_id", PNone);
    ("component_id", PNone); ("statusTimestamp", PNone) ].

(** A new bridge at the given clock readings; [link] is what [connect]
    stored in [self.master], if it already ran. *)
Definition new_bridge (link : option Link) (debug : bool) (wall0 mono0 : Q)
    (sched : nat -> Interference) : World :=
  mkWorld link initial_state debug None None 0 false []
    (mkSlam None None None None None None None None)
    (mkMav None PNone PNone PNone PNone)
    wall0 mono0 [] [] sched O.

(** ** A host to run the model on

    Floats print as plain decimals (exact when the expansion ends within 17
    digits) and parse from plain decimals; containers print without their
    elements' escapes.  CPython agrees on the short decimals used in the
    examples below. *)

Fixpoint frac_digits (n : nat) (r d : Z) : string :=
  match n with
  | O => ""
  | S n' =>
      if (r =? 0)%Z then ""
      else str_of_Z (r * 10 / d) ++ frac_digits n' ((r * 10) mod d)%Z d
  end.

Definition plain_float_repr (f : pyfloat) : string :=
  match f with
  | NaN => "nan"
  | Inf s => if s then "-inf" else "inf"
  | Fin q =>
      let n := Z.abs (Qnum q) in
      let d := Zpos (Qden q) in
      let frac := frac_digits 17 (n mod d)%Z d in
      ((if (Qnum q <? 0)%Z then "-" else "")
         ++ str_of_Z (n / d) ++ "."
         ++ (if String.eqb frac "" then "0" else frac))%string
  end.

Definition digit_of (c : ascii) : option Z :=
  let n := nat_of_ascii c in
  if ((48 <=? n) && (n <=? 57))%nat then Some (Z.of_nat (n - 48)) else None.

(** Leading digits of [s]: their value after [acc], how many, the rest. *)
Fixpoint read_digits (s : string) (acc : Z) (count : nat) : Z * nat * string :=
  match s with
  | EmptyString => (acc, count, s)
  | String c r =>
      match digit_of c with
      | Some v => read_digits r (acc * 10 + v)%Z (S count)
      | None => (acc, count, s)
      end
  end.

Definition plain_float_of_str (s : string) : option pyfloat :=
  let s := strip s in
  let '(neg, s) :=
    match s with
    | String "-"%char r => (true, r)
    | String "+"%char r => (false, r)
    | _ => (false, s)
    end in
  if String.eqb s "nan" then Some NaN
  else if String.eqb s "inf" then Some (Inf neg)
  else
    let '(ip, n1, rest) := read_digits s 0%Z O in
    let '(all, n2, rest) :=
      match rest with
      | String "."%char r => read_digits r ip O
      | _ => (ip, O, rest)
      end in
    if (String.eqb rest "" && negb (Nat.eqb (n1 + n2) 0))%bool then
      let q := inject_Z all / inject_Z (10 ^ Z.of_nat n2) in
      Some (fin (if neg then - q else q))
    else None.

Fixpoint plain_repr (v : pyval) : string :=
  match v with
  | PNone => "None"
  | PBool b => if b then "True" else "False"
  | PInt z => str_of_Z z
  | PFloat f => plain_float_repr f
  | PStr s => "'" ++ s ++ "'"
  | PList l => "[" ++ join ", " (map plain_repr l) ++ "]"
  | PDict d =>
      "{" ++ join ", "
               (map (fun kv => "'" ++ fst kv ++ "': " ++ plain_repr (snd kv)) d)
          ++ "}"
  end.

Definition plain_host : Host := {|
  float_repr := plain_float_repr;
  float_of_str := plain_float_of_str;
  container_str := plain_repr;
  STATUS_HOLD_SECONDS := 4
|}.

(** ** Vocabulary of the properties *)

(** A line of standard output that is a CommandResult: its type is one of
    the result types. *)
Definition is_command_result (line : dict) : bool :=
  match dict_get "type" line with
  | PStr t => existsb (String.eqb t) (map snd RESULT_TYPES)
  | _ => false
  end.

Definition is_log_line (line : dict) : bool :=
  match dict_get "type" line with
  | PStr t => String.eqb t "log"
  | _ => false
  end.

(** The two fields of the vehicle-boot-clock estimator are set together. *)
Definition boot_clock_consistent (w : World) : Prop :=
  _vehicle_boot_offset w = None <-> _last_vehicle_boot_ms w = None.

(** [only_state w w']: [w'] differs from [w] in the state dict at most. *)
Definition only_state (w w' : World) : Prop := w' = with_state (state w') w.

(** [frames R c]: whatever [c] returns or raises, the world it leaves is
    [R]-related to the one it started from. *)
Definition frames {A : Type} (R : World -> World -> Prop) (c : M A) : Prop :=
  forall w, R w (snd (c w)).

(** [keeps_keys touched w w']: every key of the state dict outside
    [touched] reads the same in [w'] as in [w]. *)
Definition keeps_keys (touched : list string) (w w' : World) : Prop :=
  forall k, existsb (String.eqb k) touched = false ->
            dict_get k (state w') = dict_get k (state w).

(** The value of a raw field that is a bool, an int or a finite float. *)
Definition number_value (v : pyval) : option Q :=
  match v with
  | PBool b => Some (inject_Z (Z_of_bool b))
  | PInt z => Some (inject_Z z)
  | PFloat (Fin q) => Some q
  | _ => None
  end.

(** [float(v)] fails: [v] is missing ([None]) or not numeric. *)
Definition unconvertible {host : Host} (v : pyval) : Prop :=
  forall f, py_float v <> Ok f.

(** Message type, raw field and state key of the numeric fields that
    [handle_message] converts (lines 448-456 and 506-511). *)
Definition numeric_fields : list (string * string * string) :=
  [ ("GLOBAL_POSITION_INT", "lat", "lat");
    ("GLOBAL_POSITION_INT", "lon", "lon");
    ("GLOBAL_POSITION_INT", "alt", "alt");
    ("GLOBAL_POSITION_INT", "relative_alt", "relative_alt");
    ("VFR_HUD", "heading", "heading");
    ("VFR_HUD", "alt", "baro_alt");
    ("VFR_HUD", "climb", "climb") ].

(** The reading of "a field whose conversion fails keeps its previous
    value". *)
Definition unconverted_field_kept {host : Host} : Prop :=
  forall (msg : Message) (w : World) (field key : string),
    In (get_type msg, field, key) numeric_fields ->
    unconvertible (getattr msg field PNone) ->
    dict_get key (state (snd (handle_message msg w)))
    = dict_get key (state w).

(** The reading of "starting while a session is active is an error". *)
Definition start_fails_when_active {host : Host} : Prop :=
  forall w, logging_active w = true ->
            exists e, fst (start_csv_logging w) = Raise e.

(** A field text that the CSV writer leaves as it is: it holds no comma,
    double quote, carriage return or line feed. *)
Definition unquoted (s : string) : bool :=
  negb (str_exists (fun c => Ascii.eqb c ","%char || Ascii.eqb c quotechar
                             || Ascii.eqb c CR || Ascii.eqb c LF) s).

(** A buffered row of at least two fields, each written as it is. *)
Definition plain_row {host : Host} (row : list pyval) : bool :=
  (2 <=? length row)%nat && forallb (fun v => unquoted (csv_field v)) row.

(** [lifecycle_name s name]: [name] is the name of the MAV_STATE entry of
    value [s], or the decimal text of [s] where the enum has no such
    entry. *)
Definition lifecycle_name (s : Z) (name : string) : Prop :=
  In (s, name) mavlink.MAV_STATE \/
  ((forall n, ~ In (s, n) mavlink.MAV_STATE) /\ name = str_of_Z s).

(** The reading of "a numeric value below 10^12 is multiplied by 1000, a
    value at or above 10^12 is left unchanged". *)
Definition timestamp_scaled_as_stated {host : Host} : Prop :=
  forall (raw : pyval) (q : Q) (w : World) (ts : Z),
    py_float raw = Ok (Fin q) ->
    fst (pose_timestamp raw w) = Ok ts ->
    (q < 1000000000000 -> inject_Z ts == q * 1000) /\
    (1000000000000 <= q -> inject_Z ts == q).

(** None of the four quaternion components of a pose is an int beyond the
    floats: their conversions (lines 322-325) return. *)
Definition quaternion_within (d : dict) : bool :=
  forallb (fun k => negb (beyond_float (dict_get k d))) ["qw"; "qx"; "qy"; "qz"].

(** [logs_only w w']: standard output grew by log lines only. *)
Definition logs_only (w w' : World) : Prop :=
  exists added, stdout w' = (stdout w ++ added)%list /\
                Forall (fun l => is_log_line l = true) added.

(** [terminates c]: [c] returns or raises. *)
Definition terminates {A : Type} (c : M A) : Prop :=
  forall w, fst (c w) <> Diverged.

(** The world after [k] sleeps of a waiting executor. *)
Definition after_sleeps {host : Host} (interval : Q) (k : nat) (w : World) : World :=
  Nat.iter k (fun w => snd (sleep interval w)) w.

(** The world in which the first wait of [takeoff_sequence] begins. *)
Definition guided_wait_start {host : Host} (w : World) : World :=
  snd (bind (update_status "TAKEOFF: switching to GUIDED" None)
            (fun _ => set_mode "GUIDED") w).

(** The mode field, read as the first wait reads it, is not "GUIDED". *)
Definition mode_not_guided (w : World) : Prop :=
  match dict_get "mode" (state w) with
  | PStr s => upper s <> "GUIDED"
  | v => py_truthy v = false
  end.

Definition is_arm_or_takeoff (c : LinkCmd) : bool :=
  match c with
  | command_long_send _ _ command _ _ =>
      (command =? mavlink.MAV_CMD_COMPONENT_ARM_DISARM)%Z
      || (command =? mavlink.MAV_CMD_NAV_TAKEOFF)%Z
  | set_mode_send _ _ _ => false
  end.

(** [executor_view w w']: the link, what was sent through it and the
    schedule are the same, and standard output grew by lines that are no
    CommandResult. *)
Definition executor_view (w w' : World) : Prop :=
  master w' = master w /\ link_sent w' = link_sent w /\
  schedule w' = schedule w /\
  exists added, stdout w' = (stdout w ++ added)%list /\
                Forall (fun l => is_command_result l = false) added.

(** No HEARTBEAT that the schedule delivers reports the mode GUIDED. *)
Definition never_reports_guided (sched : nat -> Interference) : Prop :=
  forall n msg, In msg (delivered (sched n)) ->
                get_type msg = "HEARTBEAT" ->
                upper (mode_string_v10 msg) <> "GUIDED".

Definition telemetry_keys : list string :=
  [ "lat"; "lon"; "alt"; "relative_alt"; "last_gps_host_timestamp";
    "last_gps_vehicle_timestamp"; "last_gps_vehicle_skew_ms"; "gps_fix_type";
    "satellites_visible"; "hdop"; "heading"; "baro_alt"; "climb" ].

(** ** Sample inputs *)

(** No overrun and no message during any sleep. *)
Definition quiet : nat -> Interference := fun _ => mkInterference 0 [].

Definition sample_link : Link :=
  mkLink 1 1 (Some [("STABILIZE", 0%Z); ("AUTO", 3%Z); ("GUIDED", 4%Z)]).

(** A connected bridge at wall time 1700000000 s, monotonic time 100 s. *)
Definition sample_bridge : World :=
  new_bridge (Some sample_link) false 1700000000 100 quiet.

Definition heartbeat_active : Message :=
  mkMessage "HEARTBEAT"
    [("base_mode", PInt 81); ("system_status", PInt 4); ("custom_mode", PInt 4)]
    1 1 "GUIDED".

(** [setHeldStatus("X", 4)] on the sample bridge, then [dt] seconds pass. *)
Definition held_X_after (dt : Q) : World :=
  with_slept dt (snd (@update_status plain_host "X" (Some 4) sample_bridge)).

(** A position report: raw latitude -74000000, relative altitude 1500, sent
    [boot_ms] milliseconds after the vehicle booted. *)
Definition position_report (boot_ms : Z) : Message :=
  mkMessage "GLOBAL_POSITION_INT"
    [("time_boot_ms", PInt boot_ms); ("lat", PInt (-74000000));
     ("lon", PInt 1100000000); ("alt", PInt 12000);
     ("relative_alt", PInt 1500)]
    1 1 "".

(** The sample bridge once it has seen a position report stamped 5000 ms,
    two seconds later. *)
Definition bridge_after_report : World :=
  with_slept 2
    (snd (@handle_message plain_host (position_report 5000) sample_bridge)).

(** A VFR_HUD report without heading and with a climb that is no number. *)
Definition hud_missing_heading : Message :=
  mkMessage "VFR_HUD" [("alt", PFloat (Fin 12.5)); ("climb", PStr "n/a")] 1 1 "".

(** A position report without latitude. *)
Definition position_without_lat : Message :=
  mkMessage "GLOBAL_POSITION_INT"
    [("time_boot_ms", PInt 9000); ("lon", PInt 1100000000); ("alt", PInt 12000);
     ("relative_alt", PInt 1500)] 1 1 "".

(** The sample bridge after a full position report and a full VFR_HUD. *)
Definition bridge_with_fix : World :=
  snd (@handle_message plain_host
         (mkMessage "VFR_HUD"
            [("heading", PInt 90); ("alt", PFloat (Fin 12.5));
             ("climb", PFloat (Fin 0.5))] 1 1 "")
         (snd (@handle_message plain_host (position_report 5000) sample_bridge))).

(** The sample bridge with a recording session started. *)
Definition recording_bridge : World :=
  snd (@start_csv_logging plain_host sample_bridge).

(** A pose stamped in seconds, and one whose [y] is no number. *)
Definition pose_in_seconds : dict :=
  [ ("timestamp", PInt 1700000000); ("x", PFloat (Fin 1)); ("y", PFloat (Fin 2));
    ("z", PFloat (Fin 3)) ].

Definition pose_without_y : dict :=
  [ ("timestamp", PInt 1700000000); ("x", PFloat (Fin 1)); ("y", PStr "north");
    ("z", PFloat (Fin 3)) ].

(** A pose stamped one second and a half. *)
Definition pose_at_1_5_seconds : dict :=
  [ ("timestamp", PFloat (Fin 1.5)); ("x", PFloat (Fin 1)); ("y", PFloat (Fin 2));
    ("z", PFloat (Fin 3)) ].

(** A session: three accepted poses and one rejected, interleaved with two
    position reports, on the recording bridge. *)
Definition pose_step (d : dict) (w : World) : World :=
  snd (@store_slam_pose plain_host (PDict d) w).

Definition message_step (m : Message) (w : World) : World :=
  snd (@handle_message plain_host m w).

Definition recorded_session : World :=
  fold_left (fun acc step => step acc)
    [ pose_step pose_in_seconds;
      message_step (position_report 5000);
      pose_step pose_in_seconds;
      pose_step pose_without_y;
      message_step position_without_lat;
      pose_step pose_in_seconds ]
    recording_bridge.

(** A takeoff request for 20 m. *)
Definition takeoff_request : dict :=
  [("type", PStr "takeoff"); ("request_id", PInt 7); ("altitude", PInt 20)].

(** A takeoff request with the given altitude. *)
Definition takeoff_request_for (altitude : pyval) : dict :=
  [("type", PStr "takeoff"); ("request_id", PInt 7); ("altitude", altitude)].

(** A takeoff request whose altitude is the JSON integer 10^400. *)
Definition takeoff_request_beyond_float : dict :=
  [("type", PStr "takeoff"); ("request_id", PInt 7);
   ("altitude", PInt (10 ^ 400))].

(** ** Vocabulary and sample inputs of the further properties *)

(** The kinds of value that the bridge stores under a key of the state
    dict. *)
Inductive FieldType : Type :=
| Flag        (* a bool *)
| OptInt      (* an int or None *)
| OptFloat    (* a float or None *)
| Text        (* a str *)
| ModeName    (* a str that is not empty *)
| Raw.        (* whatever the message carried *)

Definition has_type (t : FieldType) (v : pyval) : bool :=
  match t with
  | Flag => match v with PBool _ => true | _ => false end
  | OptInt => match v with PNone | PInt _ => true | _ => false end
  | OptFloat => match v with PNone | PFloat _ => true | _ => false end
  | Text => match v with PStr _ => true | _ => false end
  | ModeName => match v with PStr s => negb (String.eqb s "") | _ => false end
  | Raw => true
  end.

(** The keys of the state dict in the order of [__init__], each with the
    kind of value that the assignments to it store. *)
Definition STATE_SCHEMA : list (string * FieldType) :=
  [ ("lat", OptFloat); ("lon", OptFloat); ("alt", OptFloat);
    ("relative_alt", OptFloat); ("gps_fix_type", Raw);
    ("satellites_visible", Raw); ("hdop", OptFloat); ("baro_alt", OptFloat);
    ("heading", OptFloat); ("climb", OptFloat);
    ("last_slam_timestamp", OptInt); ("last_slam_host_timestamp", OptInt);
    ("last_slam_delta_ms", OptInt); ("last_gps_host_timestamp", OptInt);
    ("last_gps_vehicle_timestamp", OptInt);
    ("last_gps_vehicle_skew_ms", OptInt); ("last_log_delta_ms", OptInt);
    ("armed", Flag); ("ready", Flag); ("status", Text);
    ("system_status", Text); ("mode", ModeName); ("mode_id", Raw);
    ("system_id", OptInt); ("component_id", OptInt);
    ("statusTimestamp", OptInt) ].

(** [conforms schema d]: [d] has the keys of [schema], in its order, each
    with a value of its kind. *)
Fixpoint conforms (schema : list (string * FieldType)) (d : dict) : bool :=
  match schema, d with
  | [], [] => true
  | (k, t) :: schema', (k', v) :: d' =>
      String.eqb k k' && has_type t v && conforms schema' d'
  | _, _ => false
  end.

Definition well_typed (w : World) : Prop :=
  conforms STATE_SCHEMA (state w) = true.

(** An assignment [self.state[k] = v] that the schema allows. *)
Definition write_ok (k : string) (v : pyval) : bool :=
  match assoc_str k STATE_SCHEMA with
  | Some t => has_type t v
  | None => false
  end.

(** A row as [append_log_row] builds it: ten columns, the first five the log
    time, the pose time and the pose position. *)
Definition complete_row (row : list pyval) : Prop :=
  exists log_time ts x y z m0 m1 m2 m3 m4,
    row = [PInt log_time; PInt ts; PFloat x; PFloat y; PFloat z;
           m0; m1; m2; m3; m4].

(** [no_results w w']: standard output grew by lines that are no
    CommandResult. *)
Definition no_results (w w' : World) : Prop :=
  exists added, stdout w' = (stdout w ++ added)%list /\
                Forall (fun l => is_command_result l = false) added.

(** The line a successful command is answered with. *)
Definition success_line (rt : string) (request_id : pyval) (returned : pyval) : dict :=
  ([("type", PStr rt); ("ok", PBool true); ("request_id", request_id)]
   ++ match returned with PDict d => d | _ => [] end)%list.

Definition failure_line (rt : string) (request_id : pyval) (e : exc) : dict :=
  [("type", PStr rt); ("ok", PBool false); ("request_id", request_id);
   ("error", PStr (message e))].

Definition failure_log (command_type : string) (e : exc) : dict :=
  [("type", PStr "log"); ("level", PStr "error");
   ("message", PStr ("Command " ++ command_type ++ " failed: " ++ message e))].

Definition COMMAND_TYPES : list string :=
  ["set_mode"; "takeoff"; "slam_pose"; "csv_start"; "csv_stop"].

(** The type tag of a request is none of the five command types. *)
Definition unrecognised (command_type : pyval) : Prop :=
  forall s, command_type = PStr s -> ~ In s COMMAND_TYPES.

(** The two messages [set_mode] hands to the link. *)
Definition mode_commands (link : Link) (base_mode mode_id : Z) : list LinkCmd :=
  [ command_long_send (target_system link) (target_component link)
      mavlink.MAV_CMD_DO_SET_MODE 0
      [PInt base_mode; PInt mode_id; PInt 0; PInt 0; PInt 0; PInt 0; PInt 0];
    set_mode_send (target_system link) base_mode mode_id ].

Definition arm_command (link : Link) : LinkCmd :=
  command_long_send (target_system link) (target_component link)
    mavlink.MAV_CMD_COMPONENT_ARM_DISARM 0
    [PInt 1; PInt 0; PInt 0; PInt 0; PInt 0; PInt 0; PInt 0].

Definition takeoff_command (link : Link) (altitude : pyfloat) : LinkCmd :=
  command_long_send (target_system link) (target_component link)
    mavlink.MAV_CMD_NAV_TAKEOFF 0
    [PInt 0; PInt 0; PInt 0; PInt 0; PInt 0; PInt 0; PFloat altitude].

(** The mode table of a link, as [set_mode] reads it. *)
Definition mode_table (link : Link) : list (string * Z) :=
  match mode_mapping link with Some t => t | None => [] end.

Definition is_prefix {A : Type} (l L : list A) : Prop := exists t, L = (l ++ t)%list.

(** [sends link L c]: on a bridge connected to [link], [c] keeps the link
    and sends a prefix of [L] through it, all of [L] when it returns. *)
Definition sends {A : Type} (link : Link) (L : list LinkCmd) (c : M A) : Prop :=
  forall w, master w = Some link ->
    master (snd (c w)) = Some link /\
    exists l, link_sent (snd (c w)) = (link_sent w ++ l)%list /\
              is_prefix l L /\
              (forall a, fst (c w) = Ok a -> l = L).

(** What a takeoff sends when it runs to its end. *)
Definition takeoff_commands (link : Link) (altitude : pyfloat) : list LinkCmd :=
  (match assoc_str "GUIDED" (mode_table link) with
   | Some mode_id => mode_commands link 9 mode_id
   | None => []
   end ++ [arm_command link; takeoff_command link altitude])%list.

(** [link_kept w w']: the link and what was sent through it are the same. *)
Definition link_kept (w w' : World) : Prop :=
  master w' = master w /\ link_sent w' = link_sent w.

(** A predicate that only reads the world and always answers or raises. *)
Definition read_only (predicate : M bool) : Prop :=
  forall w, snd (predicate w) = w /\ fst (predicate w) <> Diverged.

Definition convertible {host : Host} (v : pyval) : bool :=
  match py_float v with Ok _ => true | _ => false end.

(** The timestamp of a pose can be used: it is a finite number, or it is
    absent or no number, so that [float] raises [TypeError] or [ValueError]
    and the host clock stands in.  An infinity, a NaN and an int beyond the
    floats cannot. *)
Definition timestamp_usable {host : Host} (v : pyval) : bool :=
  match py_float v with
  | Ok (Fin _) => true
  | Ok _ => false
  | _ => negb (beyond_float v)
  end.

(** A pose payload that [store_slam_pose] stores: a non-empty dict whose
    timestamp can be used, whose [x], [y] and [z] are numbers that [float]
    takes, and whose quaternion components do not make [float] overflow. *)
Definition pose_accepted {host : Host} (payload : pyval) : bool :=
  match payload with
  | PDict d =>
      py_truthy payload && timestamp_usable (dict_get "timestamp" d)
      && convertible (dict_get "x" d) && convertible (dict_get "y" d)
      && convertible (dict_get "z" d) && quaternion_within d
  | _ => false
  end.

Definition telemetry_line (st : dict) : dict :=
  [("type", PStr "telemetry"); ("data", PDict st)].

(** A value that can be looked up in a dict ([status_enum.get(v)]). *)
Definition hashable (v : pyval) : bool :=
  match v with PList _ | PDict _ => false | _ => true end.

Definition MESSAGE_TYPES : list string :=
  [ "HEARTBEAT"; "GLOBAL_POSITION_INT"; "GPS_RAW_INT"; "VFR_HUD" ].

(** [reports w r]: the call that gave [r] from [w] wrote, when it returned,
    log lines (none unless timing diagnostics are on) and then one telemetry
    line that carries the state it left; when it raised, nothing. *)
Definition reports (w : World) (r : res unit * World) : Prop :=
  match fst r with
  | Ok _ =>
      exists logs,
        stdout (snd r)
        = (stdout w ++ logs ++ [telemetry_line (state (snd r))])%list /\
        Forall (fun l => is_log_line l = true) logs /\
        (_debug_timing w = false -> logs = [])
  | Raise _ => stdout (snd r) = stdout w
  | Diverged => False
  end.

(** [receiver_view w w']: everything but the telemetry state, the
    vehicle-boot-clock estimator, the position sample and standard output
    is the same. *)
Definition receiver_view (w w' : World) : Prop :=
  master w' = master w /\ _debug_timing w' = _debug_timing w /\
  _status_hold_until w' = _status_hold_until w /\
  logging_active w' = logging_active w /\ csv_rows w' = csv_rows w /\
  latest_slam w' = latest_slam w /\ wall w' = wall w /\
  monotonic w' = monotonic w /\ link_sent w' = link_sent w /\
  schedule w' = schedule w /\ sleeps w' = sleeps w.

Definition keeps_schema (w w' : World) : Prop := well_typed w -> well_typed w'.

(** A call of one of the two entry points, taken one after the other:
    [execute_command], which [process_commands] starts for a queued request,
    and [handle_message], which [run] calls for a received message. *)
Inductive Call : Type :=
| call_execute_command (payload : dict)
| call_handle_message (msg : Message).

(** The world a call leaves, whether it returns or raises. *)
Definition after_call {host : Host} (c : Call) (w : World) : World :=
  match c with
  | call_execute_command payload => snd (execute_command payload w)
  | call_handle_message msg => snd (handle_message msg w)
  end.

Definition after_calls {host : Host} (cs : list Call) (w : World) : World :=
  fold_left (fun acc c => after_call c acc) cs w.

(** The rows are complete, and rows are held only while a session is
    active. *)
Definition recorder_ok (w : World) : Prop :=
  Forall complete_row (csv_rows w) /\
  (logging_active w = false -> csv_rows w = []).

Definition command_is (payload : dict) (name : string) : bool :=
  py_is_str (dict_get "type" payload) name.

(** [recorder_kept w w']: the recorder is as it was. *)
Definition recorder_kept (w w' : World) : Prop :=
  logging_active w' = logging_active w /\ csv_rows w' = csv_rows w.

(** A call that is no [csv_start] or [csv_stop] command. *)
Definition in_session (c : Call) : bool :=
  match c with
  | call_execute_command payload =>
      negb (command_is payload "csv_start" || command_is payload "csv_stop")
  | call_handle_message _ => true
  end.

(** A [slam_pose] command whose pose is accepted. *)
Definition records {host : Host} (c : Call) : bool :=
  match c with
  | call_execute_command payload =>
      command_is payload "slam_pose" && pose_accepted (dict_get "data" payload)
  | call_handle_message _ => false
  end.

(** The kinds of exception of a call, without a link and with one. *)
Definition failures (unlinked linked : list exc_kind) (m : option Link) :
    list exc_kind :=
  match m with None => unlinked | Some _ => linked end.

(** [raises_only K c]: started in a world whose state dict follows the
    schema, [c] leaves such a world, with the same link, and what it raises
    is of a kind that [K] allows for that link. *)
Definition raises_only {A : Type} (K : option Link -> list exc_kind)
    (c : M A) : Prop :=
  forall w, well_typed w ->
            well_typed (snd (c w)) /\ master (snd (c w)) = master w /\
            forall e, fst (c w) = Raise e -> In (kind e) (K (master w)).

(** [typed_link_kept w w']: the schema holds in [w'] if it did in [w], and
    the link is the same. *)
Definition typed_link_kept (w w' : World) : Prop :=
  keeps_schema w w' /\ master w' = master w.

(** [isinstance(v, int)]: an int or a bool. *)
Definition is_int (v : pyval) : bool :=
  match v with PBool _ | PInt _ => true | _ => false end.

(** A string of ASCII white space only: space, tab, line feed, vertical
    tab, form feed, carriage return and the four separators 28 to 31. *)
Definition all_blank (s : string) : bool :=
  negb (str_exists (fun c => negb (is_space c)) s).

(** A string of ASCII characters only. *)
Definition is_ascii_str (s : string) : bool :=
  negb (str_exists (fun c => (128 <=? nat_of_ascii c)%nat) s).

Fixpoint last_char (s : string) : option ascii :=
  match s with
  | EmptyString => None
  | String c EmptyString => Some c
  | String _ r => last_char r
  end.

(** A string that is not empty and neither begins nor ends with white
    space. *)
Definition trimmed (s : string) : bool :=
  match s, last_char s with
  | String a _, Some b => negb (is_space a) && negb (is_space b)
  | _, _ => false
  end.

(** A [set_mode] request without a usable mode name: the mode is missing or
    falsy, or a string of white space only. *)
Definition names_no_mode (mode : pyval) : Prop :=
  py_truthy mode = false \/ exists s, mode = PStr s /\ all_blank s = true.

(** A [set_mode] request for the given mode. *)
Definition set_mode_request (mode : pyval) : dict :=
  [("type", PStr "set_mode"); ("request_id", PInt 3); ("mode", mode)].

(** A HEARTBEAT whose [base_mode] is a string. *)
Definition heartbeat_text_mode : Message :=
  mkMessage "HEARTBEAT" [("base_mode", PStr "81"); ("system_status", PInt 4)]
    1 1 "GUIDED".

(** A HEARTBEAT of an armed vehicle in GUIDED mode. *)
Definition heartbeat_armed_guided : Message :=
  mkMessage "HEARTBEAT"
    [("base_mode", PInt 217); ("system_status", PInt 4); ("custom_mode", PInt 4)]
    1 1 "GUIDED".

(** A vehicle that follows a takeoff: the first sleep overruns by 20 ms and
    brings the HEARTBEAT above, the second a position report at 1.5 m, every
    later one a position report at 19.5 m. *)
Definition climbing : nat -> Interference :=
  fun n => match n with
           | O => mkInterference 20 [heartbeat_armed_guided]
           | 1%nat => mkInterference 0 [position_report 9000]
           | _ => mkInterference 0
                    [mkMessage "GLOBAL_POSITION_INT"
                       [("time_boot_ms", PInt 9500); ("lat", PInt (-74000000));
                        ("lon", PInt 1100000000); ("alt", PInt 32000);
                        ("relative_alt", PInt 19500)] 1 1 ""]
           end.

Definition cooperative_bridge : World :=
  new_bridge (Some sample_link) false 1700000000 100 climbing.

(** A GPS_RAW_INT report: 3D fix, 11 satellites, [eph] 120. *)
Definition gps_fix_report : Message :=
  mkMessage "GPS_RAW_INT"
    [("fix_type", PInt 3); ("satellites_visible", PInt 11); ("eph", PInt 120)]
    1 1 "".

(** Requests: a pose command with a good pose and one with a bad pose, the
    start of a session, and a request of no known type. *)
Definition pose_request (pose : dict) : dict :=
  [("type", PStr "slam_pose"); ("data", PDict pose)].

Definition csv_start_request : dict :=
  [("type", PStr "csv_start"); ("request_id", PInt 8)].

Definition land_request : dict :=
  [("type", PStr "land"); ("request_id", PInt 9)].

(** A pose whose [x] is the JSON integer 10^400, and one whose [qw] is. *)
Definition pose_x_beyond_float : dict :=
  [ ("timestamp", PInt 1700000000); ("x", PInt (10 ^ 400));
    ("y", PFloat (Fin 2)); ("z", PFloat (Fin 3)) ].

Definition pose_qw_beyond_float : dict :=
  [ ("timestamp", PInt 1700000000); ("x", PFloat (Fin 1));
    ("y", PFloat (Fin 2)); ("z", PFloat (Fin 3)); ("qw", PInt (10 ^ 400)) ].

(** A session: two accepted poses, three that are not (a [y] that is no
    number, an [x] and a [qw] beyond the floats), and a position report. *)
Definition session_calls : list Call :=
  [ call_execute_command (pose_request pose_in_seconds);
    call_handle_message (position_report 5000);
    call_execute_command (pose_request pose_without_y);
    call_execute_command (pose_request pose_x_beyond_float);
    call_execute_command (pose_request pose_qw_beyond_float);
    call_execute_command (pose_request pose_in_seconds) ].

(** * Properties *)

(** ** Dicts and worlds *)

Lemma dict_lookup_set (k k' : string) (v : pyval) (d : dict) :
  dict_lookup k (dict_set k' v d) =
  if String.eqb k k' then Some v else dict_lookup k d.
Proof.
  induction d as [|[k0 v0] d IH]; simpl.
  - reflexivity.
  - destruct (String.eqb k' k0) eqn:E0; simpl.
    + apply String.eqb_eq in E0; subst k0.
      now destruct (String.eqb k k').
    + rewrite IH. destruct (String.eqb k k0) eqn:E1; [|reflexivity].
      apply String.eqb_eq in E1; subst k0.
      now rewrite String.eqb_sym, E0.
Qed.

Lemma dict_get_set (k k' : string) (v : pyval) (d : dict) :
  dict_get k (dict_set k' v d) = if String.eqb k k' then v else dict_get k d.
Proof.
  unfold dict_get. rewrite dict_lookup_set. now destruct (String.eqb k k').
Qed.

(** Reading a key through a chain of assignments to literal keys. *)
Ltac dict_simpl :=
  repeat (rewrite dict_get_set; cbn [String.eqb Ascii.eqb Bool.eqb]).

(** Unfolding the plumbing of a method down to world updates. *)
Ltac run :=
  cbv [bind ret raise lift gets modify try_except state_set state_get now_ms
       emit emit_state log];
  cbn [fst snd master state _debug_timing _vehicle_boot_offset
       _last_vehicle_boot_ms _status_hold_until logging_active csv_rows
       latest_slam latest_mav wall monotonic stdout link_sent schedule sleeps
       with_state with_boot_clock with_status_hold_until with_logging_active
       with_csv_rows with_latest_slam with_latest_mav with_stdout
       with_link_sent with_slept].

(** ** Numbers and decoded fields *)

Lemma round_to_53_exact (n : Z) :
  (0 <= n < 2 ^ 53)%Z -> round_to_53 n = n.
Proof.
  intros [H0 H1]. unfold round_to_53.
  assert (Hl : (Z.log2 n < 53)%Z).
  { destruct (Z.eq_dec n 0) as [->|Hn]; [reflexivity|].
    apply Z.log2_lt_pow2; lia. }
  destruct (Z.leb_spec (Z.log2 n + 1 - 53) 0); [reflexivity | lia].
Qed.

Lemma float_overflow_above : (2 ^ 53 < float_overflow)%Z.
Proof. vm_compute. reflexivity. Qed.

(** An int below 2^53 in magnitude converts exactly. *)
Lemma float_of_int_exact (z : Z) :
  (Z.abs z < 2 ^ 53)%Z -> float_of_int z = Ok (float_of_Z z).
Proof.
  intros H. unfold float_of_int, float_of_Z.
  pose proof float_overflow_above as Ho.
  destruct (Z.leb_spec float_overflow (Z.abs z)) as [Hle|_]; [lia|].
  rewrite round_to_53_exact by lia.
  do 3 f_equal. lia.
Qed.

(** Rounding to 53 bits moves an integer by at most its 2^-53 part. *)
Lemma round_to_53_close_nonneg (n : Z) :
  (0 <= n)%Z -> (Z.abs (round_to_53 n - n) * 2 ^ 53 <= n)%Z.
Proof.
  intros Hn. unfold round_to_53.
  destruct (Z.leb_spec (Z.log2 n + 1 - 53) 0) as [_|Hs].
  { rewrite Z.sub_diag. cbn [Z.abs]. lia. }
  assert (Hpos : (0 < n)%Z).
  { destruct (Z.eq_dec n 0) as [->|]; [cbn in Hs; lia | lia]. }
  set (P := (2 ^ (Z.log2 n + 1 - 53 - 1))%Z).
  assert (HP : (0 < P)%Z) by (apply Z.pow_pos_nonneg; lia).
  assert (H2P : (2 ^ (Z.log2 n + 1 - 53) = 2 * P)%Z).
  { unfold P. rewrite <- Z.pow_succ_r by lia. f_equal. lia. }
  assert (Hlog : (P * 2 ^ 53 <= n)%Z).
  { unfold P. rewrite <- Z.pow_add_r by lia.
    replace (Z.log2 n + 1 - 53 - 1 + 53)%Z with (Z.log2 n) by lia.
    apply Z.log2_spec, Hpos. }
  rewrite Z.shiftr_div_pow2, Z.land_ones, !Z.shiftl_mul_pow2 by lia.
  rewrite H2P. fold P. rewrite Z.mul_1_l.
  pose proof (Z.div_mod n (2 * P) ltac:(lia)) as Hdm.
  pose proof (Z.mod_pos_bound n (2 * P) ltac:(lia)) as Hr.
  set (m := (n / (2 * P))%Z) in *. set (r := (n mod (2 * P))%Z) in *.
  destruct ((P <? r)%Z || ((r =? P)%Z && Z.odd m))%bool eqn:Hc.
  - assert (Hge : (P <= r)%Z).
    { apply orb_prop in Hc. destruct Hc as [Hc|Hc].
      - apply Z.ltb_lt in Hc. lia.
      - apply andb_prop in Hc. destruct Hc as [Hc _].
        apply Z.eqb_eq in Hc. lia. }
    replace ((m + 1) * (2 * P) - n)%Z with (2 * P - r)%Z by lia.
    rewrite Z.abs_eq by lia. nia.
  - assert (Hle : (r <= P)%Z).
    { apply orb_false_iff in Hc. destruct Hc as [Hc _].
      apply Z.ltb_ge in Hc. exact Hc. }
    replace (m * (2 * P) - n)%Z with (- r)%Z by lia.
    rewrite Z.abs_opp, Z.abs_eq by lia. nia.
Qed.

Lemma round_to_53_close (z : Z) :
  (Z.abs (Z.sgn z * round_to_53 (Z.abs z) - z) * 2 ^ 53 <= Z.abs z)%Z.
Proof.
  pose proof (round_to_53_close_nonneg (Z.abs z) (Z.abs_nonneg z)) as H.
  destruct z as [|p|p]; cbn [Z.sgn Z.abs] in *.
  - exact H.
  - rewrite Z.mul_1_l. exact H.
  - replace (-1 * round_to_53 (Z.pos p) - Z.neg p)%Z
      with (- (round_to_53 (Z.pos p) - Z.pos p))%Z by lia.
    rewrite Z.abs_opp. exact H.
Qed.

Lemma float_of_int_overflow (z : Z) :
  (float_overflow <= Z.abs z)%Z ->
  float_of_int z
  = Raise (mkExc OverflowError "int too large to convert to float").
Proof.
  intros H. unfold float_of_int.
  destruct (Z.leb_spec float_overflow (Z.abs z)); [reflexivity | lia].
Qed.

Lemma float_of_int_cases (z : Z) :
  (exists q, float_of_int z = Ok (Fin q)) \/
  ((float_overflow <= Z.abs z)%Z /\
   float_of_int z
   = Raise (mkExc OverflowError "int too large to convert to float")).
Proof.
  unfold float_of_int.
  destruct (Z.leb_spec float_overflow (Z.abs z)); [right; auto | left; eauto].
Qed.

Lemma wire_int_exact (z : Z) :
  wire_value (PInt z) = true -> float_of_int z = Ok (float_of_Z z).
Proof.
  cbn [wire_value]. intros H. apply andb_prop in H. destruct H as [H1 H2].
  apply Z.leb_le in H1. apply Z.ltb_lt in H2.
  apply float_of_int_exact. lia.
Qed.

Lemma dict_lookup_filter (p : string * pyval -> bool) k d v :
  dict_lookup k (filter p d) = Some v -> p (k, v) = true.
Proof.
  induction d as [|[k0 v0] d IH]; cbn [filter dict_lookup]; [discriminate|].
  destruct (p (k0, v0)) eqn:E; [|exact IH].
  cbn [dict_lookup]. destruct (String.eqb_spec k k0) as [->|_]; [|exact IH].
  intros H. injection H as <-. exact E.
Qed.

(** What [getattr] reads from a message is a value a decoded field can
    hold. *)
Lemma getattr_wire (msg : Message) name default :
  wire_value default = true -> wire_value (getattr msg name default) = true.
Proof.
  intros Hd. unfold getattr, fields.
  destruct (dict_lookup name _) as [v|] eqn:E; [|exact Hd].
  apply dict_lookup_filter in E. exact E.
Qed.

Lemma py_float_wire {host : Host} (v : pyval) :
  wire_value v = true ->
  (exists f, py_float v = Ok f) \/
  (exists e, py_float v = Raise e /\
             (exc_kind_eqb (kind e) TypeError
              || exc_kind_eqb (kind e) ValueError)%bool = true).
Proof.
  intros Hw. destruct v as [|b|z|f|s|l|d]; cbn [py_float];
    try (left; eexists; reflexivity); try (right; eexists; split; reflexivity).
  - left. rewrite (wire_int_exact z Hw). eauto.
  - destruct (float_of_str s); [left; eauto | right; eexists; split; reflexivity].
Qed.

(** ** Frame rules *)

Section FrameRules.
Variable R : World -> World -> Prop.
Hypothesis R_refl : forall w, R w w.
Hypothesis R_trans : forall a b c, R a b -> R b c -> R a c.

Lemma frames_ret {A} (a : A) : frames R (ret a).
Proof. intro w; apply R_refl. Qed.

Lemma frames_lift {A} (r : res A) : frames R (lift r).
Proof. intro w; apply R_refl. Qed.

Lemma frames_raise {A} k msg : frames R (@raise A k msg).
Proof. intro w; apply R_refl. Qed.

Lemma frames_gets {A} (f : World -> A) : frames R (gets f).
Proof. intro w; apply R_refl. Qed.

Lemma frames_modify (f : World -> World) :
  (forall w, R w (f w)) -> frames R (modify f).
Proof. intros H w; apply H. Qed.

Lemma frames_bind {A B} (c : M A) (k : A -> M B) :
  frames R c -> (forall a, frames R (k a)) -> frames R (bind c k).
Proof.
  intros Hc Hk w. unfold bind.
  specialize (Hc w). destruct (c w) as [[a| e |] w1]; simpl in *; auto.
  eapply R_trans; [exact Hc | apply Hk].
Qed.

Lemma frames_try_except {A} (c : M A) (h : exc -> M A) :
  frames R c -> (forall e, frames R (h e)) -> frames R (try_except c h).
Proof.
  intros Hc Hh w. unfold try_except.
  specialize (Hc w). destruct (c w) as [[a| e |] w1]; simpl in *; auto.
  eapply R_trans; [exact Hc | apply Hh].
Qed.
End FrameRules.

(** Splitting a method along its binds, branches and primitives. *)
Ltac frame_step :=
  match goal with
  | |- frames _ (bind _ _) => apply frames_bind; [assumption | | intro]
  | |- frames _ (try_except _ _) =>
      apply frames_try_except; [assumption | | intro]
  | |- frames _ (ret _) => apply frames_ret; assumption
  | |- frames _ (lift _) => apply frames_lift; assumption
  | |- frames _ (raise _ _) => apply frames_raise; assumption
  | |- frames _ (gets _) => apply frames_gets; assumption
  | |- frames _ now_ms => apply frames_gets; assumption
  | |- frames _ (state_get _) => apply frames_gets; assumption
  | |- frames _ (modify _) => apply frames_modify; intro
  | |- frames _ (state_set _ _) => apply frames_modify; intro
  | |- frames _ (emit _) => apply frames_modify; intro
  | |- frames _ (log _ _) => apply frames_modify; intro
  | |- frames _ emit_state => unfold emit_state
  | |- frames _ (if ?b then _ else _) => destruct b
  | |- frames _ (match ?x with _ => _ end) => destruct x
  | |- frames _ (let (_, _) := ?x in _) => destruct x
  end.

(** ** The held status (update_status, HEARTBEAT) *)

Lemma update_status_spec {host : Host} (text : string)
    (hold_seconds : option Q) (w : World) :
  let hold := match hold_seconds with
              | None => STATUS_HOLD_SECONDS
              | Some h => h
              end in
  let w' := snd (update_status text hold_seconds w) in
  fst (update_status text hold_seconds w) = Ok tt /\
  dict_get "status" (state w') = PStr text /\
  dict_get "statusTimestamp" (state w') = PInt (Qtrunc (wall w * 1000)) /\
  _status_hold_until w' = monotonic w + hold.
Proof.
  unfold update_status. run. dict_simpl. auto.
Qed.

Lemma heartbeat_status {host : Host} (msg : Message) (w : World)
    (name : string) :
  get_type msg = "HEARTBEAT" ->
  fst (handle_message msg w) = Ok tt ->
  getattr msg "system_status" PNone <> PNone ->
  system_status_name (getattr msg "system_status" PNone) = Ok name ->
  let w' := snd (handle_message msg w) in
  (_status_hold_until w <= monotonic w ->
     dict_get "status" (state w') = PStr name /\
     dict_get "statusTimestamp" (state w') = PInt (Qtrunc (wall w * 1000))) /\
  (monotonic w < _status_hold_until w ->
     dict_get "status" (state w') = dict_get "status" (state w) /\
     dict_get "statusTimestamp" (state w')
       = dict_get "statusTimestamp" (state w)) /\
  _status_hold_until w' = _status_hold_until w.
Proof.
  intros Ht Hok Hs Hn. unfold handle_message in *. rewrite Ht in *.
  cbn [String.eqb Ascii.eqb Bool.eqb] in *.
  unfold on_heartbeat in *.
  destruct (py_and_int (getattr msg "base_mode" (PInt 0))
              mavlink.MAV_MODE_FLAG_SAFETY_ARMED) as [a|e|] eqn:Ea.
  2,3: (revert Hok; run; discriminate).
  revert Hok. rewrite Hn.
  destruct (getattr msg "system_status" PNone) eqn:Ev; [congruence| | | | | | ].
  all: run; destruct (Qle_bool (_status_hold_until w) (monotonic w)) eqn:Eq;
    run; dict_simpl; intros _.
  all: try (apply Qle_bool_iff in Eq).
  all: try (assert (Hlt : monotonic w < _status_hold_until w)
              by (apply Qnot_le_lt; intro Hle; apply Qle_bool_iff in Hle;
                  congruence)).
  all: (split; [intros Hc | split; [intros Hc | reflexivity]]);
    try (split; reflexivity).
  all: try (exfalso; apply (Qlt_not_le _ _ Hc); assumption).
  all: try (exfalso; apply (Qlt_not_le _ _ Hlt); assumption).
Qed.

(** A HEARTBEAT that reports no lifecycle status leaves the displayed status
    alone whatever the time. *)
Lemma heartbeat_without_status {host : Host} (msg : Message) (w : World) :
  get_type msg = "HEARTBEAT" ->
  getattr msg "system_status" PNone = PNone ->
  let w' := snd (handle_message msg w) in
  dict_get "status" (state w') = dict_get "status" (state w) /\
  dict_get "statusTimestamp" (state w') = dict_get "statusTimestamp" (state w).
Proof.
  intros Ht Hs. unfold handle_message. rewrite Ht.
  cbn [String.eqb Ascii.eqb Bool.eqb]. unfold on_heartbeat. rewrite Hs.
  destruct (py_and_int (getattr msg "base_mode" (PInt 0))
              mavlink.MAV_MODE_FLAG_SAFETY_ARMED) as [a|e|];
    run; dict_simpl; auto.
Qed.

Lemma assoc_Z_In {A : Type} (k : Z) (l : list (Z * A)) (v : A) :
  assoc_Z k l = Some v -> In (k, v) l.
Proof.
  induction l as [|[k' v'] l IH]; cbn [assoc_Z]; [discriminate|].
  destruct (Z.eqb_spec k k') as [->|_].
  - intros H. injection H as <-. left. reflexivity.
  - intros H. right. apply IH, H.
Qed.

Lemma lifecycle_name_lookup {host : Host} (s : Z) (name : string) :
  lifecycle_name s name -> system_status_name (PInt s) = Ok name.
Proof.
  unfold system_status_name. cbn [enum_key]. intros [H|[Hn ->]].
  - cbn [In mavlink.MAV_STATE] in H.
    repeat (destruct H as [H|H]; [injection H as <- <-; reflexivity|]).
    contradiction.
  - destruct (assoc_Z s mavlink.MAV_STATE) as [n|] eqn:E; [|reflexivity].
    exfalso. apply (Hn n), assoc_Z_In, E.
Qed.

(** C2: a HEARTBEAT that reports the lifecycle status [s] and is applied by
    [handle_message] overwrites the displayed status with the lifecycle
    name of [s] (the name of its MAV_STATE entry), and the status timestamp
    with the wall clock in ms, when the monotonic clock is at or past the
    hold-expiry instant, and leaves both as they were when the clock is
    before it; [update_status] always overwrites the status and its
    timestamp and sets the hold-expiry instant to now plus the hold. *)
Theorem status_hold_rule {host : Host} (msg : Message) (w : World)
    (s : Z) (name : string) (text : string) (hold_seconds : option Q)
    (w0 : World) :
  get_type msg = "HEARTBEAT" ->
  fst (handle_message msg w) = Ok tt ->
  getattr msg "system_status" PNone = PInt s ->
  lifecycle_name s name ->
  let w' := snd (handle_message msg w) in
  let held := snd (update_status text hold_seconds w0) in
  let hold := match hold_seconds with
              | None => STATUS_HOLD_SECONDS
              | Some h => h
              end in
  ((_status_hold_until w <= monotonic w ->
      dict_get "status" (state w') = PStr name /\
      dict_get "statusTimestamp" (state w') = PInt (Qtrunc (wall w * 1000))) /\
   (monotonic w < _status_hold_until w ->
      dict_get "status" (state w') = dict_get "status" (state w) /\
      dict_get "statusTimestamp" (state w')
        = dict_get "statusTimestamp" (state w))) /\
  (fst (update_status text hold_seconds w0) = Ok tt /\
   dict_get "status" (state held) = PStr text /\
   dict_get "statusTimestamp" (state held) = PInt (Qtrunc (wall w0 * 1000)) /\
   _status_hold_until held = monotonic w0 + hold).
Proof.
  intros Ht Hok Hs Hn w' held hold.
  assert (Hs' : getattr msg "system_status" PNone <> PNone)
    by (rewrite Hs; discriminate).
  apply lifecycle_name_lookup in Hn. rewrite <- Hs in Hn.
  destruct (heartbeat_status msg w name Ht Hok Hs' Hn) as (H1 & H2 & _).
  split; [split; assumption | apply update_status_spec].
Qed.

Lemma status_hold_rule_witness :
  dict_get "status"
    (state (snd (@handle_message plain_host heartbeat_active (held_X_after 1))))
  = PStr "X" /\
  dict_get "status"
    (state (snd (@handle_message plain_host heartbeat_active (held_X_after 5))))
  = PStr "MAV_STATE_ACTIVE" /\
  _status_hold_until
    (snd (@update_status plain_host "X" (Some 4) sample_bridge)) = 100 + 4.
Proof.
  assert (Hname : lifecycle_name 4 "MAV_STATE_ACTIVE")
    by (left; cbn; tauto).
  pose proof (@status_hold_rule plain_host heartbeat_active (held_X_after 1)
                4%Z "MAV_STATE_ACTIVE" "X" (Some 4) sample_bridge
                eq_refl eq_refl eq_refl Hname) as H1.
  pose proof (@status_hold_rule plain_host heartbeat_active (held_X_after 5)
                4%Z "MAV_STATE_ACTIVE" "X" (Some 4) sample_bridge
                eq_refl eq_refl eq_refl Hname) as H5.
  cbv zeta in H1, H5.
  destruct H1 as [[_ Hkeep] (_ & _ & _ & Hhold)].
  destruct H5 as [[Hover _] _].
  split; [|split].
  - rewrite (proj1 (Hkeep ltac:(vm_compute; reflexivity))).
    vm_compute; reflexivity.
  - apply (proj1 (Hover ltac:(vm_compute; discriminate))).
  - exact Hhold.
Defined.

(** The last entry of the enum, and a status that the enum does not have. *)
Example status_names_at_the_end :
  let hb s := mkMessage "HEARTBEAT"
                [("base_mode", PInt 81); ("system_status", PInt s)] 1 1 "" in
  dict_get "status" (state (snd (@handle_message plain_host (hb 9%Z) sample_bridge)))
  = PStr "MAV_STATE_ENUM_END" /\
  dict_get "status" (state (snd (@handle_message plain_host (hb 12%Z) sample_bridge)))
  = PStr "12".
Proof. vm_compute. split; reflexivity. Qed.


(** ** What [handle_message] leaves alone *)

Section HandleMessageFrames.
Context {host : Host}.
Variable R : World -> World -> Prop.
Hypothesis R_refl : forall w, R w w.
Hypothesis R_trans : forall a b c, R a b -> R b c -> R a c.
Hypothesis R_state : forall d w, R w (with_state d w).
Hypothesis R_boot : forall a b w, R w (with_boot_clock (Some a) (Some b) w).
Hypothesis R_mav : forall m w, R w (with_latest_mav m w).
Hypothesis R_out :
  forall l w, is_command_result l = false -> R w (with_stdout (stdout w ++ [l]) w).

Ltac frame_close :=
  first [ apply R_state | apply R_boot | apply R_mav
        | apply R_out; reflexivity ].

Lemma store_position_frames msg : frames R (store_position msg).
Proof. unfold store_position. repeat (frame_step; try frame_close). Qed.

Lemma handle_message_frames msg : frames R (handle_message msg).
Proof.
  unfold handle_message, on_heartbeat, on_global_position_int,
    reconcile_boot_clock, on_gps_raw_int, on_vfr_hud.
  repeat (frame_step; try frame_close).
  all: try apply store_position_frames.
Qed.
End HandleMessageFrames.



(** ** The vehicle-boot-clock estimator (GLOBAL_POSITION_INT) *)

Lemma only_state_refl w : only_state w w.
Proof. destruct w; reflexivity. Qed.

Lemma only_state_trans a b c : only_state a b -> only_state b c -> only_state a c.
Proof. unfold only_state. intros H1 H2. rewrite H2, H1. reflexivity. Qed.

Lemma store_position_only_state {host : Host} msg w :
  only_state w (snd (store_position msg w)).
Proof.
  apply (store_position_frames only_state only_state_refl only_state_trans).
  intros d w0. reflexivity.
Qed.

(** The estimator's two fields stay set together, whatever the message. *)
Lemma handle_message_boot_clock_consistent {host : Host} msg w :
  boot_clock_consistent w ->
  boot_clock_consistent (snd (handle_message msg w)).
Proof.
  apply (handle_message_frames
           (fun a b => boot_clock_consistent a -> boot_clock_consistent b));
    unfold boot_clock_consistent; cbn; try tauto.
  intros a b w0 _. split; discriminate.
Qed.

Lemma new_bridge_boot_clock_consistent link debug wall0 mono0 sched :
  boot_clock_consistent (new_bridge link debug wall0 mono0 sched).
Proof. unfold boot_clock_consistent; cbn; tauto. Qed.

(** C3: on a GLOBAL_POSITION_INT message whose position fields apply and
    whose [time_boot_ms] is an int or float with integer value [vb], the
    estimator's offset becomes [host_now - vb] when the sample is the first
    one or [vb] is strictly below the previous device clock value, is kept
    when [vb] is at or above the previous value, and the stored skew is
    [host_now - (offset + vb)]. *)
Theorem boot_clock_rule {host : Host} (msg : Message) (w : World) (vb : Z) :
  get_type msg = "GLOBAL_POSITION_INT" ->
  fst (store_position msg w) = Ok tt ->
  is_int_or_float (getattr msg "time_boot_ms" PNone) = true ->
  py_int_of_number (getattr msg "time_boot_ms" PNone) = Ok vb ->
  boot_clock_consistent w ->
  let host_now := Qtrunc (wall w * 1000) in
  let w' := snd (handle_message msg w) in
  exists offset' : Z,
    _vehicle_boot_offset w' = Some offset' /\
    _last_vehicle_boot_ms w' = Some vb /\
    (_last_vehicle_boot_ms w = None -> offset' = host_now - vb)%Z /\
    (forall prev, _last_vehicle_boot_ms w = Some prev -> (vb < prev)%Z ->
       offset' = host_now - vb)%Z /\
    (forall prev, _last_vehicle_boot_ms w = Some prev -> (prev <= vb)%Z ->
       _vehicle_boot_offset w = Some offset') /\
    dict_get "last_gps_vehicle_skew_ms" (state w')
      = PInt (host_now - (offset' + vb)).
Proof.
  intros Ht Hpos Hnum Hvb Hinv host_now w'.
  destruct (store_position msg w) as [r w1] eqn:Hpos'. cbn [fst] in Hpos.
  subst r. rename Hpos' into Hpos.
  assert (Hhm : handle_message msg w = reconcile_boot_clock msg w1).
  { unfold handle_message. rewrite Ht. cbn [String.eqb Ascii.eqb Bool.eqb].
    unfold on_global_position_int, bind. rewrite Hpos. reflexivity. }
  subst w'. rewrite Hhm. clear Hhm.
  pose proof (store_position_only_state msg w) as Hfr. rewrite Hpos in Hfr.
  cbn [snd] in Hfr. unfold only_state in Hfr.
  unfold reconcile_boot_clock. rewrite Hnum, Hvb. run.
  rewrite Hfr. run. fold host_now.
  set (off' := match _vehicle_boot_offset w with
               | Some o =>
                   match _last_vehicle_boot_ms w with
                   | Some l => if (vb <? l)%Z then (host_now - vb)%Z else o
                   | None => (host_now - vb)%Z
                   end
               | None => (host_now - vb)%Z
               end).
  destruct (_debug_timing w && (250 <? Z.abs (host_now - (off' + vb)))%Z);
    run; dict_simpl.
  all: exists off'; repeat split; try reflexivity.
  all: unfold boot_clock_consistent in Hinv; subst off'.
  all: destruct (_vehicle_boot_offset w) as [o|] eqn:Eo;
       destruct (_last_vehicle_boot_ms w) as [l|] eqn:El;
       try (destruct Hinv as [H1 H2]; first [discriminate (H1 eq_refl) | discriminate (H2 eq_refl)]).
  all: try discriminate; try reflexivity.
  all: try (intros _; reflexivity).
  all: try (intros Hp; discriminate Hp).
  all: try (intros prev Hp; discriminate Hp).
  all: intros prev Hp; injection Hp as <-; intros Hlt.
  all: try (apply Z.ltb_lt in Hlt; rewrite Hlt; reflexivity).
  all: try (apply Z.ltb_ge in Hlt; rewrite Hlt; reflexivity).
Qed.

Lemma boot_clock_rule_witness :
  let w' := snd (@handle_message plain_host (position_report 3000)
                   bridge_after_report) in
  _vehicle_boot_offset bridge_after_report = Some (1700000000000 - 5000)%Z /\
  _vehicle_boot_offset w' = Some (1700000002000 - 3000)%Z /\
  dict_get "last_gps_vehicle_skew_ms" (state w') = PInt 0.
Proof.
  destruct (@boot_clock_rule plain_host (position_report 3000)
              bridge_after_report 3000%Z)
    as (off & Hoff & _ & _ & Hdec & _ & Hskew);
    [vm_compute; reflexivity | vm_compute; reflexivity | vm_compute; reflexivity | vm_compute; reflexivity
    | split; discriminate |].
  cbv zeta.
  rewrite Hoff, Hskew.
  rewrite (Hdec 5000%Z eq_refl eq_refl).
  repeat split; reflexivity.
Defined.

(** Increasing device clock values keep the offset of the first sample. *)
Example boot_clock_offset_kept :
  let w' := snd (@handle_message plain_host (position_report 7000)
                   bridge_after_report) in
  _vehicle_boot_offset w' = _vehicle_boot_offset bridge_after_report /\
  dict_get "last_gps_vehicle_skew_ms" (state w') = PInt 0.
Proof. vm_compute. split; reflexivity. Qed.


(** ** Unit conversion (GLOBAL_POSITION_INT) *)

Lemma keeps_keys_refl ks w : keeps_keys ks w w.
Proof. intros k _. reflexivity. Qed.

Lemma keeps_keys_trans ks a b c :
  keeps_keys ks a b -> keeps_keys ks b c -> keeps_keys ks a c.
Proof. intros H1 H2 k Hk. rewrite (H2 k Hk). apply H1, Hk. Qed.

Lemma keeps_keys_set ks k v w :
  existsb (String.eqb k) ks = true ->
  keeps_keys ks w (with_state (dict_set k v (state w)) w).
Proof.
  intros Hin k' Hk'. cbn [state with_state]. rewrite dict_get_set.
  destruct (String.eqb k' k) eqn:E; [|reflexivity].
  apply String.eqb_eq in E. subst k'. congruence.
Qed.

Ltac keeps_close :=
  first [ apply keeps_keys_set; reflexivity
        | intros ? ?; reflexivity ].

Lemma reconcile_keeps {host : Host} msg :
  frames (keeps_keys ["last_gps_host_timestamp"; "last_gps_vehicle_timestamp";
                      "last_gps_vehicle_skew_ms"])
         (reconcile_boot_clock msg).
Proof.
  pose proof (keeps_keys_refl ["last_gps_host_timestamp"; "last_gps_vehicle_timestamp";
                      "last_gps_vehicle_skew_ms"]) as R_refl.
  pose proof (keeps_keys_trans ["last_gps_host_timestamp"; "last_gps_vehicle_timestamp";
                      "last_gps_vehicle_skew_ms"]) as R_trans.
  unfold reconcile_boot_clock.
  repeat (frame_step; try keeps_close).
Qed.

Lemma scaled_number (v : pyval) (q d : Q) :
  wire_value v = true ->
  number_value v = Some q ->
  exists q', scaled v d = Ok (PFloat (Fin q')) /\ q' == q / d.
Proof.
  intros Hw.
  destruct v as [|b|z|[x| |]| | |]; simpl; intros H; inversion H; subst;
    try rewrite (wire_int_exact z Hw);
    (eexists; split; [reflexivity | apply Qred_correct]).
Qed.

Lemma store_position_run {host : Host} msg w v1 v2 v3 v4 :
  scaled (getattr msg "lat" PNone) 10000000 = Ok v1 ->
  scaled (getattr msg "lon" PNone) 10000000 = Ok v2 ->
  scaled (getattr msg "alt" PNone) 1000 = Ok v3 ->
  scaled (getattr msg "relative_alt" PNone) 1000 = Ok v4 ->
  store_position msg w =
  (Ok tt,
   with_state
     (dict_set "relative_alt" v4
        (dict_set "alt" v3 (dict_set "lon" v2 (dict_set "lat" v1 (state w)))))
     w).
Proof.
  intros H1 H2 H3 H4. unfold store_position. rewrite H1, H2, H3, H4.
  reflexivity.
Qed.

(** C4: a GLOBAL_POSITION_INT message whose four raw position fields are
    numbers stores latitude and longitude as the raw values divided by
    10^7 and both altitudes as the raw values divided by 1000, whatever
    the rest of the handler does. *)
Theorem position_converted {host : Host} (msg : Message) (w : World)
    (lat lon alt rel : Q) :
  get_type msg = "GLOBAL_POSITION_INT" ->
  number_value (getattr msg "lat" PNone) = Some lat ->
  number_value (getattr msg "lon" PNone) = Some lon ->
  number_value (getattr msg "alt" PNone) = Some alt ->
  number_value (getattr msg "relative_alt" PNone) = Some rel ->
  let w' := snd (handle_message msg w) in
  exists la lo al re : Q,
    dict_get "lat" (state w') = PFloat (Fin la) /\ la == lat / 10000000 /\
    dict_get "lon" (state w') = PFloat (Fin lo) /\ lo == lon / 10000000 /\
    dict_get "alt" (state w') = PFloat (Fin al) /\ al == alt / 1000 /\
    dict_get "relative_alt" (state w') = PFloat (Fin re) /\ re == rel / 1000.
Proof.
  intros Ht H1 H2 H3 H4 w'.
  destruct (scaled_number _ _ 10000000 (getattr_wire msg "lat" PNone eq_refl) H1)
    as (la & E1 & Q1).
  destruct (scaled_number _ _ 10000000 (getattr_wire msg "lon" PNone eq_refl) H2)
    as (lo & E2 & Q2).
  destruct (scaled_number _ _ 1000 (getattr_wire msg "alt" PNone eq_refl) H3)
    as (al & E3 & Q3).
  destruct (scaled_number _ _ 1000
              (getattr_wire msg "relative_alt" PNone eq_refl) H4)
    as (re & E4 & Q4).
  pose proof (store_position_run msg w _ _ _ _ E1 E2 E3 E4) as Hpos.
  assert (Hhm : handle_message msg w
                = reconcile_boot_clock msg (snd (store_position msg w))).
  { unfold handle_message. rewrite Ht. cbn [String.eqb Ascii.eqb Bool.eqb].
    unfold on_global_position_int, bind. rewrite Hpos. reflexivity. }
  subst w'. rewrite Hhm, Hpos. cbn [snd].
  exists la, lo, al, re.
  rewrite !(reconcile_keeps msg _ _) by reflexivity.
  cbn [state with_state]. dict_simpl. auto 10.
Qed.


Lemma position_converted_witness :
  let w' := snd (@handle_message plain_host (position_report 5000)
                   sample_bridge) in
  exists la re : Q,
    dict_get "lat" (state w') = PFloat (Fin la) /\ la == -7.4 /\
    dict_get "relative_alt" (state w') = PFloat (Fin re) /\ re == 1.5.
Proof.
  destruct (@position_converted plain_host (position_report 5000)
              sample_bridge (inject_Z (-74000000)) (inject_Z 1100000000)
              (inject_Z 12000) (inject_Z 1500))
    as (la & lo & al & re & H1 & Q1 & _ & _ & _ & _ & H4 & Q4);
    [vm_compute; reflexivity ..|].
  exists la, re. cbv zeta. rewrite H1, H4.
  repeat split; [rewrite Q1 | rewrite Q4]; reflexivity.
Defined.

Example position_converted_values :
  let w' := snd (@handle_message plain_host (position_report 5000)
                   sample_bridge) in
  dict_get "lat" (state w') = PFloat (Fin (-37 # 5)) /\
  dict_get "relative_alt" (state w') = PFloat (Fin (3 # 2)).
Proof. vm_compute. split; reflexivity. Qed.

(** ** Fields whose conversion fails (VFR_HUD, GLOBAL_POSITION_INT) *)

(** [_safe_float] returns, or raises the [OverflowError] of [float] on an
    int beyond the floats. *)
Lemma _safe_float_cases {host : Host} (v : pyval) :
  (exists o, _safe_float v = Ok o) \/
  (beyond_float v = true /\
   _safe_float v
   = Raise (mkExc OverflowError "int too large to convert to float")).
Proof.
  destruct v as [|b|z|f|s|l|d]; simpl; eauto.
  - unfold float_of_int.
    destruct (float_overflow <=? Z.abs z)%Z; simpl; eauto.
  - destruct (float_of_str s); simpl; eauto.
Qed.

Lemma _safe_float_within {host : Host} (v : pyval) :
  beyond_float v = false -> exists o, _safe_float v = Ok o.
Proof.
  intros H. destruct (_safe_float_cases v) as [Ho|[Hb _]]; [exact Ho|].
  congruence.
Qed.

Lemma wire_within (v : pyval) : wire_value v = true -> beyond_float v = false.
Proof.
  destruct v as [|b|z|f|s|l|d]; try reflexivity.
  cbn [wire_value beyond_float]. intros H.
  apply andb_prop in H. destruct H as [H1 H2].
  apply Z.leb_le in H1. apply Z.ltb_lt in H2.
  pose proof float_overflow_above. apply Z.leb_gt. lia.
Qed.

(** On a field of a decoded message [_safe_float] returns. *)
Lemma _safe_float_field {host : Host} (msg : Message) (name : string) :
  exists o, _safe_float (getattr msg name PNone) = Ok o.
Proof.
  apply _safe_float_within, wire_within, getattr_wire. reflexivity.
Qed.

Lemma _safe_float_unconvertible {host : Host} (v : pyval) :
  beyond_float v = false -> unconvertible v -> _safe_float v = Ok None.
Proof.
  unfold unconvertible. intros Hb H.
  destruct v as [|b|z|f|s|l|d]; simpl in *; try reflexivity;
    try (exfalso; eapply H; reflexivity).
  - unfold float_of_int in *. rewrite Hb in *. exfalso; eapply H; reflexivity.
  - destruct (float_of_str s); simpl;
      [exfalso; eapply H; reflexivity|reflexivity].
Qed.

Lemma _safe_float_convertible {host : Host} (v : pyval) f :
  py_float v = Ok f -> _safe_float v = Ok (Some f).
Proof.
  intros H. destruct v; cbn [_safe_float]; try discriminate H; rewrite H;
    reflexivity.
Qed.

Lemma on_vfr_hud_run {host : Host} msg w o1 o2 o3 :
  _safe_float (getattr msg "heading" PNone) = Ok o1 ->
  _safe_float (getattr msg "alt" PNone) = Ok o2 ->
  _safe_float (getattr msg "climb" PNone) = Ok o3 ->
  let st := dict_set "climb" (opt_float o3)
              (dict_set "baro_alt" (opt_float o2)
                 (dict_set "heading" (opt_float o1) (state w))) in
  on_vfr_hud msg w =
  (Ok tt,
   with_stdout (stdout w ++ [[("type", PStr "telemetry"); ("data", PDict st)]])
     (with_state st w)).
Proof.
  intros H1 H2 H3. unfold on_vfr_hud. rewrite H1, H2, H3. reflexivity.
Qed.

Lemma hud_field_cleared {host : Host} msg w field key :
  get_type msg = "VFR_HUD" ->
  In (field, key) [("heading", "heading"); ("alt", "baro_alt"); ("climb", "climb")] ->
  unconvertible (getattr msg field PNone) ->
  dict_get key (state (snd (handle_message msg w))) = PNone.
Proof.
  intros Ht Hin Hun.
  unfold handle_message. rewrite Ht. cbn [String.eqb Ascii.eqb Bool.eqb].
  destruct (_safe_float_field msg "heading") as [o1 E1].
  destruct (_safe_float_field msg "alt") as [o2 E2].
  destruct (_safe_float_field msg "climb") as [o3 E3].
  rewrite (on_vfr_hud_run msg w _ _ _ E1 E2 E3). cbn [snd state with_stdout with_state].
  apply _safe_float_unconvertible in Hun;
    [|apply wire_within, getattr_wire; reflexivity].
  simpl in Hin. destruct Hin as [H|[H|[H|[]]]]; inversion H; subst field key;
    dict_simpl;
    [ rewrite Hun in E1; inversion E1
    | rewrite Hun in E2; inversion E2
    | rewrite Hun in E3; inversion E3 ]; reflexivity.
Qed.

Lemma store_position_ok_inv {host : Host} msg w :
  fst (store_position msg w) = Ok tt ->
  exists v1 v2 v3 v4,
    scaled (getattr msg "lat" PNone) 10000000 = Ok v1 /\
    scaled (getattr msg "lon" PNone) 10000000 = Ok v2 /\
    scaled (getattr msg "alt" PNone) 1000 = Ok v3 /\
    scaled (getattr msg "relative_alt" PNone) 1000 = Ok v4.
Proof.
  unfold store_position.
  destruct (scaled (getattr msg "lat" PNone) 10000000) as [v1| |]; run; try discriminate.
  destruct (scaled (getattr msg "lon" PNone) 10000000) as [v2| |]; run; try discriminate.
  destruct (scaled (getattr msg "alt" PNone) 1000) as [v3| |]; run; try discriminate.
  destruct (scaled (getattr msg "relative_alt" PNone) 1000) as [v4| |]; run; try discriminate.
  intros _. eauto 10.
Qed.

Lemma position_field_cleared {host : Host} msg w field :
  get_type msg = "GLOBAL_POSITION_INT" ->
  fst (store_position msg w) = Ok tt ->
  In field ["lat"; "lon"; "alt"; "relative_alt"] ->
  getattr msg field PNone = PNone ->
  dict_get field (state (snd (handle_message msg w))) = PNone.
Proof.
  intros Ht Hok Hin Hnone.
  destruct (store_position_ok_inv msg w Hok) as (v1 & v2 & v3 & v4 & E1 & E2 & E3 & E4).
  pose proof (store_position_run msg w _ _ _ _ E1 E2 E3 E4) as Hpos.
  assert (Hhm : handle_message msg w
                = reconcile_boot_clock msg (snd (store_position msg w))).
  { unfold handle_message. rewrite Ht. cbn [String.eqb Ascii.eqb Bool.eqb].
    unfold on_global_position_int, bind. rewrite Hpos. reflexivity. }
  rewrite Hhm, Hpos. cbn [snd].
  simpl in Hin. destruct Hin as [H|[H|[H|[H|[]]]]]; subst field;
    rewrite Hnone in *; simpl in *;
    (rewrite (reconcile_keeps msg _ _) by reflexivity);
    cbn [state with_state]; dict_simpl; congruence.
Qed.

(** C8 (as amended): on a VFR_HUD message a numeric field that is missing
    or not numeric, and on a GLOBAL_POSITION_INT message whose position
    fields apply a position field that is missing, set the corresponding
    field of the state to [None]; the field does not keep its value. *)
Theorem unconverted_field_cleared {host : Host} (msg : Message) (w : World)
    (field key : string) :
  In (get_type msg, field, key) numeric_fields ->
  (get_type msg = "VFR_HUD" ->
   unconvertible (getattr msg field PNone) ->
   dict_get key (state (snd (handle_message msg w))) = PNone) /\
  (get_type msg = "GLOBAL_POSITION_INT" ->
   fst (store_position msg w) = Ok tt ->
   getattr msg field PNone = PNone ->
   dict_get key (state (snd (handle_message msg w))) = PNone).
Proof.
  intros Hin. split.
  - intros Ht Hun. apply (hud_field_cleared msg w field key Ht); [|exact Hun].
    rewrite Ht in Hin. simpl in Hin |- *.
    repeat (destruct Hin as [Hin|Hin]; [inversion Hin; auto|]).
    contradiction.
  - intros Ht Hok Hnone. rewrite Ht in Hin. simpl in Hin.
    repeat (destruct Hin as [Hin|Hin];
            [inversion Hin; subst;
             apply (position_field_cleared msg w _ Ht Hok); simpl; auto|]).
    contradiction.
Qed.

Lemma unconverted_field_cleared_witness :
  dict_get "heading" (state bridge_with_fix) = PFloat (Fin 90) /\
  dict_get "heading"
    (state (snd (@handle_message plain_host hud_missing_heading
                   bridge_with_fix))) = PNone /\
  dict_get "lat" (state bridge_with_fix) = PFloat (Fin (-37 # 5)) /\
  dict_get "lat"
    (state (snd (@handle_message plain_host position_without_lat
                   bridge_with_fix))) = PNone.
Proof.
  split; [|split; [|split]].
  - vm_compute; reflexivity.
  - apply (proj1 (@unconverted_field_cleared plain_host hud_missing_heading
                    bridge_with_fix "heading" "heading"
                    ltac:(vm_compute; tauto))).
    + reflexivity.
    + intros f; discriminate.
  - vm_compute; reflexivity.
  - apply (proj2 (@unconverted_field_cleared plain_host position_without_lat
                    bridge_with_fix "lat" "lat" ltac:(vm_compute; tauto))).
    + reflexivity.
    + vm_compute; reflexivity.
    + reflexivity.
Defined.

(** C8, as stated, fails: the heading the state held is gone after a
    VFR_HUD message that has none. *)
Lemma unconverted_field_not_kept : ~ @unconverted_field_kept plain_host.
Proof.
  intros H.
  specialize (H hud_missing_heading bridge_with_fix "heading" "heading").
  assert (Hk : dict_get "heading"
                 (state (snd (@handle_message plain_host hud_missing_heading
                                bridge_with_fix)))
               = dict_get "heading" (state bridge_with_fix)).
  { apply H; [vm_compute; tauto | intros f; discriminate]. }
  vm_compute in Hk. discriminate Hk.
Qed.

(** A position field that is present but no number raises [TypeError] at
    its conversion: latitude is already overwritten, longitude and what
    follows are as before, and no snapshot is emitted. *)
Example position_partially_applied :
  let msg := mkMessage "GLOBAL_POSITION_INT"
               [("lat", PInt 10000000); ("lon", PStr "east")] 1 1 "" in
  let r := @handle_message plain_host msg bridge_with_fix in
  (exists e, fst r = Raise e /\ kind e = TypeError) /\
  dict_get "lat" (state (snd r)) = PFloat (Fin 1) /\
  dict_get "lon" (state (snd r)) = dict_get "lon" (state bridge_with_fix) /\
  stdout (snd r) = stdout bridge_with_fix.
Proof. vm_compute. split; [eexists; split; reflexivity|]. repeat split. Qed.

(** ** The recorder (start_csv_logging, stop_csv_logging) *)

Lemma b64_value_digit (n : nat) :
  (n < 64)%nat -> b64_value (b64_digit n) = Some n.
Proof.
  intros H.
  do 64 (destruct n as [|n]; [vm_compute; reflexivity|]).
  lia.
Qed.

Lemma b64_value_pad : b64_value "="%char = None.
Proof. vm_compute. reflexivity. Qed.

Lemma nat_of_ascii_lt (a : ascii) : (nat_of_ascii a < 256)%nat.
Proof. apply nat_ascii_bounded. Qed.


Lemma div_join (p q b : nat) : (q < b -> (p * b + q) / b = p)%nat.
Proof. intros H. rewrite Nat.div_add_l by lia. rewrite Nat.div_small; lia. Qed.

Lemma mod_join (p q b : nat) : (q < b -> (p * b + q) mod b = q)%nat.
Proof.
  intros H. rewrite Nat.add_comm, Nat.Div0.mod_add. apply Nat.mod_small, H.
Qed.

Lemma split_join (x b : nat) : (b <> 0 -> x / b * b + x mod b = x)%nat.
Proof. intros H. rewrite (Nat.div_mod_eq x b) at 3. lia. Qed.

Lemma div_bound (x b c : nat) : (b <> 0 -> x < b * c -> x / b < c)%nat.
Proof. intros Hb H. apply Nat.Div0.div_lt_upper_bound; lia. Qed.

Lemma mod_bound (x b : nat) : (b <> 0 -> x mod b < b)%nat.
Proof. intros H. apply Nat.mod_upper_bound, H. Qed.

Lemma b64_triple_ind (P : string -> Prop) :
  P "" ->
  (forall a, P (String a "")) ->
  (forall a b, P (String a (String b ""))) ->
  (forall a b c r, P r -> P (String a (String b (String c r)))) ->
  forall s, P s.
Proof.
  intros H0 H1 H2 H3.
  fix IH 1.
  intros [|a [|b [|c r]]];
    [exact H0 | apply H1 | apply H2 | apply H3; apply IH].
Qed.

(** What the division and remainder of three bytes are bounded by. *)
Ltac byte_bounds x y z :=
  pose proof (nat_of_ascii_lt x); pose proof (nat_of_ascii_lt y);
  pose proof (nat_of_ascii_lt z);
  pose proof (mod_bound (nat_of_ascii x) 4 ltac:(lia));
  pose proof (div_bound (nat_of_ascii x) 4 64 ltac:(lia) ltac:(lia));
  pose proof (mod_bound (nat_of_ascii y) 16 ltac:(lia));
  pose proof (div_bound (nat_of_ascii y) 16 16 ltac:(lia) ltac:(lia));
  pose proof (mod_bound (nat_of_ascii z) 64 ltac:(lia));
  pose proof (div_bound (nat_of_ascii z) 64 4 ltac:(lia) ltac:(lia)).

Lemma b64decode_encode (s : string) : b64decode (b64encode s) = Some s.
Proof.
  induction s as [|a|a b|a b c r IH] using b64_triple_ind.
  - reflexivity.
  - byte_bounds a a a.
    cbn [b64encode b64decode].
    rewrite !b64_value_digit, b64_value_pad by lia.
    cbn [Ascii.eqb Bool.eqb andb String.eqb].
    rewrite Nat.div_mul by lia.
    rewrite split_join by lia.
    now rewrite ascii_nat_embedding.
  - byte_bounds a b b.
    cbn [b64encode b64decode].
    rewrite !b64_value_digit, b64_value_pad by lia.
    cbn [Ascii.eqb Bool.eqb andb String.eqb].
    rewrite div_join, mod_join by lia.
    rewrite Nat.div_mul by lia.
    rewrite !split_join by lia.
    now rewrite !ascii_nat_embedding.
  - byte_bounds a b c.
    cbn [b64encode]. cbn [b64decode].
    rewrite !b64_value_digit by lia.
    rewrite IH.
    rewrite !div_join, !mod_join by lia.
    rewrite !split_join by lia.
    now rewrite !ascii_nat_embedding.
Qed.

(** C5 (as amended): [start_csv_logging] never fails; whether or not a
    session is active it clears the row buffer, activates the session,
    holds the status "CSV: recording" for two seconds and returns
    [{"status": "started"}]. *)
Theorem start_always_restarts {host : Host} (w : World) :
  let w' := snd (start_csv_logging w) in
  fst (start_csv_logging w) = Ok (PDict [("status", PStr "started")]) /\
  csv_rows w' = [] /\
  logging_active w' = true /\
  dict_get "status" (state w') = PStr "CSV: recording" /\
  _status_hold_until w' = monotonic w + 2.
Proof.
  unfold start_csv_logging, update_status. run. dict_simpl. auto.
Qed.

(** C5, as stated, fails: started on a bridge that is already recording,
    [start_csv_logging] returns normally. *)
Lemma start_succeeds_when_active : ~ @start_fails_when_active plain_host.
Proof.
  intros H. destruct (H recording_bridge eq_refl) as [e He].
  vm_compute in He. discriminate He.
Qed.

Lemma join_concat (sep : string) (l : list string) :
  join sep l = String.concat sep l.
Proof.
  induction l as [|x [|y r] IH]; [reflexivity | reflexivity |].
  change (join sep (x :: y :: r)) with (x ++ sep ++ join sep (y :: r))%string.
  rewrite IH. reflexivity.
Qed.

Lemma csv_quote_unquoted (s : string) : unquoted s = true -> csv_quote s = s.
Proof.
  unfold unquoted, csv_quote. intros H. apply negb_true_iff in H.
  rewrite H. reflexivity.
Qed.

Lemma writerow_plain {host : Host} (row : list pyval) :
  plain_row row = true ->
  writerow row = (String.concat "," (map csv_field row) ++ CRLF)%string.
Proof.
  unfold plain_row, writerow. intros H. apply andb_prop in H.
  destruct H as [Hlen Hall]. apply Nat.leb_le in Hlen.
  assert (Hq : map csv_quote (map csv_field row) = map csv_field row).
  { clear Hlen. induction row as [|v row IH]; [reflexivity|].
    cbn [forallb] in Hall. apply andb_prop in Hall. destruct Hall as [Hv Hr].
    cbn [map]. rewrite (csv_quote_unquoted _ Hv), (IH Hr). reflexivity. }
  destruct row as [|a [|b r]]; cbn [length] in Hlen; [lia | lia |].
  unfold csv_line. cbn [map] in *. rewrite Hq, join_concat. reflexivity.
Qed.

Lemma writerows_plain {host : Host} (rows : list (list pyval)) :
  forallb plain_row rows = true ->
  writerows rows
  = String.concat ""
      (map (fun row => (String.concat "," (map csv_field row) ++ CRLF)%string)
         rows).
Proof.
  unfold writerows. intros H. f_equal.
  induction rows as [|row rows IH]; [reflexivity|].
  cbn [forallb] in H. apply andb_prop in H. destruct H as [Hr Hrs].
  cbn [map]. rewrite (writerow_plain row Hr), (IH Hrs). reflexivity.
Qed.

Lemma header_line :
  csv_line header
  = ("timestamp_log,timestamp_slam,slam_x,slam_y,slam_z,timestamp_mavlink,gps_lat,gps_lon,gps_alt,gps_alt_rel"
     ++ CRLF)%string.
Proof. reflexivity. Qed.

(** C6: [stop_csv_logging] on a bridge that is not recording raises
    [RuntimeError] and leaves the whole world as it was; on a recording
    bridge it deactivates, empties the buffer and returns, with the file
    name [slam-log-<unix seconds>.csv], the base64 text of the CSV table:
    the line of the ten column names, then one line per buffered row in
    the order of the buffer, the fields of a row in order and separated by
    commas, [None] as the empty field, every line ended by CR LF (for rows
    whose fields need no quoting, as the recorder makes them). *)
Theorem stop_csv_logging_spec {host : Host} (idle active : World) :
  logging_active idle = false ->
  logging_active active = true ->
  forallb plain_row (csv_rows active) = true ->
  let table :=
    (("timestamp_log,timestamp_slam,slam_x,slam_y,slam_z,timestamp_mavlink,gps_lat,gps_lon,gps_alt,gps_alt_rel"
      ++ CRLF)
     ++ String.concat ""
          (map (fun row => String.concat "," (map csv_field row) ++ CRLF)
             (csv_rows active)))%string in
  stop_csv_logging idle
    = (Raise (mkExc RuntimeError "CSV belum dimulai"), idle) /\
  stop_csv_logging active
    = (Ok (PDict
             [ ("csv", PStr (b64encode table));
               ("file_name",
                PStr ("slam-log-" ++ str_of_Z (Qtrunc (wall active))
                      ++ ".csv")) ]),
       with_csv_rows [] (with_logging_active false active)) /\
  b64decode (b64encode table) = Some table.
Proof.
  intros Hi Ha Hrows table. unfold stop_csv_logging. run. rewrite Hi, Ha. run.
  split; [reflexivity|]. split; [|apply b64decode_encode].
  subst table. rewrite <- (writerows_plain _ Hrows), <- header_line.
  reflexivity.
Qed.

Lemma stop_csv_logging_spec_witness :
  @stop_csv_logging plain_host sample_bridge
    = (Raise (mkExc RuntimeError "CSV belum dimulai"), sample_bridge) /\
  length (csv_rows recorded_session) = 3%nat /\
  @stop_csv_logging plain_host recorded_session
    = (Ok (PDict
             [ ("csv",
                PStr "dGltZXN0YW1wX2xvZyx0aW1lc3RhbXBfc2xhbSxzbGFtX3gsc2xhbV95LHNsYW1feix0aW1lc3RhbXBfbWF2bGluayxncHNfbGF0LGdwc19sb24sZ3BzX2FsdCxncHNfYWx0X3JlbA0KMTcwMDAwMDAwMDAwMCwxNzAwMDAwMDAwMDAwLDEuMCwyLjAsMy4wLCwsLCwNCjE3MDAwMDAwMDAwMDAsMTcwMDAwMDAwMDAwMCwxLjAsMi4wLDMuMCwxNzAwMDAwMDAwMDAwLC03LjQsMTEwLjAsMTIuMCwxLjUNCjE3MDAwMDAwMDAwMDAsMTcwMDAwMDAwMDAwMCwxLjAsMi4wLDMuMCwxNzAwMDAwMDAwMDAwLCwxMTAuMCwxMi4wLDEuNQ0K");
               ("file_name", PStr "slam-log-1700000000.csv") ]),
       with_csv_rows [] (with_logging_active false recorded_session)) /\
  b64decode
    "dGltZXN0YW1wX2xvZyx0aW1lc3RhbXBfc2xhbSxzbGFtX3gsc2xhbV95LHNsYW1feix0aW1lc3RhbXBfbWF2bGluayxncHNfbGF0LGdwc19sb24sZ3BzX2FsdCxncHNfYWx0X3JlbA0KMTcwMDAwMDAwMDAwMCwxNzAwMDAwMDAwMDAwLDEuMCwyLjAsMy4wLCwsLCwNCjE3MDAwMDAwMDAwMDAsMTcwMDAwMDAwMDAwMCwxLjAsMi4wLDMuMCwxNzAwMDAwMDAwMDAwLC03LjQsMTEwLjAsMTIuMCwxLjUNCjE3MDAwMDAwMDAwMDAsMTcwMDAwMDAwMDAwMCwxLjAsMi4wLDMuMCwxNzAwMDAwMDAwMDAwLCwxMTAuMCwxMi4wLDEuNQ0K"
  = Some
      ("timestamp_log,timestamp_slam,slam_x,slam_y,slam_z,timestamp_mavlink,gps_lat,gps_lon,gps_alt,gps_alt_rel"
       ++ CRLF
       ++ "1700000000000,1700000000000,1.0,2.0,3.0,,,,," ++ CRLF
       ++ "1700000000000,1700000000000,1.0,2.0,3.0,1700000000000,-7.4,110.0,12.0,1.5"
       ++ CRLF
       ++ "1700000000000,1700000000000,1.0,2.0,3.0,1700000000000,,110.0,12.0,1.5"
       ++ CRLF)%string.
Proof.
  destruct (@stop_csv_logging_spec plain_host sample_bridge recorded_session
              eq_refl eq_refl eq_refl) as (Hidle & Hactive & Hdec).
  split; [exact Hidle|]. split; [reflexivity|]. split.
  - rewrite Hactive. vm_compute. reflexivity.
  - vm_compute in Hdec. vm_compute. exact Hdec.
Defined.

(** A recorded session, exported: one row per accepted pose, each with the
    position sample stored last before it. *)
Example recorder_round_trip :
  map (fun row => skipn 5 row) (csv_rows recorded_session)
  = [ [PNone; PNone; PNone; PNone; PNone];
      [PInt 1700000000000; PFloat (Fin (-37 # 5)); PFloat (Fin 110);
       PFloat (Fin 12); PFloat (Fin (3 # 2))];
      [PInt 1700000000000; PNone; PFloat (Fin 110); PFloat (Fin 12);
       PFloat (Fin (3 # 2))] ] /\
  match fst (@stop_csv_logging plain_host recorded_session) with
  | Ok (PDict d) =>
      match dict_get "csv" d with
      | PStr text => b64decode text
      | _ => None
      end
  | _ => None
  end
  = Some
      (csv_line header
       ++ "1700000000000,1700000000000,1.0,2.0,3.0,,,,," ++ CRLF
       ++ "1700000000000,1700000000000,1.0,2.0,3.0,1700000000000,-7.4,110.0,12.0,1.5"
       ++ CRLF
       ++ "1700000000000,1700000000000,1.0,2.0,3.0,1700000000000,,110.0,12.0,1.5"
       ++ CRLF).
Proof. vm_compute. split; reflexivity. Qed.

(** ** The pose executor (store_slam_pose) *)

Lemma eq_world_trans (a b c : World) : a = b -> b = c -> a = c.
Proof. congruence. Qed.

Lemma pose_timestamp_pure {host : Host} raw w :
  snd (pose_timestamp raw w) = w.
Proof.
  symmetry.
  assert (R_refl : forall w : World, w = w) by reflexivity.
  pose proof eq_world_trans as R_trans.
  revert w. change (frames eq (pose_timestamp raw)).
  unfold pose_timestamp. repeat frame_step.
Qed.

Lemma safe_float_of_run {host : Host} d k w o :
  _safe_float (dict_get k d) = Ok o ->
  safe_float_of (PDict d) k w = (Ok o, w).
Proof.
  intros H. unfold safe_float_of, bind, lift. cbn [py_get]. rewrite H.
  reflexivity.
Qed.

Lemma store_slam_pose_run {host : Host} d w ts x y z qw qx qy qz :
  py_truthy (PDict d) = true ->
  pose_timestamp (dict_get "timestamp" d) w = (Ok ts, w) ->
  _safe_float (dict_get "x" d) = Ok x ->
  _safe_float (dict_get "y" d) = Ok y ->
  _safe_float (dict_get "z" d) = Ok z ->
  _safe_float (dict_get "qw" d) = Ok qw ->
  _safe_float (dict_get "qx" d) = Ok qx ->
  _safe_float (dict_get "qy" d) = Ok qy ->
  _safe_float (dict_get "qz" d) = Ok qz ->
  store_slam_pose (PDict d) w =
  match x, y, z with
  | Some _, Some _, Some _ =>
      (host_now <- now_ms ;;
       let delta := (host_now - ts)%Z in
       state_set "last_slam_timestamp" (PInt ts) ;;
       state_set "last_slam_host_timestamp" (PInt host_now) ;;
       state_set "last_slam_delta_ms" (PInt delta) ;;
       dbg <- gets _debug_timing ;;
       (if dbg && (250 <? Z.abs delta)%Z then
          log ("SLAM timestamp skew " ++ str_of_Z delta
               ++ " ms (payload=" ++ str_of_Z ts ++ ")") "error"
        else ret tt) ;;
       modify (with_latest_slam (mkSlam (Some ts) x y z qw qx qy qz)) ;;
       active <- gets logging_active ;;
       if active then append_log_row else ret tt)%py w
  | _, _, _ => (Ok tt, w)
  end.
Proof.
  intros Ht Hts Hx Hy Hz Hqw Hqx Hqy Hqz.
  unfold store_slam_pose. rewrite Ht. cbn [negb].
  unfold bind at 1. cbn [py_get lift].
  unfold bind at 1. rewrite Hts.
  unfold bind at 1. rewrite (safe_float_of_run d "x" w x Hx).
  unfold bind at 1. rewrite (safe_float_of_run d "y" w y Hy).
  unfold bind at 1. rewrite (safe_float_of_run d "z" w z Hz).
  unfold bind at 1. rewrite (safe_float_of_run d "qw" w qw Hqw).
  unfold bind at 1. rewrite (safe_float_of_run d "qx" w qx Hqx).
  unfold bind at 1. rewrite (safe_float_of_run d "qy" w qy Hqy).
  unfold bind at 1. rewrite (safe_float_of_run d "qz" w qz Hqz).
  destruct x, y, z; reflexivity.
Qed.

Lemma safe_float_of_eq {host : Host} d k w :
  safe_float_of (PDict d) k w = (_safe_float (dict_get k d), w).
Proof. reflexivity. Qed.

Lemma _safe_float_unconvertible_inv {host : Host} (v : pyval) o :
  unconvertible v -> _safe_float v = Ok o -> o = None.
Proof.
  unfold unconvertible. intros H.
  destruct v as [|b|z|f|s|l|d]; cbn [_safe_float py_float];
    try (intros E; injection E as <-; try reflexivity;
         exfalso; eapply H; reflexivity).
  - destruct (float_of_int z) as [f| |] eqn:E; cbn.
    + exfalso. eapply H. cbn [py_float]. exact E.
    + destruct (_ || _)%bool; intros E'; [injection E' as <-; reflexivity|].
      discriminate E'.
    + discriminate.
  - destruct (float_of_str s) as [f|] eqn:E; cbn.
    + exfalso. eapply H. cbn [py_float]. rewrite E. reflexivity.
    + intros E'. injection E' as <-. reflexivity.
Qed.

(** One of the conversions of lines 319-325: it returns, or
    [store_slam_pose] stops there. *)
Ltac conversion_step d k w x Hx :=
  unfold bind at 1; rewrite (safe_float_of_eq d k w);
  destruct (_safe_float (dict_get k d)) as [x|?|] eqn:Hx;
  [|reflexivity|reflexivity].

Lemma store_slam_pose_rejected {host : Host} (d : dict) (w : World) :
  unconvertible (dict_get "x" d) \/ unconvertible (dict_get "y" d)
  \/ unconvertible (dict_get "z" d) ->
  snd (store_slam_pose (PDict d) w) = w.
Proof.
  intros Hxyz.
  destruct (py_truthy (PDict d)) eqn:Ht.
  2: { unfold store_slam_pose. rewrite Ht. reflexivity. }
  pose proof (pose_timestamp_pure (dict_get "timestamp" d) w) as Hp.
  destruct (pose_timestamp (dict_get "timestamp" d) w) as [[ts| e |] w1] eqn:Ets;
    cbn [snd] in Hp; subst w1.
  2,3: unfold store_slam_pose; rewrite Ht; cbn [negb]; unfold bind at 1;
       cbn [py_get lift]; unfold bind at 1; rewrite Ets; reflexivity.
  unfold store_slam_pose. rewrite Ht. cbn [negb].
  unfold bind at 1. cbn [py_get lift]. unfold bind at 1. rewrite Ets.
  conversion_step d "x" w x Hx. conversion_step d "y" w y Hy.
  conversion_step d "z" w z Hz. conversion_step d "qw" w qw Hqw.
  conversion_step d "qx" w qx Hqx. conversion_step d "qy" w qy Hqy.
  conversion_step d "qz" w qz Hqz.
  destruct Hxyz as [H|[H|H]].
  - rewrite (_safe_float_unconvertible_inv _ _ H Hx). reflexivity.
  - rewrite (_safe_float_unconvertible_inv _ _ H Hy). destruct x; reflexivity.
  - rewrite (_safe_float_unconvertible_inv _ _ H Hz).
    destruct x, y; reflexivity.
Qed.

(** A conversion that raises stops [store_slam_pose] before it has written
    anything. *)
Lemma store_slam_pose_stops {host : Host} (d : dict) (w : World) (k : string)
    (e : exc) :
  In k ["x"; "y"; "z"; "qw"; "qx"; "qy"; "qz"] ->
  _safe_float (dict_get k d) = Raise e ->
  snd (store_slam_pose (PDict d) w) = w.
Proof.
  intros Hin Hk.
  destruct (py_truthy (PDict d)) eqn:Ht.
  2: { unfold store_slam_pose. rewrite Ht. reflexivity. }
  pose proof (pose_timestamp_pure (dict_get "timestamp" d) w) as Hp.
  destruct (pose_timestamp (dict_get "timestamp" d) w) as [[ts| e' |] w1] eqn:Ets;
    cbn [snd] in Hp; subst w1.
  2,3: unfold store_slam_pose; rewrite Ht; cbn [negb]; unfold bind at 1;
       cbn [py_get lift]; unfold bind at 1; rewrite Ets; reflexivity.
  unfold store_slam_pose. rewrite Ht. cbn [negb].
  unfold bind at 1. cbn [py_get lift]. unfold bind at 1. rewrite Ets.
  conversion_step d "x" w x Hx. conversion_step d "y" w y Hy.
  conversion_step d "z" w z Hz. conversion_step d "qw" w qw Hqw.
  conversion_step d "qx" w qx Hqx. conversion_step d "qy" w qy Hqy.
  conversion_step d "qz" w qz Hqz.
  exfalso. cbn [In] in Hin.
  repeat (destruct Hin as [<-|Hin]; [congruence|]). exact Hin.
Qed.

(** C7: a slam_pose payload whose [x], [y] or [z] is missing or not numeric
    leaves the whole world as it was: the clock diagnostics of the state,
    the latest pose sample and the recorder's rows included. *)
Theorem rejected_pose_changes_nothing {host : Host} (d : dict) (w : World) :
  unconvertible (dict_get "x" d) \/ unconvertible (dict_get "y" d)
  \/ unconvertible (dict_get "z" d) ->
  snd (store_slam_pose (PDict d) w) = w.
Proof. exact (store_slam_pose_rejected d w). Qed.

Lemma rejected_pose_changes_nothing_witness :
  snd (@store_slam_pose plain_host (PDict pose_without_y) recording_bridge)
  = recording_bridge.
Proof.
  apply (@rejected_pose_changes_nothing plain_host pose_without_y
           recording_bridge).
  right; left. intros f. vm_compute. discriminate.
Defined.

(** ** The pose timestamp heuristic *)

Lemma pose_timestamp_spec {host : Host} (raw : pyval) (q : Q) (w : World) :
  py_float raw = Ok (Fin q) ->
  pose_timestamp raw w
  = (Ok (if (Qtrunc q <? 10 ^ 12)%Z then (Qtrunc q * 1000)%Z else Qtrunc q), w).
Proof.
  intros H. unfold pose_timestamp.
  rewrite (_safe_float_convertible raw _ H). run. cbn [int_of_float].
  destruct (Qtrunc q <? 10 ^ 12)%Z; reflexivity.
Qed.

Lemma Qtrunc_nonneg (q : Q) : 0 <= q -> Qtrunc q = Qfloor q.
Proof.
  destruct q as [n d]. unfold Qle, Qtrunc, Qfloor. cbn. intros H.
  apply Z.quot_div_nonneg; lia.
Qed.

Lemma Qtrunc_lower (q : Q) (n : Z) :
  (0 <= n)%Z -> inject_Z n <= q -> (n <= Qtrunc q)%Z.
Proof.
  intros Hn H. rewrite Qtrunc_nonneg.
  - rewrite <- (Qfloor_Z n). apply Qfloor_resp_le, H.
  - eapply Qle_trans; [|exact H]. unfold Qle; cbn; lia.
Qed.

Lemma quaternion_within_returns {host : Host} (d : dict) :
  quaternion_within d = true ->
  exists qw qx qy qz,
    _safe_float (dict_get "qw" d) = Ok qw /\
    _safe_float (dict_get "qx" d) = Ok qx /\
    _safe_float (dict_get "qy" d) = Ok qy /\
    _safe_float (dict_get "qz" d) = Ok qz.
Proof.
  unfold quaternion_within. cbn [forallb]. intros H.
  repeat (apply andb_prop in H; destruct H as [?H H]).
  repeat match goal with
         | H : negb _ = true |- _ =>
             apply negb_true_iff, _safe_float_within in H; destruct H as [? ?]
         end.
  eauto 10.
Qed.

Lemma stored_timestamp {host : Host} d w ts fx fy fz :
  pose_timestamp (dict_get "timestamp" d) w = (Ok ts, w) ->
  py_float (dict_get "x" d) = Ok fx ->
  py_float (dict_get "y" d) = Ok fy ->
  py_float (dict_get "z" d) = Ok fz ->
  quaternion_within d = true ->
  let w' := snd (store_slam_pose (PDict d) w) in
  slam_timestamp (latest_slam w') = Some ts /\
  dict_get "last_slam_timestamp" (state w') = PInt ts.
Proof.
  intros Hts Hx Hy Hz Hq w'. subst w'.
  assert (Ht : py_truthy (PDict d) = true).
  { destruct d; [discriminate Hx | reflexivity]. }
  destruct (quaternion_within_returns d Hq)
    as (qw & qx & qy & qz & Hqw & Hqx & Hqy & Hqz).
  rewrite (store_slam_pose_run d w ts _ _ _ qw qx qy qz Ht Hts
             (_safe_float_convertible _ _ Hx) (_safe_float_convertible _ _ Hy)
             (_safe_float_convertible _ _ Hz) Hqw Hqx Hqy Hqz).
  run.
  destruct (_debug_timing w && (250 <? Z.abs (Qtrunc (wall w * 1000) - ts))%Z);
    run; destruct (logging_active w); run; unfold append_log_row; run;
    cbn [slam_timestamp slam_x slam_y slam_z]; run.
  all: try (destruct (_debug_timing w
                      && (250 <? Z.abs (Qtrunc (wall w * 1000) - ts))%Z);
            run).
  all: dict_simpl; split; reflexivity.
Qed.

(** What the code does to a numeric pose timestamp [q] (as a float) before
    the sample is stored: a whole value strictly below 10^12 is stored times
    1000, a value at or above 10^12 as its integer part. *)
Lemma pose_timestamp_whole_values {host : Host} (d : dict) (w : World) (q : Q)
    (fx fy fz : pyfloat) :
  py_float (dict_get "timestamp" d) = Ok (Fin q) ->
  py_float (dict_get "x" d) = Ok fx ->
  py_float (dict_get "y" d) = Ok fy ->
  py_float (dict_get "z" d) = Ok fz ->
  quaternion_within d = true ->
  let w' := snd (store_slam_pose (PDict d) w) in
  exists ts : Z,
    pose_timestamp (dict_get "timestamp" d) w = (Ok ts, w) /\
    slam_timestamp (latest_slam w') = Some ts /\
    dict_get "last_slam_timestamp" (state w') = PInt ts /\
    (q == inject_Z (Qtrunc q) -> q < 1000000000000 ->
     inject_Z ts == q * 1000) /\
    (1000000000000 <= q -> ts = Qtrunc q).
Proof.
  intros Hq Hx Hy Hz Hquat w'.
  pose proof (pose_timestamp_spec _ q w Hq) as Hts.
  eexists. split; [exact Hts|].
  destruct (stored_timestamp d w _ fx fy fz Hts Hx Hy Hz Hquat) as [H1 H2].
  split; [exact H1|]. split; [exact H2|]. split.
  - intros Hint Hlt.
    assert (Hn : (Qtrunc q < 10 ^ 12)%Z).
    { rewrite Zlt_Qlt. rewrite <- Hint. exact Hlt. }
    apply Z.ltb_lt in Hn. rewrite Hn.
    rewrite inject_Z_mult, <- Hint. reflexivity.
  - intros Hge.
    assert (Hn : (10 ^ 12 <= Qtrunc q)%Z).
    { apply Qtrunc_lower; [lia | exact Hge]. }
    apply Z.ltb_ge in Hn. rewrite Hn. reflexivity.
Qed.

Example pose_in_seconds_scaled :
  slam_timestamp
    (latest_slam
       (snd (@store_slam_pose plain_host (PDict pose_in_seconds)
               sample_bridge)))
  = Some 1700000000000%Z.
Proof. vm_compute. reflexivity. Qed.

(** C9: the code at the failing input. A pose stamped 1.5, a value below
    10^12 and so in seconds, is stored with the timestamp 1000: the value is
    cut to the whole number 1 (line 316) before it is multiplied by 1000
    (line 318), where the rule of the claim, the value times 1000, gives
    1500. *)
Theorem pose_timestamp_truncated_before_scaling :
  let w' := snd (@store_slam_pose plain_host (PDict pose_at_1_5_seconds)
                   sample_bridge) in
  @py_float plain_host (dict_get "timestamp" pose_at_1_5_seconds)
  = Ok (Fin 1.5) /\
  fst (@pose_timestamp plain_host (dict_get "timestamp" pose_at_1_5_seconds)
         sample_bridge) = Ok 1000%Z /\
  slam_timestamp (latest_slam w') = Some 1000%Z /\
  dict_get "last_slam_timestamp" (state w') = PInt 1000 /\
  Qtrunc (1.5 * 1000) = 1500%Z.
Proof. vm_compute. repeat split; reflexivity. Qed.

(** The rule of the claim does not hold of the code: a timestamp of 1.5 is
    stored as 1000, not 1500. *)
Lemma timestamp_not_scaled_as_stated : ~ @timestamp_scaled_as_stated plain_host.
Proof.
  intros H.
  destruct (H (PFloat (Fin 1.5)) 1.5 sample_bridge 1000%Z eq_refl eq_refl)
    as [Hsec _].
  assert (Hlt : 1.5 < 1000000000000) by (vm_compute; reflexivity).
  specialize (Hsec Hlt). vm_compute in Hsec. discriminate Hsec.
Qed.

(** An integer timestamp that no float holds is stored as the nearest float:
    [float] rounds it (line 312) before [int] reads it back (line 316). *)
Example timestamp_rounded_by_float :
  fst (@pose_timestamp plain_host (PInt 9007199254740993) sample_bridge)
  = Ok 9007199254740992%Z.
Proof. vm_compute. reflexivity. Qed.

Example timestamp_1700000000000_unchanged :
  fst (@pose_timestamp plain_host (PInt 1700000000000) sample_bridge)
  = Ok 1700000000000%Z.
Proof. vm_compute. reflexivity. Qed.

(** A millisecond timestamp with a fraction is stored without it. *)
Example timestamp_fraction_dropped :
  fst (@pose_timestamp plain_host (PFloat (Fin 1700000000000.5)) sample_bridge)
  = Ok 1700000000000%Z.
Proof. vm_compute. reflexivity. Qed.

(** ** The dispatcher and slam_pose (execute_command) *)

Lemma terminates_bind {A B} (c : M A) (k : A -> M B) :
  terminates c -> (forall a, terminates (k a)) -> terminates (bind c k).
Proof.
  intros Hc Hk w. unfold bind. specialize (Hc w).
  destruct (c w) as [[a|e|] w1]; cbn in *;
    [apply Hk | discriminate | exfalso; apply Hc; reflexivity].
Qed.

Lemma terminates_try_except {A} (c : M A) (h : exc -> M A) :
  terminates c -> (forall e, terminates (h e)) -> terminates (try_except c h).
Proof.
  intros Hc Hh w. unfold try_except. specialize (Hc w).
  destruct (c w) as [[a|e|] w1]; cbn in *;
    [discriminate | apply Hh | exact Hc].
Qed.

Lemma terminates_lift {A} (r : res A) : r <> Diverged -> terminates (lift r).
Proof. intros H w. exact H. Qed.

Ltac term_step :=
  match goal with
  | |- terminates (bind _ _) => apply terminates_bind; [|intro]
  | |- terminates (try_except _ _) => apply terminates_try_except; [|intro]
  | |- terminates (ret _) => intros ?; discriminate
  | |- terminates (raise _ _) => intros ?; discriminate
  | |- terminates (gets _) => intros ?; discriminate
  | |- terminates now_ms => intros ?; discriminate
  | |- terminates (state_get _) => intros ?; discriminate
  | |- terminates (modify _) => intros ?; discriminate
  | |- terminates (state_set _ _) => intros ?; discriminate
  | |- terminates (emit _) => intros ?; discriminate
  | |- terminates (log _ _) => intros ?; discriminate
  | |- terminates emit_state => unfold emit_state
  | |- terminates (if ?b then _ else _) => destruct b
  | |- terminates (match ?x with _ => _ end) => destruct x
  end.

Lemma _safe_float_returns {host : Host} (v : pyval) : _safe_float v <> Diverged.
Proof.
  destruct (_safe_float_cases v) as [[o H]|[_ H]]; rewrite H; discriminate.
Qed.

Lemma py_get_returns v k : py_get v k <> Diverged.
Proof. destruct v; discriminate. Qed.

Lemma int_of_float_returns f : int_of_float f <> Diverged.
Proof. destruct f; discriminate. Qed.

Lemma store_slam_pose_terminates {host : Host} payload :
  terminates (store_slam_pose payload).
Proof.
  unfold store_slam_pose, pose_timestamp, safe_float_of, append_log_row.
  repeat (term_step;
          try (apply terminates_lift;
               first [apply _safe_float_returns | apply py_get_returns
                     | apply int_of_float_returns])).
Qed.

Section PoseFrames.
Context {host : Host}.
Variable R : World -> World -> Prop.
Hypothesis R_refl : forall w, R w w.
Hypothesis R_trans : forall a b c, R a b -> R b c -> R a c.
Hypothesis R_state : forall d w, R w (with_state d w).
Hypothesis R_slam : forall s w, R w (with_latest_slam s w).
Hypothesis R_rows : forall r w, R w (with_csv_rows r w).
Hypothesis R_log :
  forall l w, is_log_line l = true -> R w (with_stdout (stdout w ++ [l]) w).

Lemma store_slam_pose_frames payload : frames R (store_slam_pose payload).
Proof.
  unfold store_slam_pose, pose_timestamp, safe_float_of, append_log_row.
  repeat (frame_step;
          try first [ apply R_state | apply R_slam | apply R_rows
                    | apply R_log; reflexivity ]).
Qed.
End PoseFrames.

Lemma logs_only_refl w : logs_only w w.
Proof. exists []. rewrite app_nil_r. auto. Qed.

Lemma logs_only_trans a b c : logs_only a b -> logs_only b c -> logs_only a c.
Proof.
  intros (x & Hx & Fx) (y & Hy & Fy). exists (x ++ y)%list.
  rewrite Hy, Hx, app_assoc. split; [reflexivity | apply Forall_app; auto].
Qed.

Lemma store_slam_pose_logs_only {host : Host} payload w :
  logs_only w (snd (store_slam_pose payload w)).
Proof.
  apply (store_slam_pose_frames logs_only logs_only_refl logs_only_trans);
    try (intros ? w0; exists []; cbn; rewrite app_nil_r; auto; fail).
  intros l w0 Hl. exists [l]. split; [reflexivity | auto].
Qed.

Lemma log_line_is_no_result l : is_log_line l = true -> is_command_result l = false.
Proof.
  unfold is_log_line, is_command_result.
  destruct (dict_get "type" l); try discriminate.
  intros H. apply String.eqb_eq in H. subst s. reflexivity.
Qed.

Lemma result_type_covers (v : pyval) :
  (exists rt, result_type_of v = Ok (Some rt)) <->
  In v [PStr "set_mode"; PStr "takeoff"; PStr "csv_start"; PStr "csv_stop"].
Proof.
  split.
  - intros [rt H]. destruct v; try discriminate H.
    cbn in H.
    repeat match type of H with
           | context [String.eqb ?a ?b] =>
               destruct (String.eqb_spec a b);
               [subst; cbn; tauto|]
           end.
    discriminate H.
  - cbn. intros [H|[H|[H|[H|[]]]]]; subst v; eexists; reflexivity.
Qed.

(** C10: a request of type "slam_pose" makes [execute_command] return
    normally having written log lines only, no CommandResult: nothing but
    what [store_slam_pose] logs when it succeeds, and the line "Command
    slam_pose failed: ..." last when it raises; the result-type mapping has
    an entry for set_mode, takeoff, csv_start and csv_stop and for nothing
    else. *)
Theorem slam_pose_reports_nothing {host : Host} (payload : dict) (w : World) :
  dict_get "type" payload = PStr "slam_pose" ->
  let r := execute_command payload w in
  fst r = Ok tt /\
  (exists added,
      stdout (snd r) = (stdout w ++ added)%list /\
      Forall (fun l => is_log_line l = true /\ is_command_result l = false)
        added) /\
  (forall e, fst (handle_command payload w) = Raise e ->
     exists earlier,
       stdout (snd r)
       = (stdout w ++ earlier
          ++ [[("type", PStr "log"); ("level", PStr "error");
               ("message",
                PStr ("Command slam_pose failed: " ++ message e))]])%list) /\
  (forall v, (exists rt, result_type_of v = Ok (Some rt)) <->
             In v [PStr "set_mode"; PStr "takeoff"; PStr "csv_start";
                   PStr "csv_stop"]).
Proof.
  intros Hty r.
  assert (Hhc : handle_command payload
                = bind (store_slam_pose (dict_get "data" payload))
                       (fun _ => ret PNone)).
  { unfold handle_command. rewrite Hty. reflexivity. }
  assert (Hex : r = try_except
                      (bind (handle_command payload) (fun _ => ret tt))
                      (fun exc =>
                         bind (ret tt)
                           (fun _ => log ("Command " ++ "slam_pose" ++ " failed: "
                                          ++ message exc) "error")) w).
  { subst r. unfold execute_command. rewrite Hty. reflexivity. }
  pose proof (store_slam_pose_terminates (dict_get "data" payload) w) as Hterm.
  pose proof (store_slam_pose_logs_only (dict_get "data" payload) w)
    as (added & Hadd & Fadd).
  rewrite Hex, Hhc. clear Hex.
  unfold try_except, bind, ret, log, emit, modify.
  destruct (store_slam_pose (dict_get "data" payload) w) as [[[]|e|] w1];
    cbn [fst snd] in *; [| |congruence].
  - split; [reflexivity|]. split.
    + exists added. split; [exact Hadd|].
      eapply Forall_impl; [|exact Fadd]. intros l Hl.
      split; [exact Hl | apply log_line_is_no_result, Hl].
    + split; [intros e He; discriminate He | apply result_type_covers].
  - split; [reflexivity|]. split; [|split].
    + exists (added ++ [[("type", PStr "log"); ("level", PStr "error");
                         ("message",
                          PStr ("Command slam_pose failed: " ++ message e))]])%list.
      rewrite Hadd, <- app_assoc. split; [reflexivity|].
      apply Forall_app. split.
      * eapply Forall_impl; [|exact Fadd]. intros l Hl.
        split; [exact Hl | apply log_line_is_no_result, Hl].
      * constructor; [split; reflexivity | constructor].
    + intros e' He. injection He as <-. exists added.
      rewrite Hadd, <- app_assoc. reflexivity.
    + apply result_type_covers.
Qed.

Lemma slam_pose_reports_nothing_witness :
  let request := [("type", PStr "slam_pose"); ("request_id", PInt 7);
                  ("data", PDict pose_in_seconds)] in
  let r := @execute_command plain_host request recording_bridge in
  fst r = Ok tt /\
  stdout (snd r) = stdout recording_bridge /\
  length (csv_rows (snd r)) = 1%nat.
Proof.
  cbv zeta.
  destruct (@slam_pose_reports_nothing plain_host
              [("type", PStr "slam_pose"); ("request_id", PInt 7);
               ("data", PDict pose_in_seconds)]
              recording_bridge eq_refl) as (Hok & _).
  split; [exact Hok|]. vm_compute. split; reflexivity.
Defined.

(** A slam_pose request that fails is only logged. *)
Example slam_pose_failure_is_logged :
  let request := [("type", PStr "slam_pose"); ("request_id", PInt 8);
                  ("data", PInt 5)] in
  let r := @execute_command plain_host request sample_bridge in
  fst r = Ok tt /\
  stdout (snd r)
  = [[("type", PStr "log"); ("level", PStr "error");
      ("message",
       PStr "Command slam_pose failed: 'int' object has no attribute 'get'")]].
Proof. vm_compute. split; reflexivity. Qed.

(** ** Waiting, and the takeoff that never reaches GUIDED *)

Lemma executor_view_refl w : executor_view w w.
Proof.
  repeat split. exists []. rewrite app_nil_r. auto.
Qed.

Lemma executor_view_trans a b c :
  executor_view a b -> executor_view b c -> executor_view a c.
Proof.
  intros (M1 & L1 & S1 & x & Hx & Fx) (M2 & L2 & S2 & y & Hy & Fy).
  repeat split; try congruence.
  exists (x ++ y)%list. rewrite Hy, Hx, app_assoc.
  split; [reflexivity | apply Forall_app; auto].
Qed.

Lemma executor_view_quiet (f : World -> World) w :
  master (f w) = master w -> link_sent (f w) = link_sent w ->
  schedule (f w) = schedule w -> stdout (f w) = stdout w ->
  executor_view w (f w).
Proof.
  intros H1 H2 H3 H4. repeat split; auto. exists []. rewrite app_nil_r. auto.
Qed.

Lemma executor_view_out l w :
  is_command_result l = false ->
  executor_view w (with_stdout (stdout w ++ [l]) w).
Proof. intros H. repeat split. exists [l]. auto. Qed.

Lemma handle_message_executor_view {host : Host} msg w :
  executor_view w (snd (handle_message msg w)).
Proof.
  apply (handle_message_frames executor_view executor_view_refl
           executor_view_trans).
  - intros d w0. now apply (executor_view_quiet (with_state d)).
  - intros a b w0. now apply (executor_view_quiet (with_boot_clock (Some a) (Some b))).
  - intros m w0. now apply (executor_view_quiet (with_latest_mav m)).
  - apply executor_view_out.
Qed.

Lemma handle_message_monotonic {host : Host} msg w :
  monotonic (snd (handle_message msg w)) = monotonic w /\
  sleeps (snd (handle_message msg w)) = sleeps w.
Proof.
  apply (handle_message_frames
           (fun a b => monotonic b = monotonic a /\ sleeps b = sleeps a));
    cbn; try tauto.
  intros a b c [H1 H2] [H3 H4]. split; congruence.
Qed.

Section Deliver.
Context {host : Host}.
Variable R : World -> World -> Prop.
Hypothesis R_refl : forall w, R w w.
Hypothesis R_trans : forall a b c, R a b -> R b c -> R a c.
Hypothesis R_msg : forall msg w, R w (snd (handle_message msg w)).

Lemma deliver_frames msgs w :
  R w (fold_left (fun acc msg => snd (handle_message msg acc)) msgs w).
Proof.
  revert w. induction msgs as [|m r IH]; intros w; cbn.
  - apply R_refl.
  - eapply R_trans; [apply R_msg | apply IH].
Qed.
End Deliver.

Lemma sleep_spec {host : Host} (i : Q) (w : World) :
  let w' := snd (sleep i w) in
  fst (sleep i w) = Ok tt /\
  executor_view w w' /\
  monotonic w' == monotonic w + i
                  + inject_Z (Z.of_N (overrun_ms (schedule w (sleeps w)))) / 1000.
Proof.
  unfold sleep. cbn [fst snd]. split; [reflexivity|]. split.
  - eapply executor_view_trans;
      [| apply (deliver_frames executor_view executor_view_refl
                  executor_view_trans handle_message_executor_view)].
    now apply (executor_view_quiet (with_slept _)).
  - match goal with
    | |- monotonic (fold_left ?f ?l ?w0) == _ =>
        assert (H : monotonic (fold_left f l w0) = monotonic w0)
    end.
    { apply (deliver_frames (fun a b => monotonic b = monotonic a));
        [reflexivity | congruence | apply handle_message_monotonic]. }
    rewrite H. cbn [monotonic with_slept]. rewrite Qred_correct.
    ring.
Qed.

Lemma sleep_advances {host : Host} (i : Q) (w : World) :
  monotonic w + i <= monotonic (snd (sleep i w)).
Proof.
  destruct (sleep_spec i w) as (_ & _ & H). rewrite H.
  assert (0 <= inject_Z (Z.of_N (overrun_ms (schedule w (sleeps w)))) / 1000).
  { apply Qle_shift_div_l; [reflexivity|]. rewrite Qmult_0_l.
    unfold Qle; cbn. lia. }
  lra.
Qed.

Lemma after_sleeps_shift {host : Host} i k w :
  after_sleeps i k (snd (sleep i w)) = after_sleeps i (S k) w.
Proof. unfold after_sleeps. symmetry. apply Nat.iter_succ_r. Qed.

Lemma after_sleeps_view {host : Host} i k w :
  executor_view w (after_sleeps i k w).
Proof.
  induction k as [|k IH]; cbn.
  - apply executor_view_refl.
  - eapply executor_view_trans; [exact IH|].
    apply (proj1 (proj2 (sleep_spec i _))).
Qed.

Lemma wait_loop_times_out {host : Host} (predicate : M bool)
    (description : string) (i : Q) :
  0 < i ->
  forall (budget : nat) (end_time : Q) (w : World),
    (forall k, monotonic (after_sleeps i k w) <= end_time ->
               predicate (after_sleeps i k w) = (Ok false, after_sleeps i k w)) ->
    end_time - monotonic w < i * inject_Z (Z.of_nat budget) ->
    exists n,
      wait_loop budget predicate end_time description i w
      = (Raise (mkExc TimeoutError ("Timed out waiting for " ++ description)),
         after_sleeps i n w).
Proof.
  intros Hi. induction budget as [|b IH]; intros end_time w Hpred Hbudget.
  - exists O. cbn [wait_loop after_sleeps Nat.iter].
    destruct (Qle_bool (monotonic w) end_time) eqn:E; [|reflexivity].
    apply Qle_bool_iff in E.
    change (inject_Z (Z.of_nat 0)) with 0 in Hbudget. lra.
  - cbn [wait_loop].
    destruct (Qle_bool (monotonic w) end_time) eqn:E.
    2: { exists O. reflexivity. }
    apply Qle_bool_iff in E.
    pose proof (Hpred O E) as H0.
    change (predicate w = (Ok false, w)) in H0.
    unfold bind at 1. rewrite H0.
    unfold bind at 1.
    pose proof (sleep_spec i w) as (Hs & _ & _).
    pose proof (sleep_advances i w) as Hadv.
    destruct (IH end_time (snd (sleep i w))) as [n Hn].
    + intros k Hk. rewrite after_sleeps_shift in *. apply Hpred, Hk.
    + rewrite Nat2Z.inj_succ, <- Z.add_1_r, inject_Z_plus in Hbudget.
      change (inject_Z 1) with 1 in Hbudget. lra.
    + exists (S n). rewrite <- after_sleeps_shift, <- Hn.
      destruct (sleep i w) as [r w1]. cbn [fst snd] in *. subst r.
      reflexivity.
Qed.

Lemma polls_cover (timeout i : Q) :
  0 < i -> timeout < i * inject_Z (Z.of_nat (polls timeout i)).
Proof.
  intros Hi. unfold polls.
  pose proof (Qlt_floor (timeout / i)) as Hf.
  set (f := Qfloor (timeout / i)) in *.
  assert (Hb : inject_Z (f + 1) <= inject_Z (Z.of_nat (S (Z.to_nat f)))).
  { rewrite <- Zle_Qle. lia. }
  assert (Ht : timeout == i * (timeout / i)).
  { rewrite Qmult_div_r; [reflexivity | lra]. }
  rewrite Ht at 1.
  apply Qmult_lt_l; [exact Hi | lra].
Qed.

Lemma wait_until_times_out {host : Host} (predicate : M bool) (timeout : Q)
    (description : string) (i : Q) (w : World) :
  0 < i ->
  (forall k, monotonic (after_sleeps i k w) <= monotonic w + timeout ->
             predicate (after_sleeps i k w) = (Ok false, after_sleeps i k w)) ->
  exists n,
    wait_until predicate timeout description i w
    = (Raise (mkExc TimeoutError ("Timed out waiting for " ++ description)),
       after_sleeps i n w).
Proof.
  intros Hi Hpred. unfold wait_until.
  apply wait_loop_times_out; [exact Hi | exact Hpred |].
  pose proof (polls_cover timeout i Hi). lra.
Qed.

Lemma mode_is_guided_false w :
  mode_not_guided w -> mode_is_guided w = (Ok false, w).
Proof.
  unfold mode_not_guided, mode_is_guided. run. unfold py_or.
  destruct (dict_get "mode" (state w)) as [|b|z|f|s|l|d] eqn:E; intros H;
    try (rewrite H; reflexivity).
  cbn [py_truthy]. destruct (String.eqb s "") eqn:Es; cbn [negb].
  - reflexivity.
  - destruct (String.eqb (upper s) "GUIDED") eqn:Eg; [|reflexivity].
    apply String.eqb_eq in Eg. contradiction.
Qed.

Lemma bind_assoc {A B C} (c : M A) (f : A -> M B) (g : B -> M C) w :
  bind (bind c f) g w = bind c (fun a => bind (f a) g) w.
Proof. unfold bind. destruct (c w) as [[a|e|] w1]; reflexivity. Qed.

(** What [takeoff_sequence] does before its first wait. *)
Lemma guided_prefix_run {host : Host} w link mapping mode_id :
  master w = Some link ->
  mode_mapping link = Some mapping ->
  assoc_str "GUIDED" mapping = Some mode_id ->
  let w1 := guided_wait_start w in
  bind (update_status "TAKEOFF: switching to GUIDED" None)
       (fun _ => set_mode "GUIDED") w = (Ok tt, w1) /\
  master w1 = Some link /\
  link_sent w1
  = (link_sent w ++
     [ command_long_send (target_system link) (target_component link)
         mavlink.MAV_CMD_DO_SET_MODE 0
         [PInt 9; PInt mode_id; PInt 0; PInt 0; PInt 0; PInt 0; PInt 0];
       set_mode_send (target_system link) 9 mode_id ])%list /\
  exists line,
    stdout w1 = (stdout w ++ [line])%list /\ is_command_result line = false.
Proof.
  intros Hm Hmap Hg w1. subst w1. unfold guided_wait_start.
  unfold update_status, set_mode. run. rewrite Hm, Hmap, Hg.
  change (String.eqb "GUIDED" "") with false.
  change (assoc_str "GUIDED" MODE_EXTRA_FLAGS) with (Some 8%Z).
  change (8 =? 0)%Z with false.
  change (Z.lor mavlink.MAV_MODE_FLAG_CUSTOM_MODE_ENABLED 8) with 9%Z.
  run. split; [reflexivity|]. split; [exact Hm|]. split; [reflexivity|].
  eexists. split; reflexivity.
Qed.

(** Lines 184-187: the altitude as a float, 30.0 where [float] raises
    [TypeError] or [ValueError]; the [OverflowError] of an int beyond the
    floats is not caught. *)
Lemma altitude_value_run {host : Host} (altitude : pyval) (w : World) :
  try_except (lift (py_float altitude))
    (fun e =>
       if exc_kind_eqb (kind e) TypeError || exc_kind_eqb (kind e) ValueError
       then ret (Fin 30) else lift (Raise e)) w
  = if beyond_float altitude
    then (Raise (mkExc OverflowError "int too large to convert to float"), w)
    else (Ok match py_float altitude with Ok f => f | _ => Fin 30 end, w).
Proof.
  unfold try_except, lift, ret.
  destruct altitude as [|b|z|f|s|l|d]; cbn [py_float beyond_float];
    try reflexivity.
  - unfold float_of_int. destruct (float_overflow <=? Z.abs z)%Z; reflexivity.
  - destruct (float_of_str s); reflexivity.
Qed.

Lemma execute_takeoff_failed {host : Host} (payload : dict) (w w2 : World)
    (e : exc) :
  dict_get "type" payload = PStr "takeoff" ->
  handle_command payload w = (Raise e, w2) ->
  execute_command payload w
  = (Ok tt,
     with_stdout
       (stdout w2
        ++ [ [("type", PStr "takeoff_result"); ("ok", PBool false);
              ("request_id", dict_get "request_id" payload);
              ("error", PStr (message e))];
             [("type", PStr "log"); ("level", PStr "error");
              ("message", PStr ("Command takeoff failed: " ++ message e))] ])%list
       w2).
Proof.
  intros Hty Hhc. unfold execute_command. rewrite Hty.
  cbn [result_type_of assoc_str RESULT_TYPES String.eqb Ascii.eqb Bool.eqb].
  unfold bind, try_except, lift. cbv beta iota. rewrite Hhc.
  run. rewrite <- app_assoc. reflexivity.
Qed.

Lemma takeoff_sequence_guided_timeout {host : Host} (altitude : pyfloat)
    (w : World) (link : Link) (mapping : list (string * Z)) (mode_id : Z) :
  master w = Some link ->
  mode_mapping link = Some mapping ->
  assoc_str "GUIDED" mapping = Some mode_id ->
  let w1 := guided_wait_start w in
  (forall k,
      monotonic (after_sleeps interval_default k w1) <= monotonic w1 + 15 ->
      mode_not_guided (after_sleeps interval_default k w1)) ->
  exists n,
    takeoff_sequence altitude w
    = (Raise (mkExc TimeoutError "Timed out waiting for mode GUIDED"),
       after_sleeps interval_default n w1).
Proof.
  intros Hm Hmap Hg w1 Hnever.
  destruct (guided_prefix_run w link mapping mode_id Hm Hmap Hg)
    as (Hpre & _).
  fold w1 in Hpre.
  destruct (wait_until_times_out mode_is_guided 15 "mode GUIDED"
              interval_default w1) as [n Hn].
  { reflexivity. }
  { intros k Hk. apply mode_is_guided_false, Hnever, Hk. }
  exists n. unfold takeoff_sequence.
  unfold bind at 1. unfold gets at 1. rewrite Hm.
  rewrite <- bind_assoc. unfold bind at 1. rewrite Hpre.
  unfold bind at 1. rewrite Hn. reflexivity.
Qed.

(** [takeoff_sequence] when the mode never becomes GUIDED: it raises, having
    written no CommandResult and sent no arm or takeoff command; once the
    link is there and knows GUIDED, what it raises is the timeout of the
    first wait and what it sent is the mode change. *)
Lemma takeoff_sequence_fails {host : Host} (altitude : pyfloat) (w : World) :
  let w1 := guided_wait_start w in
  (forall k,
      monotonic (after_sleeps interval_default k w1) <= monotonic w1 + 15 ->
      mode_not_guided (after_sleeps interval_default k w1)) ->
  exists e w2 earlier sent,
    takeoff_sequence altitude w = (Raise e, w2) /\
    stdout w2 = (stdout w ++ earlier)%list /\
    Forall (fun l => is_command_result l = false) earlier /\
    link_sent w2 = (link_sent w ++ sent)%list /\
    Forall (fun c => is_arm_or_takeoff c = false) sent /\
    (forall link mapping mode_id,
        master w = Some link ->
        mode_mapping link = Some mapping ->
        assoc_str "GUIDED" mapping = Some mode_id ->
        e = mkExc TimeoutError "Timed out waiting for mode GUIDED" /\
        sent = [ command_long_send (target_system link) (target_component link)
                   mavlink.MAV_CMD_DO_SET_MODE 0
                   [PInt 9; PInt mode_id; PInt 0; PInt 0; PInt 0; PInt 0;
                    PInt 0];
                 set_mode_send (target_system link) 9 mode_id ]).
Proof.
  intros w1 Hnever.
  destruct (master w) as [link|] eqn:Hm.
  2: { exists (mkExc RuntimeError "Vehicle connection not ready"), w, [], [].
       unfold takeoff_sequence, bind, gets. rewrite Hm.
       rewrite !app_nil_r.
       split; [reflexivity|]. split; [reflexivity|]. split; [constructor|].
       split; [reflexivity|]. split; [constructor|].
       intros; discriminate. }
  destruct (match mode_mapping link with
            | Some t => assoc_str "GUIDED" t
            | None => None
            end) as [mode_id|] eqn:Hg.
  - destruct (mode_mapping link) as [mapping|] eqn:Hmap; [|discriminate Hg].
    destruct (takeoff_sequence_guided_timeout altitude w link mapping mode_id
                Hm Hmap Hg Hnever) as [n Hseq].
    fold w1 in Hseq.
    destruct (guided_prefix_run w link mapping mode_id Hm Hmap Hg)
      as (_ & _ & Hsent & line & Hout & Hline).
    fold w1 in Hsent, Hout.
    destruct (after_sleeps_view interval_default n w1)
      as (_ & Hls & _ & added & Hadd & Fadd).
    eexists _, _, (line :: added), _. split; [exact Hseq|].
    split; [rewrite Hadd, Hout, <- app_assoc; reflexivity|].
    split; [constructor; assumption|].
    split; [rewrite Hls, Hsent; reflexivity|].
    split; [repeat constructor|].
    intros link' mapping' mode_id' Hl Hmap' Hg'.
    injection Hl as <-. rewrite Hmap in Hmap'. injection Hmap' as <-.
    rewrite Hg in Hg'. injection Hg' as <-. split; reflexivity.
  - exists (mkExc ValueError "Mode 'GUIDED' not supported").
    unfold takeoff_sequence, update_status, set_mode. run. rewrite !Hm. run.
    rewrite ?Hm.
    change (String.eqb "GUIDED" "") with false.
    assert (Hnone : assoc_str "GUIDED"
                      match mode_mapping link with Some t => t | None => [] end
                    = None).
    { destruct (mode_mapping link); [exact Hg | reflexivity]. }
    rewrite Hnone. run.
    eexists _, [_], []. split; [reflexivity|]. cbn [stdout link_sent with_stdout].
    rewrite app_nil_r.
    split; [reflexivity|]. split; [repeat constructor|].
    split; [reflexivity|]. split; [constructor|].
    intros link' mapping' mode_id' Hl Hmap' Hg'. injection Hl as <-.
    rewrite Hmap' in Hg. congruence.
Qed.

(** C1: when the mode field is not "GUIDED" (whatever its case) at any poll
    of the first wait before its 15 s deadline, a takeoff request makes
    [handle_command] raise; [execute_command] reports the error as one
    failed takeoff_result followed by a log line, and nothing that the
    execution sent through the link is an arm command or a takeoff
    command.  With an altitude that [float] takes (anything but an int
    beyond the floats), the link connected and GUIDED in its mode table, the
    error is the timeout of that wait and what was sent is the mode change
    only.  With an altitude that is an int beyond the floats the sequence
    is not started: the error is the [OverflowError] of [float], and
    nothing is sent or written before the report. *)
Theorem takeoff_guided_timeout {host : Host} (payload : dict) (w : World) :
  dict_get "type" payload = PStr "takeoff" ->
  let w1 := guided_wait_start w in
  (forall k,
      monotonic (after_sleeps interval_default k w1) <= monotonic w1 + 15 ->
      mode_not_guided (after_sleeps interval_default k w1)) ->
  let r := execute_command payload w in
  fst r = Ok tt /\
  exists e earlier sent,
    fst (handle_command payload w) = Raise e /\
    stdout (snd r)
    = (stdout w ++ earlier
       ++ [ [("type", PStr "takeoff_result"); ("ok", PBool false);
             ("request_id", dict_get "request_id" payload);
             ("error", PStr (message e))];
            [("type", PStr "log"); ("level", PStr "error");
             ("message", PStr ("Command takeoff failed: " ++ message e))] ])%list /\
    Forall (fun l => is_command_result l = false) earlier /\
    link_sent (snd r) = (link_sent w ++ sent)%list /\
    Forall (fun c => is_arm_or_takeoff c = false) sent /\
    (beyond_float (dict_get "altitude" payload) = false ->
     forall link mapping mode_id,
        master w = Some link ->
        mode_mapping link = Some mapping ->
        assoc_str "GUIDED" mapping = Some mode_id ->
        e = mkExc TimeoutError "Timed out waiting for mode GUIDED" /\
        sent = [ command_long_send (target_system link) (target_component link)
                   mavlink.MAV_CMD_DO_SET_MODE 0
                   [PInt 9; PInt mode_id; PInt 0; PInt 0; PInt 0; PInt 0;
                    PInt 0];
                 set_mode_send (target_system link) 9 mode_id ]) /\
    (beyond_float (dict_get "altitude" payload) = true ->
     e = mkExc OverflowError "int too large to convert to float" /\
     earlier = [] /\ sent = []).
Proof.
  intros Hty w1 Hnever r.
  pose proof (altitude_value_run (dict_get "altitude" payload) w) as Hf.
  destruct (beyond_float (dict_get "altitude" payload)) eqn:Hb.
  - assert (Hhc : handle_command payload w
                  = (Raise (mkExc OverflowError
                              "int too large to convert to float"), w)).
    { unfold handle_command. rewrite Hty.
      cbn [py_is_str String.eqb Ascii.eqb Bool.eqb].
      unfold bind at 1. rewrite Hf. reflexivity. }
    subst r. rewrite (execute_takeoff_failed payload w w _ Hty Hhc), Hhc.
    cbn [fst snd stdout link_sent with_stdout].
    split; [reflexivity|]. eexists _, [], [].
    split; [reflexivity|]. split; [reflexivity|]. split; [constructor|].
    split; [rewrite app_nil_r; reflexivity|]. split; [constructor|].
    split; [discriminate | auto].
  - set (f := match py_float (dict_get "altitude" payload) with
              | Ok f => f
              | _ => Fin 30
              end) in Hf.
    destruct (takeoff_sequence_fails (if fgt0 f then f else Fin 30) w Hnever)
      as (e & w2 & earlier & sent & Hseq & Hout & Fout & Hsent & Fsent & Hkind).
    assert (Hhc : handle_command payload w = (Raise e, w2)).
    { unfold handle_command. rewrite Hty.
      cbn [py_is_str String.eqb Ascii.eqb Bool.eqb].
      unfold bind at 1. rewrite Hf.
      unfold bind at 1. rewrite Hseq. reflexivity. }
    subst r. rewrite (execute_takeoff_failed payload w w2 _ Hty Hhc), Hhc.
    cbn [fst snd stdout link_sent with_stdout].
    split; [reflexivity|]. exists e, earlier, sent.
    split; [reflexivity|]. split; [rewrite Hout, <- app_assoc; reflexivity|].
    split; [exact Fout|]. split; [exact Hsent|]. split; [exact Fsent|].
    split; [intros _; exact Hkind | discriminate].
Qed.

(** With nothing delivered during the sleeps the state stays as it is. *)
Lemma quiet_after_sleeps {host : Host} i k w :
  schedule w = quiet ->
  state (after_sleeps i k w) = state w /\ schedule (after_sleeps i k w) = quiet.
Proof.
  intros Hq. induction k as [|k [IH1 IH2]]; [auto|].
  change (after_sleeps i (S k) w) with (snd (sleep i (after_sleeps i k w))).
  unfold sleep. rewrite IH2. cbn. auto.
Qed.

Lemma takeoff_guided_timeout_witness :
  let r := @execute_command plain_host takeoff_request sample_bridge in
  let r' := @execute_command plain_host takeoff_request_beyond_float
              sample_bridge in
  (fst r = Ok tt /\
   fst (@handle_command plain_host takeoff_request sample_bridge)
   = Raise (mkExc TimeoutError "Timed out waiting for mode GUIDED") /\
   link_sent (snd r)
   = [ command_long_send 1 1 176 0
         [PInt 9; PInt 4; PInt 0; PInt 0; PInt 0; PInt 0; PInt 0];
       set_mode_send 1 9 4 ]) /\
  (fst r' = Ok tt /\
   fst (@handle_command plain_host takeoff_request_beyond_float sample_bridge)
   = Raise (mkExc OverflowError "int too large to convert to float") /\
   link_sent (snd r') = []).
Proof.
  assert (Hnever : forall k,
             monotonic (@after_sleeps plain_host interval_default k
                          (@guided_wait_start plain_host sample_bridge))
             <= monotonic (@guided_wait_start plain_host sample_bridge) + 15 ->
             mode_not_guided
               (@after_sleeps plain_host interval_default k
                  (@guided_wait_start plain_host sample_bridge))).
  { intros k _. unfold mode_not_guided.
    rewrite (proj1 (@quiet_after_sleeps plain_host interval_default k
                      (@guided_wait_start plain_host sample_bridge) eq_refl)).
    vm_compute. discriminate. }
  split.
  - destruct (@takeoff_guided_timeout plain_host takeoff_request sample_bridge
                eq_refl Hnever)
      as (Hok & e & earlier & sent & Hhc & _ & _ & Hsent & _ & Hkind & _).
    destruct (Hkind eq_refl sample_link
                [("STABILIZE", 0%Z); ("AUTO", 3%Z); ("GUIDED", 4%Z)] 4%Z
                eq_refl eq_refl eq_refl) as [He Hcmds].
    rewrite Hhc, Hsent, He, Hcmds.
    split; [exact Hok|]. split; reflexivity.
  - destruct (@takeoff_guided_timeout plain_host takeoff_request_beyond_float
                sample_bridge eq_refl Hnever)
      as (Hok & e & earlier & sent & Hhc & _ & _ & Hsent & _ & _ & Hover).
    destruct (Hover eq_refl) as (He & _ & Hnone).
    rewrite Hhc, Hsent, He, Hnone.
    split; [exact Hok|]. split; reflexivity.
Defined.

Lemma telemetry_keeps_other_keys {host : Host} msg :
  get_type msg <> "HEARTBEAT" ->
  frames (keeps_keys telemetry_keys) (handle_message msg).
Proof.
  intros Ht.
  pose proof (keeps_keys_refl telemetry_keys) as R_refl.
  pose proof (keeps_keys_trans telemetry_keys) as R_trans.
  unfold handle_message.
  destruct (String.eqb_spec (get_type msg) "HEARTBEAT") as [E|_];
    [contradiction|].
  unfold on_global_position_int, store_position, reconcile_boot_clock,
    on_gps_raw_int, on_vfr_hud.
  repeat (frame_step; try keeps_close).
Qed.

Lemma upper_UNKNOWN : upper "UNKNOWN" <> "GUIDED".
Proof. vm_compute. discriminate. Qed.

Lemma handle_message_mode_not_guided {host : Host} msg w :
  mode_not_guided w ->
  (get_type msg = "HEARTBEAT" -> upper (mode_string_v10 msg) <> "GUIDED") ->
  mode_not_guided (snd (handle_message msg w)).
Proof.
  intros Hw Hmsg.
  destruct (String.eqb_spec (get_type msg) "HEARTBEAT") as [E|E].
  - specialize (Hmsg E). unfold handle_message. rewrite E.
    cbn [String.eqb Ascii.eqb Bool.eqb]. unfold on_heartbeat.
    destruct (py_and_int (getattr msg "base_mode" (PInt 0))
                mavlink.MAV_MODE_FLAG_SAFETY_ARMED) as [a|e|]; run;
      try exact Hw.
    assert (Hset : forall st,
               match dict_get "mode"
                       (dict_set "component_id" (PInt (get_srcComponent msg))
                          (dict_set "system_id" (PInt (get_srcSystem msg))
                             (dict_set "mode_id" (getattr msg "custom_mode" PNone)
                                (dict_set "mode"
                                   (py_or (PStr (mode_string_v10 msg))
                                      (PStr "UNKNOWN")) st)))) with
               | PStr s => upper s <> "GUIDED"
               | v => py_truthy v = false
               end).
    { intros st. dict_simpl. unfold py_or. cbn [py_truthy].
      destruct (String.eqb (mode_string_v10 msg) ""); cbn [negb];
        [apply upper_UNKNOWN | exact Hmsg]. }
    destruct (getattr msg "system_status" PNone); run;
      try (destruct (system_status_name _) as [name|e|]; run; try exact Hw;
           destruct (Qle_bool (_status_hold_until w) (monotonic w)); run);
      unfold mode_not_guided; cbn [state with_state with_stdout];
      try apply Hset.
    all: dict_simpl; exact Hw.
  - unfold mode_not_guided.
    rewrite (telemetry_keeps_other_keys msg E w "mode" eq_refl). exact Hw.
Qed.

Lemma guided_wait_start_state {host : Host} w :
  dict_get "mode" (state (guided_wait_start w)) = dict_get "mode" (state w) /\
  schedule (guided_wait_start w) = schedule w.
Proof.
  unfold guided_wait_start, update_status, set_mode. run.
  destruct (master w) as [link|]; run; [|dict_simpl; auto].
  change (String.eqb "GUIDED" "") with false.
  destruct (assoc_str "GUIDED" _); run; dict_simpl; auto.
Qed.

Lemma sleep_mode_not_guided {host : Host} i w :
  never_reports_guided (schedule w) ->
  mode_not_guided w ->
  mode_not_guided (snd (sleep i w)).
Proof.
  intros Hs Hw. unfold sleep. cbn [snd].
  specialize (Hs (sleeps w)).
  set (w0 := with_slept _ w).
  assert (H0 : mode_not_guided w0) by exact Hw.
  clearbody w0. revert w0 H0.
  induction (delivered (schedule w (sleeps w))) as [|m r IH]; intros w0 H0;
    cbn [fold_left]; [exact H0|].
  apply IH.
  - intros msg Hin. apply Hs. right. exact Hin.
  - apply handle_message_mode_not_guided; [exact H0|].
    apply Hs. left. reflexivity.
Qed.

Lemma after_sleeps_mode_not_guided {host : Host} i k w :
  never_reports_guided (schedule w) ->
  mode_not_guided w ->
  mode_not_guided (after_sleeps i k w).
Proof.
  intros Hs Hw. induction k as [|k IH]; [exact Hw|].
  change (after_sleeps i (S k) w) with (snd (sleep i (after_sleeps i k w))).
  apply sleep_mode_not_guided; [|exact IH].
  destruct (after_sleeps_view i k w) as (_ & _ & Hsch & _).
  rewrite Hsch. exact Hs.
Qed.

(** The hypothesis of the timeout theorem holds whenever the mode is not
    GUIDED at the start and no HEARTBEAT delivered afterwards reports it. *)
Lemma polls_never_guided {host : Host} w k :
  mode_not_guided w ->
  never_reports_guided (schedule w) ->
  mode_not_guided (after_sleeps interval_default k (guided_wait_start w)).
Proof.
  intros Hw Hs. destruct (guided_wait_start_state w) as [Hmode Hsch].
  apply after_sleeps_mode_not_guided.
  - rewrite Hsch. exact Hs.
  - unfold mode_not_guided in *. rewrite Hmode. exact Hw.
Qed.

(** ** [wait_until] always returns or raises *)

Lemma wait_loop_terminates {host : Host} (predicate : M bool)
    (description : string) (i : Q) :
  0 < i ->
  (forall w, snd (predicate w) = w /\ fst (predicate w) <> Diverged) ->
  forall (budget : nat) (end_time : Q) (w : World),
    end_time - monotonic w < i * inject_Z (Z.of_nat budget) ->
    fst (wait_loop budget predicate end_time description i w) <> Diverged.
Proof.
  intros Hi Hpure. induction budget as [|b IH]; intros end_time w Hbudget.
  - cbn [wait_loop].
    destruct (Qle_bool (monotonic w) end_time) eqn:E; [|discriminate].
    apply Qle_bool_iff in E.
    change (inject_Z (Z.of_nat 0)) with 0 in Hbudget. lra.
  - cbn [wait_loop].
    destruct (Qle_bool (monotonic w) end_time) eqn:E; [|discriminate].
    unfold bind at 1. destruct (Hpure w) as [Hw Hd].
    destruct (predicate w) as [[b0|e|] w0]; cbn [fst snd] in *; subst w0.
    + destruct b0; [cbn; discriminate|].
      unfold bind at 1.
      pose proof (sleep_spec i w) as (Hs & _ & _).
      pose proof (sleep_advances i w) as Hadv.
      destruct (sleep i w) as [r w1]. cbn [fst snd] in *. subst r.
      apply IH.
      rewrite Nat2Z.inj_succ, <- Z.add_1_r, inject_Z_plus in Hbudget.
      change (inject_Z 1) with 1 in Hbudget. lra.
    + cbn; discriminate.
    + exfalso; apply Hd; reflexivity.
Qed.

Lemma wait_until_terminates {host : Host} (predicate : M bool) (timeout : Q)
    (description : string) (i : Q) :
  0 < i ->
  (forall w, snd (predicate w) = w /\ fst (predicate w) <> Diverged) ->
  terminates (wait_until predicate timeout description i).
Proof.
  intros Hi Hpure w. unfold wait_until.
  apply wait_loop_terminates; [exact Hi | exact Hpure |].
  pose proof (polls_cover timeout i Hi). lra.
Qed.

Lemma mode_is_guided_pure w :
  snd (mode_is_guided w) = w /\ fst (mode_is_guided w) <> Diverged.
Proof.
  unfold mode_is_guided. run.
  destruct (py_or (dict_get "mode" (state w)) (PStr "")); cbn;
    split; try reflexivity; discriminate.
Qed.

Lemma state_flag_pure k w :
  snd (state_flag k w) = w /\ fst (state_flag k w) <> Diverged.
Proof. unfold state_flag. run. split; [reflexivity | discriminate]. Qed.

Lemma altitude_reached_pure altitude w :
  snd (altitude_reached altitude w) = w
  /\ fst (altitude_reached altitude w) <> Diverged.
Proof.
  unfold altitude_reached. run.
  destruct (py_or (dict_get "relative_alt" (state w)) (PInt 0)); cbn;
    split; try reflexivity; discriminate.
Qed.

(** The takeoff executor always returns or raises: every wait is bounded. *)
Lemma takeoff_sequence_terminates {host : Host} altitude :
  terminates (takeoff_sequence altitude).
Proof.
  assert (Hi : 0 < interval_default) by reflexivity.
  unfold takeoff_sequence, update_status, set_mode, arm, send_takeoff_command.
  repeat (term_step;
          try (apply wait_until_terminates;
               [exact Hi
               | first [ apply mode_is_guided_pure | apply state_flag_pure
                       | apply altitude_reached_pure ] ])).
Qed.


(** The same timeout, from what the vehicle reports: the mode is not GUIDED
    when the request arrives and no HEARTBEAT reports it afterwards. *)
Lemma takeoff_sequence_without_guided_heartbeat {host : Host}
    (altitude : pyfloat) (w : World) (link : Link)
    (mapping : list (string * Z)) (mode_id : Z) :
  master w = Some link ->
  mode_mapping link = Some mapping ->
  assoc_str "GUIDED" mapping = Some mode_id ->
  mode_not_guided w ->
  never_reports_guided (schedule w) ->
  exists n,
    takeoff_sequence altitude w
    = (Raise (mkExc TimeoutError "Timed out waiting for mode GUIDED"),
       after_sleeps interval_default n (guided_wait_start w)).
Proof.
  intros Hm Hmap Hg Hw Hs.
  apply (takeoff_sequence_guided_timeout altitude w link mapping mode_id Hm
           Hmap Hg).
  intros k _. apply polls_never_guided; assumption.
Qed.


(** * Further properties of the bridge *)

(** ** The schema of the state dict *)

Lemma conforms_set schema d k v t :
  conforms schema d = true -> assoc_str k schema = Some t ->
  has_type t v = true -> conforms schema (dict_set k v d) = true.
Proof.
  revert d. induction schema as [|[k0 t0] schema IH]; intros d Hc Ha Ht.
  - discriminate Ha.
  - destruct d as [|[k1 v1] d]; [discriminate Hc|].
    cbn [conforms] in Hc. apply andb_prop in Hc. destruct Hc as [Hc Hr].
    apply andb_prop in Hc. destruct Hc as [Hk Hv].
    apply String.eqb_eq in Hk. subst k1.
    cbn [assoc_str] in Ha. cbn [dict_set].
    destruct (String.eqb k k0) eqn:E.
    + injection Ha as <-. cbn [conforms].
      rewrite String.eqb_refl, Ht, Hr. reflexivity.
    + cbn [conforms]. rewrite String.eqb_refl, Hv, (IH d Hr Ha Ht). reflexivity.
Qed.

Lemma conforms_get schema d k t :
  conforms schema d = true -> assoc_str k schema = Some t ->
  has_type t (dict_get k d) = true.
Proof.
  unfold dict_get.
  revert d. induction schema as [|[k0 t0] schema IH]; intros d Hc Ha.
  - discriminate Ha.
  - destruct d as [|[k1 v1] d]; [discriminate Hc|].
    cbn [conforms] in Hc. apply andb_prop in Hc. destruct Hc as [Hc Hr].
    apply andb_prop in Hc. destruct Hc as [Hk Hv].
    apply String.eqb_eq in Hk. subst k1.
    cbn [assoc_str] in Ha. cbn [dict_lookup].
    destruct (String.eqb k k0) eqn:E.
    + injection Ha as <-. exact Hv.
    + apply (IH d Hr Ha).
Qed.


Lemma well_typed_set k v w :
  write_ok k v = true -> well_typed w ->
  well_typed (with_state (dict_set k v (state w)) w).
Proof.
  unfold write_ok, well_typed. intros Hk Hw. cbn [state with_state].
  destruct (assoc_str k STATE_SCHEMA) as [t|] eqn:E; [|discriminate Hk].
  exact (conforms_set _ _ _ _ _ Hw E Hk).
Qed.

(** ** Frame rules for the executors *)

Section CommandFrames.

Context {host : Host}.

Variable R : World -> World -> Prop.

Hypothesis R_refl : forall w, R w w.

Hypothesis R_trans : forall a b c, R a b -> R b c -> R a c.

Hypothesis R_set :
  forall k v w, write_ok k v = true ->
                R w (with_state (dict_set k v (state w)) w).

Hypothesis R_msg : forall msg w, R w (snd (handle_message msg w)).

Hypothesis R_hold : forall q w, R w (with_status_hold_until q w).

Hypothesis R_logging : forall b w, R w (with_logging_active b w).

Hypothesis R_clear : forall w, R w (with_csv_rows [] w).

Hypothesis R_append :
  forall row w, complete_row row -> R w (with_csv_rows (csv_rows w ++ [row]) w).

Hypothesis R_slam : forall s w, R w (with_latest_slam s w).

Hypothesis R_out :
  forall l w, is_command_result l = false -> R w (with_stdout (stdout w ++ [l]) w).

Hypothesis R_sent : forall l w, R w (with_link_sent (link_sent w ++ l) w).

Hypothesis R_slept : forall dt w, R w (with_slept dt w).

Ltac close :=
  first [ apply R_set; reflexivity | apply R_hold
        | apply R_logging | apply R_clear | apply R_slam | apply R_sent
        | apply R_out; reflexivity
        | apply R_append; unfold complete_row; repeat eexists ].

Lemma update_status_frames text hold : frames R (update_status text hold).
Proof. unfold update_status. repeat (frame_step; try close). Qed.

Lemma set_mode_frames name : frames R (set_mode name).
Proof. unfold set_mode. repeat (frame_step; try close). Qed.

Lemma arm_frames b : frames R (arm b).
Proof. unfold arm. repeat (frame_step; try close). Qed.

Lemma send_takeoff_command_frames a : frames R (send_takeoff_command a).
Proof. unfold send_takeoff_command. repeat (frame_step; try close). Qed.

Lemma sleep_frames i : frames R (sleep i).
Proof.
  intros w. unfold sleep. cbn [snd].
  eapply R_trans; [apply R_slept|].
  apply (deliver_frames R R_refl R_trans R_msg).
Qed.

Lemma wait_loop_frames budget predicate end_time description i :
  frames R predicate ->
  frames R (wait_loop budget predicate end_time description i).
Proof.
  intros Hp. induction budget as [|b IH]; intros w; cbn [wait_loop].
  - destruct (Qle_bool (monotonic w) end_time); apply R_refl.
  - destruct (Qle_bool (monotonic w) end_time); [|apply R_refl].
    revert w.
    change (frames R (bind predicate
                        (fun b0 : bool =>
                           if b0 then ret tt
                           else bind (sleep i)
                                  (fun _ => wait_loop b predicate end_time
                                              description i)))).
    repeat frame_step; try assumption. apply sleep_frames.
Qed.

Lemma wait_until_frames predicate timeout description i :
  frames R predicate ->
  frames R (wait_until predicate timeout description i).
Proof. intros Hp w. unfold wait_until. apply wait_loop_frames, Hp. Qed.

Lemma mode_is_guided_frames : frames R mode_is_guided.
Proof. unfold mode_is_guided. repeat frame_step. Qed.

Lemma state_flag_frames k : frames R (state_flag k).
Proof. unfold state_flag. repeat frame_step. Qed.

Lemma altitude_reached_frames a : frames R (altitude_reached a).
Proof. unfold altitude_reached. repeat frame_step. Qed.

Lemma takeoff_sequence_frames altitude : frames R (takeoff_sequence altitude).
Proof.
  unfold takeoff_sequence.
  repeat (frame_step;
          try first [ apply update_status_frames | apply set_mode_frames
                    | apply arm_frames | apply send_takeoff_command_frames
                    | apply wait_until_frames;
                      first [ apply mode_is_guided_frames
                            | apply state_flag_frames
                            | apply altitude_reached_frames ] ]).
Qed.

Lemma append_log_row_frames : frames R append_log_row.
Proof. unfold append_log_row. repeat (frame_step; try close). Qed.

Lemma store_slam_pose_frames_all payload : frames R (store_slam_pose payload).
Proof.
  unfold store_slam_pose, pose_timestamp, safe_float_of.
  repeat (frame_step; try first [close | apply append_log_row_frames]).
Qed.

Lemma start_csv_logging_frames : frames R start_csv_logging.
Proof.
  unfold start_csv_logging.
  repeat (frame_step; try first [close | apply update_status_frames]).
Qed.

Lemma stop_csv_logging_frames : frames R stop_csv_logging.
Proof. unfold stop_csv_logging. repeat (frame_step; try close). Qed.

Lemma handle_command_frames payload : frames R (handle_command payload).
Proof.
  unfold handle_command.
  repeat (frame_step;
          try first [ apply set_mode_frames | apply takeoff_sequence_frames
                    | apply store_slam_pose_frames_all
                    | apply start_csv_logging_frames
                    | apply stop_csv_logging_frames ]).
Qed.

End CommandFrames.

(** ** The dispatcher and its executor: one answer for each command *)

Lemma no_results_refl w : no_results w w.
Proof. exists []. rewrite app_nil_r. auto. Qed.

Lemma no_results_trans a b c :
  no_results a b -> no_results b c -> no_results a c.
Proof.
  intros (x & Hx & Fx) (y & Hy & Fy). exists (x ++ y)%list.
  rewrite Hy, Hx, app_assoc. split; [reflexivity | apply Forall_app; auto].
Qed.

Lemma no_results_quiet (f : World -> World) w :
  stdout (f w) = stdout w -> no_results w (f w).
Proof. intros H. exists []. rewrite app_nil_r. auto. Qed.

Lemma handle_command_no_results {host : Host} payload w :
  no_results w (snd (handle_command payload w)).
Proof.
  apply (handle_command_frames no_results no_results_refl no_results_trans);
    intros;
    first [ exists []; cbn; rewrite app_nil_r; split; [reflexivity | constructor]
          | eexists [_]; split; [reflexivity | auto]
          | apply handle_message_executor_view ].
Qed.

Lemma set_mode_terminates {host : Host} name : terminates (set_mode name).
Proof. unfold set_mode. repeat term_step. Qed.

Lemma start_csv_logging_terminates {host : Host} : terminates start_csv_logging.
Proof. unfold start_csv_logging, update_status. repeat term_step. Qed.

Lemma stop_csv_logging_terminates {host : Host} : terminates stop_csv_logging.
Proof. unfold stop_csv_logging. repeat term_step. Qed.

Lemma py_float_returns {host : Host} v : py_float v <> Diverged.
Proof.
  destruct v as [|b|z|f|s|l|d]; cbn [py_float]; try discriminate.
  - unfold float_of_int. destruct (float_overflow <=? Z.abs z)%Z; discriminate.
  - destruct (float_of_str s); discriminate.
Qed.

Lemma handle_command_terminates {host : Host} payload :
  terminates (handle_command payload).
Proof.
  unfold handle_command.
  repeat (term_step;
          try first [ apply set_mode_terminates
                    | apply takeoff_sequence_terminates
                    | apply store_slam_pose_terminates
                    | apply start_csv_logging_terminates
                    | apply stop_csv_logging_terminates
                    | apply terminates_lift, py_float_returns
                    | apply terminates_lift; discriminate ]).
Qed.

(** What [handle_command] can return. *)
Lemma handle_command_returns {host : Host} payload w v :
  fst (handle_command payload w) = Ok v ->
  v = PNone \/ v = PDict [("status", PStr "started")]
  \/ exists c f, v = PDict [("csv", PStr c); ("file_name", PStr f)].
Proof.
  assert (Hnone : forall (c : M unit) w0 v0,
             fst (bind c (fun _ => ret PNone) w0) = Ok v0 -> v0 = PNone).
  { intros c w0 v0. unfold bind, ret. destruct (c w0) as [[[]|e|] w1]; cbn;
      congruence. }
  unfold handle_command.
  repeat match goal with
         | |- context [if ?b then _ else _] => destruct b
         end.
  - intros H. left. eapply Hnone, H.
  - unfold bind at 1.
    match goal with |- context [try_except ?c ?h w] =>
      destruct (try_except c h w) as [[f|e|] w1] end; cbn [fst]; try discriminate.
    intros H. left. eapply Hnone, H.
  - intros H. left. eapply Hnone, H.
  - unfold start_csv_logging, update_status. run. intros H. right. left.
    congruence.
  - unfold stop_csv_logging. run. destruct (logging_active w); run;
      [|discriminate]. intros H. right. right. injection H as <-. eauto.
  - cbn. intros H. left. congruence.
Qed.

(** X1: a command of one of the four types that have a
    result type is answered by exactly one CommandResult, and
    [execute_command] itself always returns: when [handle_command] returns,
    the result says ok, carries the request id and the returned fields, and is
    the last line; when it raises, the result says not ok with the error
    text, and one log line follows. *)
Theorem execute_command_one_result {host : Host} (payload : dict) (w : World)
    (command_type rt : string) :
  dict_get "type" payload = PStr command_type ->
  assoc_str command_type RESULT_TYPES = Some rt ->
  let r := execute_command payload w in
  let request_id := dict_get "request_id" payload in
  fst r = Ok tt /\
  exists before result after,
    stdout (snd r) = (stdout w ++ before ++ [result] ++ after)%list /\
    Forall (fun l => is_command_result l = false) before /\
    is_command_result result = true /\
    Forall (fun l => is_command_result l = false) after /\
    match fst (handle_command payload w) with
    | Ok returned => result = success_line rt request_id returned /\ after = []
    | Raise e => result = failure_line rt request_id e
                 /\ after = [failure_log command_type e]
    | Diverged => False
    end.
Proof.
  intros Hty Hrt r request_id.
  pose proof (handle_command_terminates payload w) as Hterm.
  pose proof (handle_command_no_results payload w) as (before & Hout & Fb).
  pose proof (handle_command_returns payload w) as Hret.
  assert (Hres : forall l, dict_get "type" l = PStr rt -> is_command_result l = true).
  { intros l Hl. unfold is_command_result. rewrite Hl.
    revert Hrt. cbn.
    repeat match goal with
           | |- context [String.eqb command_type ?b] =>
               destruct (String.eqb command_type b)
           end; intros H; inversion H; reflexivity. }
  subst r. unfold execute_command. rewrite Hty.
  cbn [result_type_of]. rewrite Hrt.
  unfold bind, try_except, lift. cbv beta iota.
  destruct (handle_command payload w) as [[v|e|] w1]; cbn [fst snd] in *.
  - run. split; [reflexivity|].
    exists before, (success_line rt request_id v), [].
    assert (Hline : match v with
                    | PDict d =>
                        dict_update
                          [("type", PStr rt); ("ok", PBool true);
                           ("request_id", request_id)] d
                    | _ => [("type", PStr rt); ("ok", PBool true);
                            ("request_id", request_id)]
                    end = success_line rt request_id v).
    { destruct (Hret v eq_refl) as [->|[->|(c & f & ->)]]; reflexivity. }
    fold request_id. rewrite Hline, Hout, <- app_assoc.
    split; [reflexivity|]. split; [exact Fb|].
    split; [apply Hres; reflexivity|]. split; [constructor|]. auto.
  - run. split; [reflexivity|].
    exists before, (failure_line rt request_id e), [failure_log command_type e].
    rewrite Hout, <- !app_assoc.
    split; [reflexivity|]. split; [exact Fb|].
    split; [apply Hres; reflexivity|]. split; [repeat constructor|]. auto.
  - exfalso. apply Hterm. reflexivity.
Qed.

Lemma execute_command_one_result_witness :
  fst (@execute_command plain_host takeoff_request sample_bridge) = Ok tt.
Proof.
  apply (@execute_command_one_result plain_host takeoff_request sample_bridge
           "takeoff" "takeoff_result"); reflexivity.
Defined.

Lemma unrecognised_is_no_str v s :
  unrecognised v -> In s COMMAND_TYPES -> py_is_str v s = false.
Proof.
  intros Hu Hin. destruct v; try reflexivity. cbn.
  destruct (String.eqb_spec s0 s) as [->|]; [|reflexivity].
  exfalso. exact (Hu s eq_refl Hin).
Qed.

(** X2: a request whose type is none of the five command
    types changes nothing and is not answered; when the type is a list or a
    dict, [execute_command] itself raises a TypeError before anything
    happens. *)
Theorem unrecognised_command_ignored {host : Host} (payload : dict) (w : World) :
  unrecognised (dict_get "type" payload) ->
  handle_command payload w = (Ok PNone, w) /\
  match dict_get "type" payload with
  | PList _ | PDict _ =>
      execute_command payload w
      = (Raise (mkExc TypeError "unhashable type"), w)
  | _ => execute_command payload w = (Ok tt, w)
  end.
Proof.
  intros Hu.
  assert (Hhc : handle_command payload w = (Ok PNone, w)).
  { unfold handle_command.
    rewrite !(unrecognised_is_no_str _ _ Hu) by (cbn; tauto). reflexivity. }
  split; [exact Hhc|].
  assert (Hrt : match dict_get "type" payload with
                | PList _ | PDict _ => True
                | v => result_type_of v = Ok None
                end).
  { destruct (dict_get "type" payload) eqn:E; try reflexivity; try exact I.
    cbn.
    repeat match goal with
           | |- context [String.eqb s ?b] =>
               destruct (String.eqb_spec s b) as [->|];
               [exfalso; apply (Hu _ eq_refl); cbn; tauto|]
           end.
    reflexivity. }
  unfold execute_command.
  destruct (dict_get "type" payload) eqn:E;
    try (rewrite Hrt; unfold bind, try_except, lift; cbv beta iota;
         rewrite Hhc; reflexivity);
    reflexivity.
Qed.

Lemma unrecognised_command_ignored_witness :
  @handle_command plain_host land_request sample_bridge
  = (Ok PNone, sample_bridge) /\
  @execute_command plain_host land_request sample_bridge
  = (Ok tt, sample_bridge).
Proof.
  apply (@unrecognised_command_ignored plain_host land_request sample_bridge).
  intros s H. injection H as <-. cbn. intuition discriminate.
Defined.

(** ** What goes to the link *)

(** X3: [set_mode] raises in three cases only, and then nothing was sent
    and the bridge is as it was: a RuntimeError without a link, a ValueError
    for an empty mode name, and a ValueError for a name that the link's mode
    table does not have. *)
Theorem set_mode_rejects (mode_name : string) (w : World) (e : exc) :
  fst (set_mode mode_name w) = Raise e ->
  snd (set_mode mode_name w) = w /\
  (master w = None /\ e = mkExc RuntimeError "Vehicle connection not ready"
   \/ (exists link, master w = Some link) /\ mode_name = ""
      /\ e = mkExc ValueError "Mode name is required"
   \/ (exists link, master w = Some link
                    /\ assoc_str mode_name (mode_table link) = None)
      /\ mode_name <> ""
      /\ e = mkExc ValueError ("Mode '" ++ mode_name ++ "' not supported")).
Proof.
  unfold set_mode, mode_table. run.
  destruct (master w) as [link|] eqn:Hm; run.
  2: { intros H. injection H as <-. auto. }
  destruct (String.eqb_spec mode_name "") as [->|Hne]; run.
  { intros H. injection H as <-. split; [reflexivity|]. right. left. eauto. }
  destruct (assoc_str mode_name
              match mode_mapping link with Some t => t | None => [] end)
    as [mode_id|] eqn:Hid; run; [discriminate|].
  intros H. injection H as <-. split; [reflexivity|]. right. right. eauto.
Qed.

Lemma set_mode_rejects_witness :
  snd (set_mode "LOITER" sample_bridge) = sample_bridge.
Proof.
  exact (proj1 (set_mode_rejects "LOITER" sample_bridge
                  (mkExc ValueError "Mode 'LOITER' not supported") eq_refl)).
Defined.

(** X4: with a link whose mode table has the name, [set_mode] returns
    and hands the link two messages, a DO_SET_MODE command and a set-mode
    message, both with the same base mode and the mode's id; the base mode
    has the custom-mode bit set, is exactly 1 for a mode without an extra
    flag, and includes the extra flag of a mode that has one. *)
Theorem set_mode_sends (mode_name : string) (w : World)
    (link : Link) (mode_id : Z) :
  master w = Some link ->
  mode_name <> "" ->
  assoc_str mode_name (mode_table link) = Some mode_id ->
  exists base_mode,
    set_mode mode_name w
    = (Ok tt,
       with_link_sent (link_sent w ++ mode_commands link base_mode mode_id) w) /\
    Z.testbit base_mode 0 = true /\
    (assoc_str mode_name MODE_EXTRA_FLAGS = None -> base_mode = 1%Z) /\
    (forall flag, assoc_str mode_name MODE_EXTRA_FLAGS = Some flag ->
                  Z.land base_mode flag = flag).
Proof.
  intros Hm Hne Hid. unfold set_mode, mode_table in *. run. rewrite Hm.
  destruct (String.eqb_spec mode_name "") as [->|_]; [contradiction|].
  rewrite Hid.
  set (base_mode := match assoc_str mode_name MODE_EXTRA_FLAGS with
                    | Some extra_flag =>
                        if (extra_flag =? 0)%Z
                        then mavlink.MAV_MODE_FLAG_CUSTOM_MODE_ENABLED
                        else Z.lor mavlink.MAV_MODE_FLAG_CUSTOM_MODE_ENABLED
                               extra_flag
                    | None => mavlink.MAV_MODE_FLAG_CUSTOM_MODE_ENABLED
                    end).
  exists base_mode. split; [reflexivity|].
  subst base_mode. unfold MODE_EXTRA_FLAGS. cbn [assoc_str].
  repeat match goal with
         | |- context [String.eqb mode_name ?b] =>
             destruct (String.eqb mode_name b)
         end;
    (split; [reflexivity|]; split; [intros H; first [discriminate H | reflexivity]|];
     intros flag H; injection H as <-; reflexivity) ||
    (split; [reflexivity|]; split; [reflexivity|]; intros flag H; discriminate H).
Qed.

Lemma set_mode_sends_witness :
  exists base_mode,
    set_mode "GUIDED" sample_bridge
    = (Ok tt,
       with_link_sent
         (link_sent sample_bridge ++ mode_commands sample_link base_mode 4)
         sample_bridge) /\
    Z.land base_mode 8 = 8%Z.
Proof.
  destruct (set_mode_sends "GUIDED" sample_bridge sample_link 4
              eq_refl ltac:(discriminate) eq_refl)
    as (base_mode & Hrun & _ & _ & Hflag).
  exists base_mode. split; [exact Hrun|]. apply Hflag. reflexivity.
Defined.

Lemma link_kept_refl w : link_kept w w.
Proof. split; reflexivity. Qed.

Lemma link_kept_trans a b c : link_kept a b -> link_kept b c -> link_kept a c.
Proof. intros [H1 H2] [H3 H4]. split; congruence. Qed.

Lemma sends_quiet {A} link (c : M A) L :
  frames link_kept c -> (forall w a, fst (c w) = Ok a -> L = []) -> sends link L c.
Proof.
  intros Hc Hok w Hm. destruct (Hc w) as [H1 H2]. split; [congruence|].
  exists []. rewrite app_nil_r. split; [exact H2|]. split; [exists L; reflexivity|].
  intros a Ha. symmetry. eapply Hok, Ha.
Qed.

Lemma sends_nothing {A} link (c : M A) :
  frames link_kept c -> sends link [] c.
Proof. intros Hc. apply sends_quiet; auto. Qed.

Lemma sends_raise {A} link L k msg : sends link L (@raise A k msg).
Proof.
  apply sends_quiet; [intros w; apply link_kept_refl|]. intros w a H. discriminate H.
Qed.

Lemma sends_bind {A B} link L1 L2 (c : M A) (k : A -> M B) :
  sends link L1 c -> (forall a, sends link L2 (k a)) ->
  sends link (L1 ++ L2) (bind c k).
Proof.
  intros Hc Hk w Hm. unfold bind.
  destruct (Hc w Hm) as (Hm1 & l1 & Hl1 & [t1 Ht1] & Hok1).
  destruct (c w) as [[a|e|] w1]; cbn [fst snd] in *.
  - specialize (Hok1 a eq_refl). subst l1.
    destruct (Hk a w1 Hm1) as (Hm2 & l2 & Hl2 & [t2 Ht2] & Hok2).
    split; [exact Hm2|]. exists (L1 ++ l2)%list.
    rewrite Hl2, Hl1, app_assoc. split; [reflexivity|]. split.
    + exists t2. rewrite Ht2, app_assoc. reflexivity.
    + intros b Hb. rewrite (Hok2 b Hb). reflexivity.
  - split; [exact Hm1|]. exists l1. split; [exact Hl1|]. split.
    + exists (t1 ++ L2)%list. rewrite Ht1, app_assoc. reflexivity.
    + intros b Hb. discriminate Hb.
  - split; [exact Hm1|]. exists l1. split; [exact Hl1|]. split.
    + exists (t1 ++ L2)%list. rewrite Ht1, app_assoc. reflexivity.
    + intros b Hb. discriminate Hb.
Qed.

Lemma sends_eq {A} link L L' (c : M A) : sends link L c -> L = L' -> sends link L' c.
Proof. intros H <-. exact H. Qed.

Section LinkKept.

Context {host : Host}.

Lemma handle_message_link_kept msg w : link_kept w (snd (handle_message msg w)).
Proof.
  destruct (handle_message_executor_view msg w) as (H1 & H2 & _).
  split; assumption.
Qed.

Lemma update_status_link_kept text hold : frames link_kept (update_status text hold).
Proof.
  apply (update_status_frames link_kept link_kept_refl link_kept_trans);
    intros; first [apply handle_message_link_kept | split; reflexivity].
Qed.

Lemma wait_until_link_kept predicate timeout description i :
  frames link_kept predicate ->
  frames link_kept (wait_until predicate timeout description i).
Proof.
  apply (wait_until_frames link_kept link_kept_refl link_kept_trans);
    intros; first [apply handle_message_link_kept | split; reflexivity].
Qed.

Lemma set_mode_guided_sends link :
  sends link match assoc_str "GUIDED" (mode_table link) with
             | Some mode_id => mode_commands link 9 mode_id
             | None => []
             end
        (set_mode "GUIDED").
Proof.
  intros w Hm. unfold set_mode, mode_table. run. rewrite Hm.
  change (String.eqb "GUIDED" "") with false.
  destruct (assoc_str "GUIDED"
              match mode_mapping link with Some t => t | None => [] end)
    as [mode_id|]; run.
  - split; [exact Hm|]. eexists. split; [reflexivity|].
    split; [exists []; rewrite app_nil_r; reflexivity | reflexivity].
  - split; [exact Hm|]. exists []. rewrite app_nil_r.
    split; [reflexivity|]. split; [exists []; reflexivity | reflexivity].
Qed.

Lemma arm_sends link : sends link [arm_command link] (arm true).
Proof.
  intros w Hm. unfold arm. run. rewrite Hm. run.
  split; [exact Hm|]. eexists. split; [reflexivity|].
  split; [exists []; reflexivity | reflexivity].
Qed.

Lemma send_takeoff_command_sends link altitude :
  sends link [takeoff_command link altitude] (send_takeoff_command altitude).
Proof.
  intros w Hm. unfold send_takeoff_command. run. rewrite Hm. run.
  split; [exact Hm|]. eexists. split; [reflexivity|].
  split; [exists []; reflexivity | reflexivity].
Qed.

Lemma takeoff_sequence_sends link altitude :
  sends link (takeoff_commands link altitude) (takeoff_sequence altitude).
Proof.
  assert (Hp1 : frames link_kept mode_is_guided)
    by (apply mode_is_guided_frames; [apply link_kept_refl | apply link_kept_trans]).
  assert (Hp2 : forall k, frames link_kept (state_flag k))
    by (intro; apply state_flag_frames; [apply link_kept_refl | apply link_kept_trans]).
  assert (Hp3 : frames link_kept (altitude_reached altitude))
    by (apply altitude_reached_frames; [apply link_kept_refl | apply link_kept_trans]).
  unfold takeoff_sequence, takeoff_commands.
  eapply sends_eq.
  - eapply sends_bind; [apply sends_nothing; intros w; apply link_kept_refl|].
    intros [l|]; [|apply sends_raise].
    eapply sends_bind; [apply sends_nothing, update_status_link_kept|]. intros _.
    eapply sends_bind; [apply set_mode_guided_sends|]. intros _.
    eapply sends_bind; [apply sends_nothing, wait_until_link_kept, Hp1|]. intros _.
    eapply sends_bind; [apply sends_nothing, update_status_link_kept|]. intros _.
    eapply sends_bind; [apply sends_nothing, wait_until_link_kept, Hp2|]. intros _.
    eapply sends_bind; [apply sends_nothing, update_status_link_kept|]. intros _.
    eapply sends_bind; [apply arm_sends|]. intros _.
    eapply sends_bind; [apply sends_nothing, wait_until_link_kept, Hp2|]. intros _.
    eapply sends_bind; [apply sends_nothing, update_status_link_kept|]. intros _.
    eapply sends_bind; [apply send_takeoff_command_sends|]. intros _.
    eapply sends_bind; [apply sends_nothing, wait_until_link_kept, Hp3|]. intros _.
    apply sends_nothing, update_status_link_kept.
  - cbn [app]. rewrite ?app_nil_r. reflexivity.
Qed.

End LinkKept.

(** ** Waiting *)

Lemma wait_loop_sound {host : Host} (predicate : M bool)
    (description : string) (i : Q) :
  0 < i ->
  read_only predicate ->
  forall (budget : nat) (end_time : Q) (w : World),
    end_time - monotonic w < i * inject_Z (Z.of_nat budget) ->
    let r := wait_loop budget predicate end_time description i w in
    exists n,
      (n <= budget)%nat /\
      snd r = after_sleeps i n w /\
      (forall k, (k < n)%nat ->
         fst (predicate (after_sleeps i k w)) = Ok false
         /\ monotonic (after_sleeps i k w) <= end_time) /\
      match fst r with
      | Ok _ => fst (predicate (snd r)) = Ok true
                /\ monotonic (snd r) <= end_time
      | Raise e =>
          e = mkExc TimeoutError ("Timed out waiting for " ++ description)
          /\ end_time < monotonic (snd r)
          \/ fst (predicate (snd r)) = Raise e /\ monotonic (snd r) <= end_time
      | Diverged => False
      end.
Proof.
  intros Hi Hro. induction budget as [|b IH]; intros end_time w Hbudget r; subst r.
  - exists O. cbn [wait_loop].
    destruct (Qle_bool (monotonic w) end_time) eqn:E.
    + apply Qle_bool_iff in E.
      change (inject_Z (Z.of_nat 0)) with 0 in Hbudget. lra.
    + assert (end_time < monotonic w).
      { apply Qnot_le_lt. intros Hle. apply Qle_bool_iff in Hle. congruence. }
      cbn. repeat split; auto; try lia; try (intros; lia).
  - cbn [wait_loop].
    destruct (Qle_bool (monotonic w) end_time) eqn:E.
    2: { exists O.
         assert (end_time < monotonic w).
         { apply Qnot_le_lt. intros Hle. apply Qle_bool_iff in Hle. congruence. }
         cbn. repeat split; auto; try lia; try (intros; lia). }
    apply Qle_bool_iff in E.
    set (c := bind predicate
                (fun b0 : bool =>
                   if b0 then ret tt
                   else bind (sleep i)
                          (fun _ => wait_loop b predicate end_time
                                      description i))).
    destruct (Hro w) as [Hw Hd].
    destruct (predicate w) as [[b0|e|] w0] eqn:Ep; cbn [fst snd] in *; subst w0.
    + destruct b0.
      * assert (Hc : c w = (Ok tt, w)) by (unfold c, bind; rewrite Ep; reflexivity).
        rewrite Hc. exists O. change (after_sleeps i 0 w) with w. cbn [fst snd].
        rewrite Ep. cbn [fst]. repeat split; auto; try lia;
          try (intros; lia).
      * pose proof (sleep_spec i w) as (Hs & _ & _).
        pose proof (sleep_advances i w) as Hadv.
        assert (Hc : c w = wait_loop b predicate end_time description i
                             (snd (sleep i w))).
        { unfold c, bind. rewrite Ep.
          destruct (sleep i w) as [rs w1]. cbn [fst snd] in *. subst rs.
          reflexivity. }
        rewrite Hc.
        destruct (IH end_time (snd (sleep i w)))
          as (n & Hn & Hw1 & Hbefore & Hres).
        { rewrite Nat2Z.inj_succ, <- Z.add_1_r, inject_Z_plus in Hbudget.
          change (inject_Z 1) with 1 in Hbudget. lra. }
        exists (S n). split; [lia|].
        split; [rewrite Hw1; apply after_sleeps_shift|].
        split; [|exact Hres].
        intros [|k] Hk.
        -- change (after_sleeps i 0 w) with w. rewrite Ep. auto.
        -- rewrite <- after_sleeps_shift. apply Hbefore. lia.
    + assert (Hc : c w = (Raise e, w)) by (unfold c, bind; rewrite Ep; reflexivity).
      rewrite Hc. exists O. change (after_sleeps i 0 w) with w. cbn [fst snd].
      rewrite Ep. cbn [fst]. repeat split; auto; try lia;
        try (intros; lia).
    + exfalso. apply Hd. reflexivity.
Qed.

(** X5: [wait_until] with a positive interval and a predicate that
    only reads the bridge polls until the predicate holds or the deadline has
    passed: it returns after [n] sleeps in a world where the predicate holds
    and the deadline has not passed, it raises the timeout error only once
    the deadline has passed, or it raises what the predicate raised; every
    earlier poll was false and within the deadline, there are no more polls
    than fit into the timeout, and the wait never goes on forever. *)
Theorem wait_until_sound {host : Host} (predicate : M bool) (timeout : Q)
    (description : string) (i : Q) (w : World) :
  0 < i ->
  read_only predicate ->
  let r := wait_until predicate timeout description i w in
  let deadline := monotonic w + timeout in
  exists n,
    (n <= polls timeout i)%nat /\
    snd r = after_sleeps i n w /\
    (forall k, (k < n)%nat ->
       fst (predicate (after_sleeps i k w)) = Ok false
       /\ monotonic (after_sleeps i k w) <= deadline) /\
    match fst r with
    | Ok _ => fst (predicate (snd r)) = Ok true /\ monotonic (snd r) <= deadline
    | Raise e =>
        e = mkExc TimeoutError ("Timed out waiting for " ++ description)
        /\ deadline < monotonic (snd r)
        \/ fst (predicate (snd r)) = Raise e /\ monotonic (snd r) <= deadline
    | Diverged => False
    end.
Proof.
  intros Hi Hro. unfold wait_until.
  apply wait_loop_sound; [exact Hi | exact Hro |].
  pose proof (polls_cover timeout i Hi). lra.
Qed.

Lemma wait_until_sound_witness :
  exists n,
    (n <= polls 15 interval_default)%nat /\
    snd (@wait_until plain_host (state_flag "ready") 15 "vehicle ready"
           interval_default sample_bridge)
    = @after_sleeps plain_host interval_default n sample_bridge.
Proof.
  destruct (@wait_until_sound plain_host (state_flag "ready") 15
              "vehicle ready" interval_default sample_bridge eq_refl
              (state_flag_pure "ready"))
    as (n & Hn & Hw & _).
  exists n. split; [exact Hn | exact Hw].
Defined.

Lemma wait_until_returns_true {host : Host} (predicate : M bool) (timeout : Q)
    (description : string) (i : Q) (w w' : World) (u : unit) :
  0 < i ->
  read_only predicate ->
  wait_until predicate timeout description i w = (Ok u, w') ->
  fst (predicate w') = Ok true.
Proof.
  intros Hi Hro H. unfold wait_until in H.
  pose proof (polls_cover timeout i Hi) as Hc.
  destruct (wait_loop_sound predicate description i Hi Hro (polls timeout i)
              (monotonic w + timeout) w ltac:(lra)) as (n & _ & _ & _ & Hres).
  rewrite H in Hres. cbn [fst snd] in Hres. apply Hres.
Qed.

(** ** The takeoff sequence *)

Lemma bind_ok_inv {A B} (c : M A) (k : A -> M B) w b w' :
  bind c k w = (Ok b, w') ->
  exists a w1, c w = (Ok a, w1) /\ k a w1 = (Ok b, w').
Proof.
  unfold bind. destruct (c w) as [[a|e|] w1]; try discriminate. eauto.
Qed.

Lemma takeoff_without_guided {host : Host} altitude w link :
  master w = Some link ->
  assoc_str "GUIDED" (mode_table link) = None ->
  fst (takeoff_sequence altitude w)
  = Raise (mkExc ValueError "Mode 'GUIDED' not supported").
Proof.
  intros Hm Hg. unfold takeoff_sequence, update_status, set_mode, mode_table in *.
  run. rewrite !Hm. run. rewrite ?Hm.
  change (String.eqb "GUIDED" "") with false. rewrite Hg. reflexivity.
Qed.

(** X6: whatever stops a takeoff, what it has handed to the link
    is a prefix of one fixed sequence, the two mode messages for GUIDED, the
    arm command and the takeoff command with the altitude; a takeoff that
    returns has sent all four, and one without a link has sent nothing and
    raised a RuntimeError. *)
Theorem takeoff_sends_in_order {host : Host} (altitude : pyfloat) (w : World) :
  let r := takeoff_sequence altitude w in
  exists sent,
    link_sent (snd r) = (link_sent w ++ sent)%list /\
    match master w with
    | None =>
        sent = [] /\
        fst r = Raise (mkExc RuntimeError "Vehicle connection not ready")
    | Some link =>
        is_prefix sent (takeoff_commands link altitude) /\
        (fst r = Ok tt ->
         exists mode_id,
           assoc_str "GUIDED" (mode_table link) = Some mode_id /\
           sent = [ command_long_send (target_system link)
                      (target_component link) mavlink.MAV_CMD_DO_SET_MODE 0
                      [PInt 9; PInt mode_id; PInt 0; PInt 0; PInt 0; PInt 0;
                       PInt 0];
                    set_mode_send (target_system link) 9 mode_id;
                    arm_command link; takeoff_command link altitude ])
    end.
Proof.
  intros r. subst r. destruct (master w) as [link|] eqn:Hm.
  - destruct (takeoff_sequence_sends link altitude w Hm)
      as (_ & sent & Hsent & Hpre & Hall).
    exists sent. split; [exact Hsent|]. split; [exact Hpre|].
    intros Hok. rewrite (Hall tt Hok). unfold takeoff_commands.
    destruct (assoc_str "GUIDED" (mode_table link)) as [mode_id|] eqn:Hg.
    + exists mode_id. split; reflexivity.
    + rewrite (takeoff_without_guided altitude w link Hm Hg) in Hok.
      discriminate Hok.
  - exists []. rewrite app_nil_r.
    unfold takeoff_sequence, bind, gets. rewrite Hm. cbn. auto.
Qed.

(** X7: a takeoff that returns leaves the status "TAKEOFF:
    sequence complete", held for 6 seconds from the moment it was set, a
    relative altitude of at least 95 % of the target, and as its last line
    on standard output the telemetry of the state it leaves. *)
Theorem takeoff_sequence_completed {host : Host} (altitude : pyfloat)
    (w : World) :
  fst (takeoff_sequence altitude w) = Ok tt ->
  let w' := snd (takeoff_sequence altitude w) in
  dict_get "status" (state w') = PStr "TAKEOFF: sequence complete" /\
  _status_hold_until w' = monotonic w' + 6 /\
  fst (altitude_reached altitude w') = Ok true /\
  exists earlier,
    stdout w'
    = (earlier ++ [[("type", PStr "telemetry"); ("data", PDict (state w'))]])%list.
Proof.
  intros Hok w'. subst w'.
  destruct (takeoff_sequence altitude w) as [r w'] eqn:H. cbn [fst snd] in *.
  subst r. unfold takeoff_sequence in H.
  apply bind_ok_inv in H. destruct H as (m & w0 & Hg & H).
  destruct m as [link|]; [|discriminate H].
  do 10 (apply bind_ok_inv in H; destruct H as (? & ? & _ & H)).
  apply bind_ok_inv in H. destruct H as (u & w11 & Hwait & H).
  apply wait_until_returns_true in Hwait;
    [|reflexivity | intros w1; apply altitude_reached_pure].
  revert H Hwait. unfold update_status, altitude_reached. run.
  intros H Hwait. injection H as H. subst w'.
  cbn [state _status_hold_until monotonic stdout with_stdout with_state
       with_status_hold_until].
  dict_simpl. split; [reflexivity|]. split; [reflexivity|].
  split; [exact Hwait|]. eexists. reflexivity.
Qed.

Lemma takeoff_sequence_completed_witness :
  dict_get "status"
    (state (snd (@takeoff_sequence plain_host (Fin 20) cooperative_bridge)))
  = PStr "TAKEOFF: sequence complete".
Proof.
  apply (@takeoff_sequence_completed plain_host (Fin 20) cooperative_bridge).
  vm_compute. reflexivity.
Defined.

(** ** Accepted poses and the rows they leave *)

Lemma convertible_safe_float {host : Host} v :
  convertible v = true -> exists f, _safe_float v = Ok (Some f).
Proof.
  unfold convertible. destruct (py_float v) as [f| |] eqn:E; try discriminate.
  intros _. exists f. apply _safe_float_convertible, E.
Qed.

Lemma not_convertible {host : Host} v :
  convertible v = false -> unconvertible v.
Proof.
  unfold convertible. intros H f Hf. rewrite Hf in H. discriminate H.
Qed.

Lemma beyond_float_raises {host : Host} v :
  beyond_float v = true ->
  _safe_float v
  = Raise (mkExc OverflowError "int too large to convert to float").
Proof.
  intros H. destruct (_safe_float_cases v) as [[o Ho]|[_ Hr]]; [|exact Hr].
  destruct v as [|b|z|f|s|l|d]; try discriminate H.
  cbn [beyond_float] in H. cbn [_safe_float py_float] in Ho.
  unfold float_of_int in Ho. rewrite H in Ho. discriminate Ho.
Qed.

Lemma pose_timestamp_usable {host : Host} v w :
  timestamp_usable v = true -> exists ts, pose_timestamp v w = (Ok ts, w).
Proof.
  unfold timestamp_usable. intros H.
  destruct (py_float v) as [[q| |]| |] eqn:E; try discriminate.
  - eexists. apply (pose_timestamp_spec v q w E).
  - exists (Qtrunc (wall w * 1000)). unfold pose_timestamp.
    rewrite _safe_float_unconvertible; [reflexivity| |].
    + apply negb_true_iff, H.
    + intros f Hf. rewrite Hf in E. discriminate E.
  - exfalso. exact (py_float_returns v E).
Qed.

Lemma pose_timestamp_unusable {host : Host} v w :
  timestamp_usable v = false ->
  exists e, pose_timestamp v w = (Raise e, w).
Proof.
  unfold timestamp_usable. intros H.
  destruct (py_float v) as [[q| |]| |] eqn:E; try discriminate;
    try (unfold pose_timestamp; rewrite (_safe_float_convertible v _ E);
         eexists; reflexivity).
  all: apply negb_false_iff, beyond_float_raises in H;
    unfold pose_timestamp; rewrite H; eexists; reflexivity.
Qed.

Lemma quaternion_beyond_stops {host : Host} (d : dict) (w : World) :
  quaternion_within d = false -> snd (store_slam_pose (PDict d) w) = w.
Proof.
  unfold quaternion_within. cbn [forallb]. intros H.
  repeat (apply andb_false_iff in H; destruct H as [H|H]);
    try discriminate H;
    apply negb_false_iff, beyond_float_raises in H;
    (eapply store_slam_pose_stops; [|exact H]; cbn; tauto).
Qed.

Lemma store_slam_pose_outcome {host : Host} (payload : pyval) (w : World) :
  let r := store_slam_pose payload w in
  let now := Qtrunc (wall w * 1000) in
  if pose_accepted payload then
    fst r = Ok tt /\
    exists ts x y z,
      slam_timestamp (latest_slam (snd r)) = Some ts /\
      slam_x (latest_slam (snd r)) = Some x /\
      slam_y (latest_slam (snd r)) = Some y /\
      slam_z (latest_slam (snd r)) = Some z /\
      dict_get "last_slam_delta_ms" (state (snd r)) = PInt (now - ts) /\
      logging_active (snd r) = logging_active w /\
      csv_rows (snd r)
      = (csv_rows w ++
         if logging_active w
         then [[ PInt now; PInt ts; PFloat x; PFloat y; PFloat z;
                 opt_int (mav_timestamp (latest_mav w)); mav_lat (latest_mav w);
                 mav_lon (latest_mav w); mav_alt (latest_mav w);
                 mav_rel (latest_mav w) ]]
         else [])%list /\
      (_debug_timing w = false -> stdout (snd r) = stdout w)
  else snd r = w.
Proof.
  intros r now. subst r.
  destruct payload as [| | | | |l|d];
    try (cbn [pose_accepted]; unfold store_slam_pose;
         destruct (py_truthy _); reflexivity).
  cbn [pose_accepted].
  destruct (py_truthy (PDict d)) eqn:Ht; cbn [andb].
  2: { unfold store_slam_pose. rewrite Ht. reflexivity. }
  destruct (timestamp_usable (dict_get "timestamp" d)) eqn:Hts; cbn [andb].
  2: { destruct (pose_timestamp_unusable _ w Hts) as [e He].
       unfold store_slam_pose. rewrite Ht. cbn [negb]. unfold bind at 1.
       cbn [py_get lift]. unfold bind at 1. rewrite He. reflexivity. }
  destruct (pose_timestamp_usable _ w Hts) as [ts Hpt].
  destruct (convertible (dict_get "x" d)) eqn:Cx; cbn [andb].
  2: { apply store_slam_pose_rejected. left. apply not_convertible, Cx. }
  destruct (convertible (dict_get "y" d)) eqn:Cy; cbn [andb].
  2: { apply store_slam_pose_rejected. right. left. apply not_convertible, Cy. }
  destruct (convertible (dict_get "z" d)) eqn:Cz; cbn [andb].
  2: { apply store_slam_pose_rejected. right. right.
       apply not_convertible, Cz. }
  destruct (quaternion_within d) eqn:Cq.
  2: { apply quaternion_beyond_stops, Cq. }
  destruct (quaternion_within_returns d Cq)
    as (qw & qx & qy & qz & Hqw & Hqx & Hqy & Hqz).
  destruct (convertible_safe_float _ Cx) as [x Hx].
  destruct (convertible_safe_float _ Cy) as [y Hy].
  destruct (convertible_safe_float _ Cz) as [z Hz].
  rewrite (store_slam_pose_run d w ts _ _ _ qw qx qy qz Ht Hpt Hx Hy Hz
             Hqw Hqx Hqy Hqz).
  run. fold now.
  destruct (_debug_timing w) eqn:Hd; cbn [andb];
    [destruct (250 <? Z.abs (now - ts))%Z|];
    run; destruct (logging_active w) eqn:Hact; run; unfold append_log_row; run;
    cbn [slam_timestamp slam_x slam_y slam_z]; run; fold now;
    rewrite ?Hd; cbn [andb];
    try match goal with
        | |- context [(250 <? ?c)%Z] => destruct (250 <? c)%Z
        end; run.
  all: split; [reflexivity|]; exists ts, x, y, z; dict_simpl;
    rewrite ?app_nil_r; repeat split; try reflexivity; try assumption;
    try discriminate.
Qed.


(** A pose with an int beyond the floats in [x] or in [qw] is not accepted:
    the conversion raises and the bridge is as it was. *)
Example pose_beyond_float_dropped :
  let r := @store_slam_pose plain_host (PDict pose_x_beyond_float)
             recording_bridge in
  let r' := @store_slam_pose plain_host (PDict pose_qw_beyond_float)
              recording_bridge in
  @pose_accepted plain_host (PDict pose_x_beyond_float) = false /\
  r = (Raise (mkExc OverflowError "int too large to convert to float"),
       recording_bridge) /\
  @pose_accepted plain_host (PDict pose_qw_beyond_float) = false /\
  r' = (Raise (mkExc OverflowError "int too large to convert to float"),
        recording_bridge) /\
  @pose_accepted plain_host (PDict pose_in_seconds) = true.
Proof. vm_compute. repeat split; reflexivity. Qed.

(** ** HEARTBEAT *)

Lemma armed_bit (b : Z) :
  negb (Z.land b mavlink.MAV_MODE_FLAG_SAFETY_ARMED =? 0)%Z = Z.testbit b 7.
Proof.
  change mavlink.MAV_MODE_FLAG_SAFETY_ARMED with (2 ^ 7)%Z.
  destruct (Z.testbit b 7) eqn:Hb.
  - destruct (Z.eqb_spec (Z.land b (2 ^ 7)) 0) as [E|_]; [|reflexivity].
    assert (H : Z.testbit (Z.land b (2 ^ 7)) 7 = true).
    { rewrite Z.land_spec, Hb, Z.pow2_bits_true by lia. reflexivity. }
    rewrite E in H. rewrite Z.bits_0 in H. discriminate H.
  - assert (E : Z.land b (2 ^ 7) = 0%Z).
    { apply Z.bits_inj'. intros n Hn. rewrite Z.land_spec, Z.bits_0.
      destruct (Z.eq_dec n 7) as [->|Hne].
      - rewrite Hb. reflexivity.
      - rewrite (Z.pow2_bits_false 7 n) by lia. apply andb_false_r. }
    rewrite E. reflexivity.
Qed.

Lemma system_status_name_hashable {host : Host} v :
  hashable v = true -> exists name, system_status_name v = Ok name.
Proof.
  unfold system_status_name.
  destruct v as [|b|z|[q| |]|s|l|d]; cbn [hashable enum_key]; try discriminate;
    intros _.
  all: try (eexists; reflexivity).
  - destruct (assoc_Z (Z_of_bool b) mavlink.MAV_STATE); eexists; reflexivity.
  - destruct (assoc_Z z mavlink.MAV_STATE); eexists; reflexivity.
  - destruct (Qeq_bool q (inject_Z (Qfloor q)));
      [destruct (assoc_Z (Qfloor q) mavlink.MAV_STATE)|]; eexists; reflexivity.
Qed.

(** X9: a HEARTBEAT whose [base_mode] is an integer and whose
    [system_status] is hashable is applied: armed is bit 7 of [base_mode],
    ready says whether the lifecycle status is STANDBY (3) or ACTIVE (4),
    the mode is the decoded mode name or "UNKNOWN" when that is empty, and
    the ids are the sender's. *)
Theorem heartbeat_flags {host : Host} (msg : Message) (w : World) (b : Z) :
  get_type msg = "HEARTBEAT" ->
  getattr msg "base_mode" (PInt 0) = PInt b ->
  hashable (getattr msg "system_status" PNone) = true ->
  let r := handle_message msg w in
  let st := state (snd r) in
  fst r = Ok tt /\
  dict_get "armed" st = PBool (Z.testbit b 7) /\
  (forall s, getattr msg "system_status" PNone = PInt s ->
             dict_get "ready" st = PBool ((s =? 3)%Z || (s =? 4)%Z)) /\
  (getattr msg "system_status" PNone = PNone ->
   dict_get "ready" st = PBool false /\
   dict_get "system_status" st = dict_get "system_status" (state w)) /\
  dict_get "mode" st
  = PStr (if String.eqb (mode_string_v10 msg) "" then "UNKNOWN"
          else mode_string_v10 msg) /\
  dict_get "mode_id" st = getattr msg "custom_mode" PNone /\
  dict_get "system_id" st = PInt (get_srcSystem msg) /\
  dict_get "component_id" st = PInt (get_srcComponent msg).
Proof.
  intros Ht Hb Hh r st. subst st r. unfold handle_message. rewrite Ht.
  cbn [String.eqb Ascii.eqb Bool.eqb]. unfold on_heartbeat. rewrite Hb.
  cbn [py_and_int]. rewrite <- armed_bit.
  destruct (system_status_name_hashable _ Hh) as [name Hn]. rewrite Hn.
  assert (Hmode : py_or (PStr (mode_string_v10 msg)) (PStr "UNKNOWN")
                  = PStr (if String.eqb (mode_string_v10 msg) "" then "UNKNOWN"
                          else mode_string_v10 msg)).
  { unfold py_or. cbn [py_truthy].
    destruct (String.eqb (mode_string_v10 msg) ""); reflexivity. }
  rewrite Hmode.
  destruct (getattr msg "system_status" PNone) as [|sb|s|f|ss|l|d] eqn:Es;
    try discriminate Hh.
  all: run; try (destruct (Qle_bool (_status_hold_until w) (monotonic w)); run);
    dict_simpl.
  all: repeat split; try reflexivity; try discriminate;
    try (intros s0 Hs0; injection Hs0 as <-; reflexivity).
Qed.

Lemma heartbeat_flags_witness :
  dict_get "armed"
    (state (snd (@handle_message plain_host heartbeat_armed_guided sample_bridge)))
  = PBool true.
Proof.
  apply (@heartbeat_flags plain_host heartbeat_armed_guided sample_bridge 217);
    reflexivity.
Defined.

(** ** What a message may write *)

Lemma reports_plain w st :
  reports w (Ok tt, with_stdout (stdout w ++ [telemetry_line st]) (with_state st w)).
Proof.
  unfold reports. cbn. exists []. cbn. auto.
Qed.

Lemma scaled_returns (v : pyval) (d : Q) : scaled v d <> Diverged.
Proof.
  destruct v as [|b|z|f|s|l|dd]; cbn [scaled py_truediv]; try discriminate.
  unfold float_of_int. destruct (float_overflow <=? Z.abs z)%Z; discriminate.
Qed.

Lemma store_position_cases {host : Host} msg w :
  (exists d, store_position msg w = (Ok tt, with_state d w)) \/
  (exists e d, store_position msg w = (Raise e, with_state d w)).
Proof.
  pose proof (store_position_only_state msg w) as Ho.
  unfold only_state in Ho.
  destruct (store_position msg w) as [[[]|e|] w1] eqn:E; cbn [snd] in Ho.
  - left. exists (state w1). rewrite Ho at 1. reflexivity.
  - right. exists e, (state w1). rewrite Ho at 1. reflexivity.
  - exfalso. revert E. unfold store_position.
    destruct (scaled (getattr msg "lat" PNone) 10000000) as [v1| |] eqn:E1; run;
      try discriminate.
    2: { exfalso. exact (scaled_returns _ _ E1). }
    destruct (scaled (getattr msg "lon" PNone) 10000000) as [v2| |] eqn:E2; run;
      try discriminate.
    2: { exfalso. exact (scaled_returns _ _ E2). }
    destruct (scaled (getattr msg "alt" PNone) 1000) as [v3| |] eqn:E3; run;
      try discriminate.
    2: { exfalso. exact (scaled_returns _ _ E3). }
    destruct (scaled (getattr msg "relative_alt" PNone) 1000) as [v4| |] eqn:E4;
      run; try discriminate.
    exfalso. exact (scaled_returns _ _ E4).
Qed.

Ltac skew_cases :=
  match goal with
  | |- context [if (_debug_timing ?w && ?c)%bool then _ else _] =>
      destruct (_debug_timing w); [destruct c|]; cbn [andb]
  end;
  run;
  first [ exists []; cbn; split; [reflexivity|]; split; [constructor|];
          intros; reflexivity
        | eexists [_]; cbn; rewrite <- app_assoc; split; [reflexivity|];
          split; [repeat constructor|]; intros; discriminate ].

Lemma reconcile_boot_clock_reports {host : Host} msg w :
  reports w (reconcile_boot_clock msg w).
Proof.
  unfold reconcile_boot_clock, reports.
  destruct (getattr msg "time_boot_ms" PNone) as [|b|z|f|s|l|d];
    cbn [is_int_or_float py_int_of_number]; run.
  all: try (exists []; cbn; auto; fail).
  all: try reflexivity.
  - skew_cases.
  - skew_cases.
  - destruct (int_of_float f) as [vb| |] eqn:Ef; run; try reflexivity.
    + skew_cases.
    + exact (int_of_float_returns f Ef).
Qed.

(** X10: a known message that is applied writes one telemetry line, which
    carries the state as the call leaves it, after at most diagnostics; a
    message whose handling raises writes nothing; a message of any other type
    changes nothing. *)
Theorem handle_message_reports {host : Host} (msg : Message) (w : World) :
  if existsb (String.eqb (get_type msg)) MESSAGE_TYPES
  then reports w (handle_message msg w)
  else handle_message msg w = (Ok tt, w).
Proof.
  unfold handle_message. cbn [existsb MESSAGE_TYPES].
  destruct (String.eqb (get_type msg) "HEARTBEAT") eqn:E1; cbn [orb].
  {     unfold on_heartbeat, reports.
    destruct (py_and_int (getattr msg "base_mode" (PInt 0))
                mavlink.MAV_MODE_FLAG_SAFETY_ARMED) as [a|e|] eqn:Ea; run;
      try reflexivity.
    2: { destruct (getattr msg "base_mode" (PInt 0)); discriminate Ea. }
    destruct (getattr msg "system_status" PNone) as [|sb|s|f|ss|l|d] eqn:Es.
    all: try (destruct (system_status_name _) as [name|e|] eqn:En;
              [| |exfalso; revert En; unfold system_status_name;
                  match goal with
                  | |- context [enum_key ?v] =>
                      destruct (enum_key v) as [[k|]| |] eqn:Ek;
                      [destruct (assoc_Z k mavlink.MAV_STATE)| | |]
                  end; try discriminate;
                  match type of Ek with
                  | enum_key (PFloat ?f) = _ =>
                      destruct f as [q| |]; cbn in Ek;
                      try destruct (Qeq_bool q (inject_Z (Qfloor q)));
                      discriminate Ek
                  | _ => discriminate Ek
                  end]).
    all: run; try reflexivity.
    all: try (destruct (Qle_bool (_status_hold_until w) (monotonic w)); run).
    all: exists []; cbn; auto. }
  destruct (String.eqb (get_type msg) "GLOBAL_POSITION_INT") eqn:E2; cbn [orb].
  {     unfold on_global_position_int.
    destruct (store_position_cases msg w) as [[d Hd]|(e & d & Hd)].
    - assert (H : bind (store_position msg) (fun _ => reconcile_boot_clock msg) w
                  = reconcile_boot_clock msg (with_state d w)).
      { unfold bind. rewrite Hd. reflexivity. }
      rewrite H. exact (reconcile_boot_clock_reports msg (with_state d w)).
    - unfold bind. rewrite Hd. reflexivity. }
  destruct (String.eqb (get_type msg) "GPS_RAW_INT") eqn:E3; cbn [orb].
  { unfold on_gps_raw_int, reports.
    pose proof (getattr_wire msg "eph" PNone eq_refl) as Hw.
    destruct (getattr msg "eph" PNone) as [|sb|s|f|ss|l|d] eqn:Es;
      cbn [py_float py_eq_int]; try rewrite (wire_int_exact s Hw);
      run; cbn [kind exc_kind_eqb orb].
    all: try match goal with
             | |- context [if ?c then _ else _] => destruct c
             end; run.
    all: try (destruct (float_of_str ss); run; cbn [kind exc_kind_eqb orb]).
    all: exists []; cbn; auto. }
  destruct (String.eqb (get_type msg) "VFR_HUD") eqn:E4; cbn [orb].
  { destruct (_safe_float_field msg "heading") as [o1 H1].
    destruct (_safe_float_field msg "alt") as [o2 H2].
    destruct (_safe_float_field msg "climb") as [o3 H3].
    rewrite (on_vfr_hud_run msg w o1 o2 o3 H1 H2 H3). apply reports_plain. }
  reflexivity.
Qed.

(** ** GPS_RAW_INT, the position sample, and what the receive side leaves alone *)

(** X11: a decoded GPS_RAW_INT message is always applied: the fix type
    and the satellite count are copied, and the dilution is [eph / 100] when
    [eph] is present, differs from 65535 and converts to a float, and [None]
    otherwise.  ([float(eph)] cannot overflow: a decoded field holds no int
    beyond 32 bits.) *)
Theorem gps_raw_int_applied {host : Host} (msg : Message) (w : World) :
  get_type msg = "GPS_RAW_INT" ->
  let r := handle_message msg w in
  let st := state (snd r) in
  let eph := getattr msg "eph" PNone in
  fst r = Ok tt /\
  dict_get "gps_fix_type" st = getattr msg "fix_type" PNone /\
  dict_get "satellites_visible" st = getattr msg "satellites_visible" PNone /\
  (eph = PNone \/ py_eq_int eph 65535 = true \/ unconvertible eph ->
   dict_get "hdop" st = PNone) /\
  (forall f, eph <> PNone -> py_eq_int eph 65535 = false ->
             py_float eph = Ok f ->
             dict_get "hdop" st = PFloat (fdiv_pos f 100)) /\
  (forall q, number_value eph = Some q -> ~ q == 65535 ->
             exists h, dict_get "hdop" st = PFloat (Fin h) /\ h == q / 100).
Proof.
  intros Ht r st eph. subst r st eph. unfold handle_message. rewrite Ht.
  cbn [String.eqb Ascii.eqb Bool.eqb]. unfold on_gps_raw_int, unconvertible.
  pose proof (getattr_wire msg "eph" PNone eq_refl) as Hw.
  destruct (getattr msg "eph" PNone) as [|sb|s|f|ss|l|d] eqn:Es;
    cbn [py_float py_eq_int number_value]; try rewrite (wire_int_exact s Hw);
    run; cbn [kind exc_kind_eqb orb].
  - dict_simpl. repeat split; try reflexivity; try congruence; discriminate.
  - destruct (Z_of_bool sb =? 65535)%Z eqn:E; run; dict_simpl.
    + repeat split; try reflexivity; try discriminate; try (intros; reflexivity).
      intros q Hq Hne. injection Hq as <-. exfalso. apply Hne.
      apply Z.eqb_eq in E. rewrite E. reflexivity.
    + repeat split; try reflexivity.
      * intros [H|[H|H]]; [discriminate H|discriminate H|].
        exfalso. exact (H _ eq_refl).
      * intros f _ _ Hf. injection Hf as <-. reflexivity.
      * intros q Hq _. injection Hq as <-. eexists. split; [reflexivity|].
        apply Qred_correct.
  - destruct (s =? 65535)%Z eqn:E; run; dict_simpl.
    + repeat split; try reflexivity; try discriminate; try (intros; reflexivity).
      intros q Hq Hne. injection Hq as <-. exfalso. apply Hne.
      apply Z.eqb_eq in E. rewrite E. reflexivity.
    + repeat split; try reflexivity.
      * intros [H|[H|H]]; [discriminate H|discriminate H|].
        exfalso. exact (H _ eq_refl).
      * intros f _ _ Hf. injection Hf as <-. reflexivity.
      * intros q Hq _. injection Hq as <-. eexists. split; [reflexivity|].
        apply Qred_correct.
  - destruct f as [q| |]; cbn [py_eq_int number_value].
    + destruct (Qeq_bool q (inject_Z 65535)) eqn:E; run; dict_simpl.
      * repeat split; try reflexivity; try discriminate; try (intros; reflexivity).
        intros q0 Hq Hne. injection Hq as <-. exfalso. apply Hne.
        apply Qeq_bool_iff in E. exact E.
      * repeat split; try reflexivity.
        -- intros [H|[H|H]]; [discriminate H|discriminate H|].
           exfalso. exact (H _ eq_refl).
        -- intros f _ _ Hf. injection Hf as <-. reflexivity.
        -- intros q0 Hq _. injection Hq as <-. eexists.
           split; [reflexivity|]. apply Qred_correct.
    + run. dict_simpl. repeat split; try reflexivity; try discriminate; try (intros; reflexivity).
      * intros [H|[H|H]]; [discriminate H|discriminate H|].
        exfalso. exact (H _ eq_refl).
      * intros f _ _ Hf. injection Hf as <-. reflexivity.
    + run. dict_simpl. repeat split; try reflexivity; try discriminate; try (intros; reflexivity).
      * intros [H|[H|H]]; [discriminate H|discriminate H|].
        exfalso. exact (H _ eq_refl).
      * intros f _ _ Hf. injection Hf as <-. reflexivity.
  - destruct (float_of_str ss) as [f|] eqn:Ef; run; cbn [kind exc_kind_eqb orb];
      run; dict_simpl.
    + repeat split; try reflexivity; try discriminate; try (intros; reflexivity).
      * intros [H|[H|H]]; [discriminate H|discriminate H|].
        exfalso. exact (H _ eq_refl).
      * intros f0 _ _ Hf. injection Hf as <-. reflexivity.
    + repeat split; try reflexivity; try discriminate; try (intros; reflexivity).
  - run. dict_simpl.
    repeat split; try reflexivity; try discriminate; try (intros; reflexivity).
  - run. dict_simpl.
    repeat split; try reflexivity; try discriminate; try (intros; reflexivity).
Qed.

Lemma gps_raw_int_applied_witness :
  exists h,
    dict_get "hdop"
      (state (snd (@handle_message plain_host gps_fix_report sample_bridge)))
    = PFloat (Fin h) /\ h == 12 # 10.
Proof.
  destruct (@gps_raw_int_applied plain_host gps_fix_report sample_bridge
              eq_refl) as (_ & _ & _ & _ & _ & H).
  destruct (H 120 eq_refl ltac:(discriminate)) as (h & Hh & Hv).
  exists h. split; [exact Hh|]. rewrite Hv. reflexivity.
Defined.

Lemma receiver_view_refl w : receiver_view w w.
Proof. unfold receiver_view. tauto. Qed.

Lemma receiver_view_trans a b c :
  receiver_view a b -> receiver_view b c -> receiver_view a c.
Proof.
  unfold receiver_view. intros H1 H2.
  repeat match goal with H : _ /\ _ |- _ => destruct H end.
  repeat split; congruence.
Qed.

(** X12: whatever the message, and whether handling it returns or raises,
    [handle_message] leaves the link, the status hold, the recorder, the pose
    sample and the clocks as they were. *)
Theorem handle_message_receiver_view {host : Host} (msg : Message) (w : World) :
  receiver_view w (snd (handle_message msg w)).
Proof.
  apply (handle_message_frames receiver_view receiver_view_refl
           receiver_view_trans); intros; unfold receiver_view; cbn; tauto.
Qed.

(** X13: a GLOBAL_POSITION_INT message that is applied leaves a position
    sample that carries the host time and the four position values of the
    state it leaves; without [time_boot_ms] the vehicle-boot-clock
    estimator is untouched and no vehicle timestamp or skew is stored. *)
Theorem position_sample_matches_state {host : Host} (msg : Message) (w : World) :
  get_type msg = "GLOBAL_POSITION_INT" ->
  fst (handle_message msg w) = Ok tt ->
  let w' := snd (handle_message msg w) in
  let st := state w' in
  let now := Qtrunc (wall w * 1000) in
  latest_mav w'
  = mkMav (Some now) (dict_get "lat" st) (dict_get "lon" st)
      (dict_get "alt" st) (dict_get "relative_alt" st) /\
  dict_get "last_gps_host_timestamp" st = PInt now /\
  (getattr msg "time_boot_ms" PNone = PNone ->
   _vehicle_boot_offset w' = _vehicle_boot_offset w /\
   _last_vehicle_boot_ms w' = _last_vehicle_boot_ms w /\
   dict_get "last_gps_vehicle_timestamp" st = PNone /\
   dict_get "last_gps_vehicle_skew_ms" st = PNone).
Proof.
  intros Ht. unfold handle_message. rewrite Ht.
  cbn [String.eqb Ascii.eqb Bool.eqb]. unfold on_global_position_int.
  destruct (store_position_cases msg w) as [[d Hd]|(e & d & Hd)].
  2: { unfold bind. rewrite Hd. discriminate. }
  assert (H : bind (store_position msg) (fun _ => reconcile_boot_clock msg) w
              = reconcile_boot_clock msg (with_state d w)).
  { unfold bind. rewrite Hd. reflexivity. }
  rewrite H. clear H Hd. unfold reconcile_boot_clock.
  destruct (getattr msg "time_boot_ms" PNone) as [|b|z|f|s|l|dd];
    cbn [is_int_or_float py_int_of_number]; run; try discriminate.
  - intros _. dict_simpl. repeat split; reflexivity.
  - match goal with
    | |- context [if (_debug_timing ?w && ?c)%bool then _ else _] =>
        destruct (_debug_timing w); [destruct c|]; cbn [andb]
    end; run; intros _; dict_simpl; repeat split; try reflexivity; discriminate.
  - match goal with
    | |- context [if (_debug_timing ?w && ?c)%bool then _ else _] =>
        destruct (_debug_timing w); [destruct c|]; cbn [andb]
    end; run; intros _; dict_simpl; repeat split; try reflexivity; discriminate.
  - destruct (int_of_float f) as [vb| |]; run; try discriminate.
    match goal with
    | |- context [if (_debug_timing ?w && ?c)%bool then _ else _] =>
        destruct (_debug_timing w); [destruct c|]; cbn [andb]
    end; run; intros _; dict_simpl; repeat split; try reflexivity; discriminate.
Qed.

Lemma position_sample_matches_state_witness :
  let w' := snd (@handle_message plain_host (position_report 5000)
                   sample_bridge) in
  mav_rel (latest_mav w') = dict_get "relative_alt" (state w').
Proof.
  intros w'.
  destruct (@position_sample_matches_state plain_host (position_report 5000)
              sample_bridge eq_refl ltac:(vm_compute; reflexivity))
    as (H & _ & _).
  fold w' in H. rewrite H. reflexivity.
Defined.

(** ** Messages keep the schema *)

Lemma keeps_schema_refl w : keeps_schema w w.
Proof. intros H. exact H. Qed.

Lemma keeps_schema_trans a b c :
  keeps_schema a b -> keeps_schema b c -> keeps_schema a c.
Proof. unfold keeps_schema. auto. Qed.

Lemma keeps_schema_set k v w :
  write_ok k v = true ->
  keeps_schema w (with_state (dict_set k v (state w)) w).
Proof. intros H Hw. apply well_typed_set; assumption. Qed.

Lemma keeps_schema_quiet (f : World -> World) w :
  state (f w) = state w -> keeps_schema w (f w).
Proof. unfold keeps_schema, well_typed. intros ->. auto. Qed.

Section BindRules.

Variable R : World -> World -> Prop.

Hypothesis R_refl : forall w, R w w.

Lemma frames_bind_lift {A B} (r : res A) (k : A -> M B) :
  (forall a, r = Ok a -> frames R (k a)) -> frames R (bind (lift r) k).
Proof.
  intros H w. unfold bind, lift. destruct r as [a|e|]; cbn [snd];
    [apply (H a eq_refl) | apply R_refl | apply R_refl].
Qed.

Lemma frames_bind_ret {A B} (a : A) (k : A -> M B) :
  frames R (k a) -> frames R (bind (ret a) k).
Proof. intros H w. apply H. Qed.

Lemma frames_bind_raise {A B} kd msg (k : A -> M B) :
  frames R (bind (raise kd msg) k).
Proof. intros w. apply R_refl. Qed.

End BindRules.

Lemma scaled_type raw d v : scaled raw d = Ok v -> has_type OptFloat v = true.
Proof.
  unfold scaled.
  destruct raw as [|b|z|f|s|l|dd]; cbn [py_truediv];
    try destruct (float_of_int z); intros H; inversion H; reflexivity.
Qed.

Lemma opt_float_type o : has_type OptFloat (opt_float o) = true.
Proof. destruct o; reflexivity. Qed.

Lemma opt_int_type o : has_type OptInt (opt_int o) = true.
Proof. destruct o; reflexivity. Qed.

Ltac schema_close :=
  apply keeps_schema_set; unfold write_ok; cbn [assoc_str STATE_SCHEMA String.eqb Ascii.eqb Bool.eqb];
  first [ reflexivity | apply opt_float_type | apply opt_int_type
        | eapply scaled_type; eassumption ].

Ltac schema_step :=
  match goal with
  | |- frames _ (bind (match ?x with _ => _ end) _) => destruct x
  | |- frames _ (bind (if ?b then _ else _) _) => destruct b
  | |- frames _ (bind (ret _) _) => apply frames_bind_ret
  | |- frames _ (bind (raise _ _) _) =>
      apply frames_bind_raise; apply keeps_schema_refl
  | |- frames _ (bind (lift _) _) =>
      apply frames_bind_lift; [apply keeps_schema_refl | intros ? ?]
  | _ => frame_step
  end.

Lemma on_heartbeat_keeps_schema {host : Host} msg :
  frames keeps_schema (on_heartbeat msg).
Proof.
  intros w Hw. unfold on_heartbeat.
  assert (Hmode : write_ok "mode" (py_or (PStr (mode_string_v10 msg))
                                     (PStr "UNKNOWN")) = true).
  { unfold py_or. cbn [py_truthy].
    destruct (String.eqb (mode_string_v10 msg) "") eqn:E; cbn [negb];
      [reflexivity|]. unfold write_ok. cbn. rewrite E. reflexivity. }
  destruct (py_and_int (getattr msg "base_mode" (PInt 0))
              mavlink.MAV_MODE_FLAG_SAFETY_ARMED) as [a|e|]; run;
    try exact Hw.
  destruct (getattr msg "system_status" PNone) as [|sb|s|f|ss|l|d].
  all: try (destruct (system_status_name _) as [name|e|]); run.
  all: try (destruct (Qle_bool (_status_hold_until w) (monotonic w)); run).
  all: dict_simpl.
  all: unfold well_typed; cbn [state with_state with_stdout].
  all: repeat (eapply conforms_set;
               [ | reflexivity
                 | first [ reflexivity | exact Hmode ] ]).
  all: exact Hw.
Qed.

Lemma handle_message_keeps_schema {host : Host} msg w :
  keeps_schema w (snd (handle_message msg w)).
Proof.
  revert w. change (frames keeps_schema (handle_message msg)).
  pose proof keeps_schema_refl as R_refl.
  pose proof keeps_schema_trans as R_trans.
  unfold handle_message.
  destruct (String.eqb (get_type msg) "HEARTBEAT");
    [apply on_heartbeat_keeps_schema|].
  unfold on_global_position_int, store_position, reconcile_boot_clock,
    on_gps_raw_int, on_vfr_hud.
  repeat (schema_step;
          try first [ schema_close
                    | apply keeps_schema_quiet; reflexivity ]).
Qed.

(** ** Sequences of calls *)


(** [execute_command] adds lines to what [handle_command] leaves, and
    nothing else. *)
Lemma execute_command_world {host : Host} payload w :
  exists lines,
    snd (execute_command payload w)
    = with_stdout (stdout (snd (handle_command payload w)) ++ lines)
        (snd (handle_command payload w)).
Proof.
  assert (Hid : forall w0 : World, w0 = with_stdout (stdout w0 ++ []) w0).
  { intros w0. rewrite app_nil_r. destruct w0; reflexivity. }
  unfold execute_command.
  destruct (dict_get "type" payload) as [|b|z|f|s|l|d] eqn:Et;
    cbn [result_type_of].
  6,7: (exists []; unfold handle_command; rewrite Et; cbn [py_is_str]; run;
        apply Hid).
  all: unfold bind at 1; unfold lift at 1; cbv beta iota;
    unfold try_except, bind;
    destruct (handle_command payload w) as [[v|e|] w1]; cbn [snd fst].
  all: try match goal with
           | |- context [assoc_str ?s RESULT_TYPES] =>
               destruct (assoc_str s RESULT_TYPES)
           end.
  all: run.
  all: try (exists []; apply Hid).
  all: try (eexists [_]; reflexivity).
  all: try (eexists [_; _]; rewrite <- app_assoc; reflexivity).
Qed.


Lemma after_calls_invariant {host : Host} (P : World -> Prop) :
  (forall payload w, P w -> P (snd (execute_command payload w))) ->
  (forall msg w, P w -> P (snd (handle_message msg w))) ->
  forall cs w, P w -> P (after_calls cs w).
Proof.
  intros Hc Hm cs. unfold after_calls.
  induction cs as [|c cs IH]; intros w Hw; cbn [fold_left]; [exact Hw|].
  apply IH. destruct c; cbn [after_call]; auto.
Qed.


(** ** The recorder across commands *)

Lemma recorder_kept_refl w : recorder_kept w w.
Proof. split; reflexivity. Qed.

Lemma recorder_kept_trans a b c :
  recorder_kept a b -> recorder_kept b c -> recorder_kept a c.
Proof. intros [H1 H2] [H3 H4]. split; congruence. Qed.

Lemma handle_message_recorder_kept {host : Host} msg w :
  recorder_kept w (snd (handle_message msg w)).
Proof.
  apply (handle_message_frames recorder_kept recorder_kept_refl
           recorder_kept_trans); intros; split; reflexivity.
Qed.

Lemma set_mode_recorder_kept {host : Host} name :
  frames recorder_kept (set_mode name).
Proof.
  apply (set_mode_frames recorder_kept recorder_kept_refl recorder_kept_trans);
    intros; split; reflexivity.
Qed.

Lemma takeoff_sequence_recorder_kept {host : Host} altitude :
  frames recorder_kept (takeoff_sequence altitude).
Proof.
  apply (takeoff_sequence_frames recorder_kept recorder_kept_refl
           recorder_kept_trans);
    intros; first [apply handle_message_recorder_kept | split; reflexivity].
Qed.

(** What a command does to the recorder. *)
Lemma handle_command_recorder {host : Host} payload w :
  let w' := snd (handle_command payload w) in
  if command_is payload "csv_start" then
    logging_active w' = true /\ csv_rows w' = []
  else if command_is payload "csv_stop" then
    logging_active w' = false /\
    csv_rows w' = (if logging_active w then [] else csv_rows w)
  else
    logging_active w' = logging_active w /\
    exists rows,
      csv_rows w' = (csv_rows w ++ rows)%list /\
      Forall complete_row rows /\
      length rows
      = if command_is payload "slam_pose"
           && pose_accepted (dict_get "data" payload) && logging_active w
        then 1%nat else 0%nat.
Proof.
  assert (Hnone : forall w0 : World,
             logging_active w0 = logging_active w0 /\
             exists rows, csv_rows w0 = (csv_rows w0 ++ rows)%list /\
                          Forall complete_row rows /\ length rows = 0%nat).
  { intros w0. split; [reflexivity|]. exists []. rewrite app_nil_r. auto. }
  assert (Hkept : forall w0 w1 : World,
             recorder_kept w0 w1 ->
             logging_active w1 = logging_active w0 /\
             exists rows, csv_rows w1 = (csv_rows w0 ++ rows)%list /\
                          Forall complete_row rows /\ length rows = 0%nat).
  { intros w0 w1 [H1 H2]. split; [exact H1|]. exists [].
    rewrite app_nil_r. auto. }
  unfold command_is, handle_command.
  destruct (dict_get "type" payload) as [|b|z|f|s|l|d] eqn:Et;
    cbn [py_is_str andb]; try (run; apply Hnone).
  destruct (String.eqb_spec s "csv_start") as [->|N1].
  { cbn. unfold start_csv_logging, update_status. run. auto. }
  destruct (String.eqb_spec s "csv_stop") as [->|N2].
  { cbn [String.eqb Ascii.eqb Bool.eqb]. unfold stop_csv_logging. run.
    destruct (logging_active w) eqn:Ha; run; auto. }
  destruct (String.eqb_spec s "set_mode") as [->|N3].
  { cbn [andb]. apply Hkept.
    pose proof recorder_kept_refl. pose proof recorder_kept_trans.
    revert w. match goal with |- forall w, recorder_kept w (snd (?c w)) =>
                change (frames recorder_kept c) end.
    repeat frame_step. apply set_mode_recorder_kept. }
  destruct (String.eqb_spec s "takeoff") as [->|N4].
  { cbn [andb]. apply Hkept.
    pose proof recorder_kept_refl. pose proof recorder_kept_trans.
    revert w. match goal with |- forall w, recorder_kept w (snd (?c w)) =>
                change (frames recorder_kept c) end.
    repeat frame_step. apply takeoff_sequence_recorder_kept. }
  destruct (String.eqb_spec s "slam_pose") as [->|N5].
  2: { cbn [andb]. run. apply Hnone. }
  cbn [andb].
  pose proof (store_slam_pose_outcome (dict_get "data" payload) w) as Hp.
  cbv zeta in Hp.
  assert (Hsnd : snd (bind (store_slam_pose (dict_get "data" payload))
                        (fun _ => ret PNone) w)
                 = snd (store_slam_pose (dict_get "data" payload) w)).
  { unfold bind, ret.
    destruct (store_slam_pose (dict_get "data" payload) w) as [[[]|e|] w1];
      reflexivity. }
  rewrite Hsnd.
  destruct (pose_accepted (dict_get "data" payload)).
  - destruct Hp as (_ & ts & x & y & z & _ & _ & _ & _ & _ & Hact & Hrows & _).
    split; [exact Hact|]. eexists. split; [exact Hrows|].
    destruct (logging_active w); cbn; split; auto.
    constructor; [|constructor]. unfold complete_row. repeat eexists.
  - rewrite Hp. apply Hnone.
Qed.

Lemma execute_command_recorder {host : Host} payload w :
  logging_active (snd (execute_command payload w))
  = logging_active (snd (handle_command payload w)) /\
  csv_rows (snd (execute_command payload w))
  = csv_rows (snd (handle_command payload w)).
Proof.
  destruct (execute_command_world payload w) as [lines ->].
  split; reflexivity.
Qed.

Lemma execute_command_recorder_ok {host : Host} payload w :
  recorder_ok w -> recorder_ok (snd (execute_command payload w)).
Proof.
  intros [Hrows Hidle]. unfold recorder_ok.
  destruct (execute_command_recorder payload w) as [-> ->].
  pose proof (handle_command_recorder payload w) as H. cbv zeta in H.
  destruct (command_is payload "csv_start").
  { destruct H as [_ ->]. split; [constructor | reflexivity]. }
  destruct (command_is payload "csv_stop").
  { destruct H as [Ha ->]. destruct (logging_active w) eqn:E.
    - split; [constructor | reflexivity].
    - split; [exact Hrows | intros _; apply Hidle; reflexivity]. }
  destruct H as (-> & rows & -> & Hc & Hl). split.
  - apply Forall_app. split; assumption.
  - intros Hoff. rewrite Hoff, andb_false_r in Hl.
    destruct rows; [|discriminate Hl]. rewrite app_nil_r. apply Hidle, Hoff.
Qed.

Lemma handle_message_recorder_ok {host : Host} msg w :
  recorder_ok w -> recorder_ok (snd (handle_message msg w)).
Proof.
  unfold recorder_ok. destruct (handle_message_recorder_kept msg w) as [-> ->].
  auto.
Qed.

(** X15: whatever calls a new bridge has served, every row it holds has the
    ten columns with the two times and the position filled in, and it holds
    rows only while a session is active. *)
Theorem recorder_invariant {host : Host} (cs : list Call) (link : option Link)
    (debug : bool) (wall0 mono0 : Q) (sched : nat -> Interference) :
  let w := after_calls cs (new_bridge link debug wall0 mono0 sched) in
  Forall complete_row (csv_rows w) /\
  (logging_active w = false -> csv_rows w = []).
Proof.
  apply (after_calls_invariant recorder_ok).
  - apply execute_command_recorder_ok.
  - apply handle_message_recorder_ok.
  - split; [constructor | reflexivity].
Qed.

Lemma calls_in_session {host : Host} cs w :
  forallb in_session cs = true ->
  let w' := after_calls cs w in
  logging_active w' = logging_active w /\
  exists rows,
    csv_rows w' = (csv_rows w ++ rows)%list /\
    Forall complete_row rows /\
    length rows
    = if logging_active w then length (filter records cs) else 0%nat.
Proof.
  revert w. induction cs as [|c cs IH]; intros w Hs; cbn [forallb] in Hs.
  - cbn. split; [reflexivity|]. exists []. rewrite app_nil_r.
    destruct (logging_active w); auto.
  - apply andb_prop in Hs. destruct Hs as [Hc Hs].
    cbv zeta. unfold after_calls. cbn [fold_left].
    fold (after_calls cs (after_call c w)).
    destruct (IH (after_call c w) Hs) as (Ha & rows & Hr & Hf & Hl).
    assert (Hstep : logging_active (after_call c w) = logging_active w /\
                    exists r1, csv_rows (after_call c w)
                               = (csv_rows w ++ r1)%list /\
                               Forall complete_row r1 /\
                               length r1 = if records c && logging_active w
                                           then 1%nat else 0%nat).
    { destruct c as [payload|msg]; cbn [after_call in_session records] in *.
      - destruct (execute_command_recorder payload w) as [-> ->].
        pose proof (handle_command_recorder payload w) as H. cbv zeta in H.
        destruct (command_is payload "csv_start"); [discriminate Hc|].
        destruct (command_is payload "csv_stop"); [discriminate Hc|].
        exact H.
      - destruct (handle_message_recorder_kept msg w) as [-> ->].
        split; [reflexivity|]. exists []. rewrite app_nil_r. auto. }
    destruct Hstep as (Ha1 & r1 & Hr1 & Hf1 & Hl1).
    split; [congruence|]. exists (r1 ++ rows)%list.
    rewrite Hr, Hr1, app_assoc. split; [reflexivity|].
    split; [apply Forall_app; auto|].
    rewrite length_app, Hl, Hl1, Ha1. cbn [filter].
    destruct (logging_active w); [|rewrite andb_false_r; reflexivity].
    rewrite andb_true_r. destruct (records c); reflexivity.
Qed.

(** X16: a session that starts with a [csv_start] command holds, after any
    calls that are no [csv_start] or [csv_stop], one row for each accepted
    pose command since, whatever it held before and whatever else was
    called in between. *)
Theorem session_rows {host : Host} (start : dict) (cs : list Call) (w : World) :
  command_is start "csv_start" = true ->
  forallb in_session cs = true ->
  let w' := after_calls (call_execute_command start :: cs) w in
  logging_active w' = true /\
  length (csv_rows w') = length (filter records cs) /\
  Forall complete_row (csv_rows w').
Proof.
  intros Hstart Hcs. cbv zeta. unfold after_calls. cbn [fold_left after_call].
  fold (after_calls cs (snd (execute_command start w))).
  destruct (execute_command_recorder start w) as [Ha Hr].
  pose proof (handle_command_recorder start w) as H. cbv zeta in H.
  rewrite Hstart in H. destruct H as [Ha' Hr']. rewrite Ha' in Ha.
  rewrite Hr' in Hr.
  destruct (calls_in_session cs (snd (execute_command start w)) Hcs)
    as (Hb & rows & Hrows & Hf & Hl).
  rewrite Ha in Hb, Hl. rewrite Hr in Hrows. cbn [app] in Hrows.
  rewrite Hrows. auto.
Qed.

Lemma session_rows_witness :
  let w' := @after_calls plain_host
              (call_execute_command csv_start_request :: session_calls)
              sample_bridge in
  logging_active w' = true /\
  length (csv_rows w') = 2%nat /\
  Forall complete_row (csv_rows w').
Proof.
  apply (@session_rows plain_host csv_start_request session_calls
           sample_bridge); reflexivity.
Defined.

(** ** How a takeoff can fail *)

Lemma typed_link_kept_refl w : typed_link_kept w w.
Proof. split; [apply keeps_schema_refl | reflexivity]. Qed.

Lemma typed_link_kept_trans a b c :
  typed_link_kept a b -> typed_link_kept b c -> typed_link_kept a c.
Proof.
  intros [H1 H2] [H3 H4]. split; [eapply keeps_schema_trans; eauto|congruence].
Qed.

Lemma raises_only_bind {A B} K (c : M A) (k : A -> M B) :
  raises_only K c -> (forall a, raises_only K (k a)) ->
  raises_only K (bind c k).
Proof.
  intros Hc Hk w Hw. unfold bind. destruct (Hc w Hw) as (H1 & Hm & H2).
  destruct (c w) as [[a|e|] w1]; cbn [fst snd] in *.
  - destruct (Hk a w1 H1) as (H3 & Hm3 & H4). rewrite <- Hm. auto.
  - split; [exact H1|]. split; [exact Hm|]. intros e0 He. injection He as <-.
    apply H2. reflexivity.
  - split; [exact H1|]. split; [exact Hm|]. intros e0 He. discriminate He.
Qed.

Lemma raises_only_weaken {A} (K K' : option Link -> list exc_kind) (c : M A) :
  (forall m, incl (K m) (K' m)) -> raises_only K c -> raises_only K' c.
Proof.
  intros Hi Hc w Hw. destruct (Hc w Hw) as (H1 & Hm & H2). split; [exact H1|].
  split; [exact Hm|]. intros e He. apply Hi, H2, He.
Qed.

Lemma raises_only_returns {A} K (c : M A) :
  frames typed_link_kept c -> (forall w, exists a, fst (c w) = Ok a) ->
  raises_only K c.
Proof.
  intros Hf Hr w Hw. destruct (Hf w) as [H1 H2]. split; [apply H1, Hw|].
  split; [exact H2|]. intros e He.
  destruct (Hr w) as [a Ha]. rewrite Ha in He. discriminate He.
Qed.

Section TakeoffFailures.

Context {host : Host}.

Lemma handle_message_typed_link_kept msg w :
  typed_link_kept w (snd (handle_message msg w)).
Proof.
  split; [apply handle_message_keeps_schema|].
  apply (handle_message_executor_view msg w).
Qed.

Ltac kept_close :=
  intros;
  first [ apply handle_message_typed_link_kept
        | split; [ first [ apply keeps_schema_set; assumption
                         | apply keeps_schema_quiet; reflexivity ]
                 | reflexivity ] ].

Lemma update_status_raises_only K text hold :
  raises_only K (update_status text hold).
Proof.
  apply raises_only_returns.
  - apply (update_status_frames typed_link_kept typed_link_kept_refl
             typed_link_kept_trans); kept_close.
  - intros w. exists tt. apply (update_status_spec text hold w).
Qed.

Lemma sleep_raises_only K i : raises_only K (sleep i).
Proof.
  apply raises_only_returns.
  - apply (sleep_frames typed_link_kept typed_link_kept_refl
             typed_link_kept_trans); kept_close.
  - intros w. exists tt. reflexivity.
Qed.

Lemma wait_loop_raises_only K budget predicate end_time description i :
  (forall m, In TimeoutError (K m)) ->
  raises_only K predicate ->
  raises_only K (wait_loop budget predicate end_time description i).
Proof.
  intros Ht Hp. induction budget as [|b IH]; intros w Hw; cbn [wait_loop].
  - destruct (Qle_bool (monotonic w) end_time); cbn [fst snd raise].
    + split; [exact Hw|]. split; [reflexivity|]. intros e He. discriminate He.
    + split; [exact Hw|]. split; [reflexivity|].
      intros e He. injection He as <-. apply Ht.
  - destruct (Qle_bool (monotonic w) end_time).
    2: { cbn [fst snd raise]. split; [exact Hw|]. split; [reflexivity|].
         intros e He. injection He as <-. apply Ht. }
    revert w Hw.
    change (raises_only K
              (bind predicate
                 (fun b0 : bool =>
                    if b0 then ret tt
                    else bind (sleep i)
                           (fun _ => wait_loop b predicate end_time
                                       description i)))).
    apply raises_only_bind; [exact Hp|].
    intros [|].
    + intros w Hw. split; [exact Hw|]. split; [reflexivity|].
      intros e He. discriminate He.
    + apply raises_only_bind; [apply sleep_raises_only | intros _; exact IH].
Qed.

Lemma wait_until_raises_only K predicate timeout description i :
  (forall m, In TimeoutError (K m)) ->
  raises_only K predicate ->
  raises_only K (wait_until predicate timeout description i).
Proof.
  intros Ht Hp w. unfold wait_until. apply wait_loop_raises_only; assumption.
Qed.

Lemma mode_is_guided_raises_only K : raises_only K mode_is_guided.
Proof.
  intros w Hw. destruct (mode_is_guided_pure w) as [Hs _]. rewrite Hs.
  split; [exact Hw|]. split; [reflexivity|]. intros e.
  unfold mode_is_guided. run.
  pose proof (conforms_get _ _ "mode" ModeName Hw eq_refl) as Ht.
  destruct (dict_get "mode" (state w)) as [| | | |s| |]; try discriminate Ht.
  unfold py_or. cbn [py_truthy]. cbn [has_type] in Ht. rewrite Ht.
  discriminate.
Qed.

Lemma state_flag_raises_only K k : raises_only K (state_flag k).
Proof.
  intros w Hw. destruct (state_flag_pure k w) as [Hs _]. rewrite Hs.
  split; [exact Hw|]. split; [reflexivity|]. intros e.
  unfold state_flag. run. discriminate.
Qed.

Lemma altitude_reached_raises_only K altitude :
  raises_only K (altitude_reached altitude).
Proof.
  intros w Hw. destruct (altitude_reached_pure altitude w) as [Hs _].
  rewrite Hs. split; [exact Hw|]. split; [reflexivity|]. intros e.
  unfold altitude_reached. run.
  pose proof (conforms_get _ _ "relative_alt" OptFloat Hw eq_refl) as Ht.
  destruct (dict_get "relative_alt" (state w)) as [| | |f| | |];
    try discriminate Ht; unfold py_or; cbn [py_truthy py_ge_float].
  - discriminate.
  - destruct f as [q| |]; [destruct (negb (Qeq_bool q 0))|..];
      cbn [py_ge_float]; discriminate.
Qed.

Lemma set_mode_raises_only name :
  raises_only (failures [RuntimeError] [ValueError]) (set_mode name).
Proof.
  intros w Hw.
  destruct (set_mode_frames typed_link_kept typed_link_kept_refl
              typed_link_kept_trans ltac:(kept_close) name w) as [H1 H2].
  split; [apply H1, Hw|]. split; [exact H2|].
  intros e. unfold set_mode. run. destruct (master w) as [link|]; run.
  2: { intros He. injection He as <-. cbn. auto. }
  destruct (String.eqb name ""); run.
  { intros He. injection He as <-. cbn. auto. }
  destruct (assoc_str name _); run.
  + discriminate.
  + intros He. injection He as <-. cbn. auto.
Qed.

Lemma arm_raises_only b : raises_only (failures [RuntimeError] []) (arm b).
Proof.
  intros w Hw.
  destruct (arm_frames typed_link_kept typed_link_kept_refl
              typed_link_kept_trans ltac:(kept_close) b w) as [H1 H2].
  split; [apply H1, Hw|]. split; [exact H2|].
  intros e. unfold arm. run. destruct (master w) as [link|]; run.
  + discriminate.
  + intros He. injection He as <-. cbn. auto.
Qed.

Lemma send_takeoff_command_raises_only a :
  raises_only (failures [RuntimeError] []) (send_takeoff_command a).
Proof.
  intros w Hw.
  destruct (send_takeoff_command_frames typed_link_kept typed_link_kept_refl
              typed_link_kept_trans ltac:(kept_close) a w) as [H1 H2].
  split; [apply H1, Hw|]. split; [exact H2|].
  intros e. unfold send_takeoff_command. run.
  destruct (master w) as [link|]; run.
  + discriminate.
  + intros He. injection He as <-. cbn. auto.
Qed.

Lemma bind_gets {A B} (f : World -> A) (k : A -> M B) w :
  bind (gets f) k w = k (f w) w.
Proof. reflexivity. Qed.

Lemma takeoff_sequence_raises_only altitude :
  raises_only (failures [RuntimeError] [ValueError; TimeoutError])
    (takeoff_sequence altitude).
Proof.
  intros w Hw. unfold takeoff_sequence. rewrite bind_gets.
  destruct (master w) as [link|] eqn:Hm.
  2: { cbn [fst snd raise]. split; [exact Hw|]. split; [exact Hm|].
       intros e He. injection He as <-. cbn. auto. }
  match goal with
  | |- well_typed (snd (?c w)) /\ _ =>
      assert (Hall : raises_only
                       (failures [RuntimeError; ValueError; TimeoutError]
                          [ValueError; TimeoutError]) c)
  end.
  { repeat match goal with
           | |- raises_only _ (bind _ _) =>
               apply raises_only_bind; [|intros _]
           end.
    all: first
           [ apply update_status_raises_only
           | apply (raises_only_weaken (failures [RuntimeError] [ValueError]));
             [intros [l|] x Hx; cbn in *; tauto | apply set_mode_raises_only]
           | apply (raises_only_weaken (failures [RuntimeError] []));
             [intros [l|] x Hx; cbn in *; tauto
             | first [apply arm_raises_only
                     | apply send_takeoff_command_raises_only]]
           | apply wait_until_raises_only;
             [ intros [l|]; cbn; tauto
             | first [ apply mode_is_guided_raises_only
                     | apply state_flag_raises_only
                     | apply altitude_reached_raises_only ] ] ]. }
  specialize (Hall w Hw). rewrite Hm in Hall. exact Hall.
Qed.

End TakeoffFailures.

(** X17: in a bridge whose state dict follows the schema, a takeoff that
    fails raises a RuntimeError when there is no link and otherwise a
    ValueError (the mode GUIDED is not supported) or a TimeoutError: the
    polls of the mode, of the flags and of the altitude never fail on what
    the state holds.  (The link of the model stays as it is during the
    takeoff and takes every message handed to it.) *)
Theorem takeoff_failure_kinds {host : Host} (altitude : pyfloat) (w : World)
    (e : exc) :
  well_typed w ->
  fst (takeoff_sequence altitude w) = Raise e ->
  match master w with
  | None => kind e = RuntimeError
  | Some _ => kind e = ValueError \/ kind e = TimeoutError
  end.
Proof.
  intros Hw He.
  destruct (takeoff_sequence_raises_only altitude w Hw) as (_ & _ & Hk).
  specialize (Hk e He). destruct (master w); cbn in Hk; intuition congruence.
Qed.

Lemma takeoff_failure_kinds_witness :
  kind (mkExc TimeoutError "Timed out waiting for mode GUIDED") = ValueError \/
  kind (mkExc TimeoutError "Timed out waiting for mode GUIDED") = TimeoutError.
Proof.
  apply (@takeoff_failure_kinds plain_host (Fin 20) sample_bridge
           (mkExc TimeoutError "Timed out waiting for mode GUIDED")).
  - vm_compute. reflexivity.
  - vm_compute. reflexivity.
Defined.

(** ** The altitude of a takeoff, and [_safe_float] *)

Lemma py_float_within {host : Host} (v : pyval) (f : pyfloat) :
  py_float v = Ok f -> beyond_float v = false.
Proof.
  destruct v as [|b|z|g|s|l|d]; try reflexivity.
  cbn [py_float beyond_float]. unfold float_of_int.
  destruct (float_overflow <=? Z.abs z)%Z; [discriminate | reflexivity].
Qed.

Lemma takeoff_altitude_run {host : Host} (payload : dict) (w : World) :
  command_is payload "takeoff" = true ->
  handle_command payload w
  = if beyond_float (dict_get "altitude" payload)
    then (Raise (mkExc OverflowError "int too large to convert to float"), w)
    else
      let f := match py_float (dict_get "altitude" payload) with
               | Ok f => f
               | _ => Fin 30
               end in
      (takeoff_sequence (if fgt0 f then f else Fin 30) ;; ret PNone) w.
Proof.
  unfold command_is, handle_command.
  destruct (dict_get "type" payload) as [|b|z|f|s|l|d]; cbn [py_is_str];
    try discriminate.
  intros Hs. apply String.eqb_eq in Hs. subst s.
  cbn [String.eqb Ascii.eqb Bool.eqb].
  unfold bind at 1. rewrite altitude_value_run.
  destruct (beyond_float (dict_get "altitude" payload)); reflexivity.
Qed.

Lemma fgt0_positive (q : Q) : 0 < q -> fgt0 (Fin q) = true.
Proof.
  intros H. cbn [fgt0]. destruct (Qle_bool q 0) eqn:E; [|reflexivity].
  apply Qle_bool_iff in E. exfalso. exact (Qlt_not_le _ _ H E).
Qed.

Lemma fgt0_not_positive (q : Q) : q <= 0 -> fgt0 (Fin q) = false.
Proof.
  intros H. cbn [fgt0]. apply Qle_bool_iff in H. rewrite H. reflexivity.
Qed.

(** X18: the altitude of a takeoff command.  A finite number above zero, and
    plus infinity, is the altitude the takeoff climbs to; zero, a negative
    number, minus infinity and NaN give 30 m, and so does an altitude that
    is missing or that [float] refuses with [TypeError] or [ValueError];
    an int beyond the floats fails the command with the [OverflowError] of
    [float], which line 186 does not catch, before anything is done. *)
Theorem takeoff_altitude_default {host : Host} (payload : dict) (w : World) :
  command_is payload "takeoff" = true ->
  let altitude := dict_get "altitude" payload in
  let climbs_to a :=
    handle_command payload w = (takeoff_sequence a ;; ret PNone) w in
  (forall q, py_float altitude = Ok (Fin q) -> 0 < q -> climbs_to (Fin q)) /\
  (py_float altitude = Ok (Inf false) -> climbs_to (Inf false)) /\
  (forall q, py_float altitude = Ok (Fin q) -> q <= 0 -> climbs_to (Fin 30)) /\
  (py_float altitude = Ok NaN \/ py_float altitude = Ok (Inf true) ->
   climbs_to (Fin 30)) /\
  (forall e, py_float altitude = Raise e ->
             kind e = TypeError \/ kind e = ValueError ->
             climbs_to (Fin 30)) /\
  (forall z, altitude = PInt z -> (2 ^ 1024 - 2 ^ 970 <= Z.abs z)%Z ->
             handle_command payload w
             = (Raise (mkExc OverflowError "int too large to convert to float"),
                w)).
Proof.
  intros Hc altitude climbs_to. subst climbs_to. cbv beta.
  pose proof (takeoff_altitude_run payload w Hc) as Hrun. fold altitude in Hrun.
  split; [|split; [|split; [|split; [|split]]]].
  - intros q Hq Hpos. rewrite Hrun, (py_float_within _ _ Hq), Hq. cbv zeta.
    rewrite (fgt0_positive q Hpos). reflexivity.
  - intros Hq. rewrite Hrun, (py_float_within _ _ Hq), Hq. reflexivity.
  - intros q Hq Hneg. rewrite Hrun, (py_float_within _ _ Hq), Hq. cbv zeta.
    rewrite (fgt0_not_positive q Hneg). reflexivity.
  - intros [Hq|Hq]; rewrite Hrun, (py_float_within _ _ Hq), Hq; reflexivity.
  - intros e He Hk. rewrite Hrun.
    destruct (beyond_float altitude) eqn:Hb; [|rewrite He; reflexivity].
    exfalso. destruct altitude as [|b|z|f|s|l|d]; try discriminate Hb.
    cbn [py_float beyond_float] in He, Hb. unfold float_of_int in He.
    rewrite Hb in He. injection He as <-. cbn in Hk.
    destruct Hk; discriminate.
  - intros z Hz Hbig. rewrite Hrun, Hz. cbn [beyond_float].
    apply Z.leb_le in Hbig. unfold float_overflow. rewrite Hbig. reflexivity.
Qed.

Lemma takeoff_altitude_default_witness :
  let climbs_to altitude a :=
    @handle_command plain_host (takeoff_request_for altitude) sample_bridge
    = (@takeoff_sequence plain_host a ;; ret PNone) sample_bridge in
  climbs_to (PInt 20) (Fin 20) /\
  climbs_to (PStr "12.5") (Fin (25 # 2)) /\
  climbs_to (PInt 0) (Fin 30) /\
  climbs_to (PFloat (Fin (-5))) (Fin 30) /\
  climbs_to (PFloat NaN) (Fin 30) /\
  climbs_to PNone (Fin 30) /\
  climbs_to (PStr "high") (Fin 30) /\
  @handle_command plain_host (takeoff_request_for (PInt (10 ^ 400)))
    sample_bridge
  = (Raise (mkExc OverflowError "int too large to convert to float"),
     sample_bridge).
Proof.
  cbv zeta.
  split; [|split; [|split; [|split; [|split; [|split; [|split]]]]]].
  - apply (proj1 (@takeoff_altitude_default plain_host
                    (takeoff_request_for (PInt 20)) sample_bridge eq_refl)
             20 eq_refl).
    reflexivity.
  - apply (proj1 (@takeoff_altitude_default plain_host
                    (takeoff_request_for (PStr "12.5")) sample_bridge eq_refl)
             (25 # 2)).
    + vm_compute. reflexivity.
    + reflexivity.
  - apply (proj1 (proj2 (proj2 (@takeoff_altitude_default plain_host
                    (takeoff_request_for (PInt 0)) sample_bridge eq_refl)))
             0 eq_refl).
    discriminate.
  - apply (proj1 (proj2 (proj2 (@takeoff_altitude_default plain_host
                    (takeoff_request_for (PFloat (Fin (-5)))) sample_bridge
                    eq_refl)))
             (-5) eq_refl).
    discriminate.
  - apply (proj1 (proj2 (proj2 (proj2 (@takeoff_altitude_default plain_host
                    (takeoff_request_for (PFloat NaN)) sample_bridge
                    eq_refl))))).
    left. reflexivity.
  - apply (proj1 (proj2 (proj2 (proj2 (proj2 (@takeoff_altitude_default
                    plain_host (takeoff_request_for PNone) sample_bridge
                    eq_refl)))))
             (mkExc TypeError
                "float() argument must be a string or a real number")
             eq_refl).
    left. reflexivity.
  - apply (proj1 (proj2 (proj2 (proj2 (proj2 (@takeoff_altitude_default
                    plain_host (takeoff_request_for (PStr "high"))
                    sample_bridge eq_refl)))))
             (mkExc ValueError "could not convert string to float")).
    + vm_compute. reflexivity.
    + right. reflexivity.
  - apply (proj2 (proj2 (proj2 (proj2 (proj2 (@takeoff_altitude_default
                    plain_host (takeoff_request_for (PInt (10 ^ 400)))
                    sample_bridge eq_refl)))))
             (10 ^ 400)%Z eq_refl).
    vm_compute. discriminate.
Defined.

(** X19: what [_safe_float] gives.  [None] for [None], for a list or a dict
    and for a string that is no number; the float itself for a float, 0.0 or
    1.0 for a bool, the number read for a numeric string; for an int, the
    int itself when its magnitude is below 2^53, the nearest float (ties to
    even) up to the largest float, and from 2^1024 - 2^970 on the
    [OverflowError] of [float], which [_safe_float] does not catch. *)
Theorem safe_float_outcomes {host : Host} :
  _safe_float PNone = Ok None /\
  (forall l, _safe_float (PList l) = Ok None) /\
  (forall d, _safe_float (PDict d) = Ok None) /\
  (forall f, _safe_float (PFloat f) = Ok (Some f)) /\
  (forall b, _safe_float (PBool b)
             = Ok (Some (Fin (if b then 1 else 0)))) /\
  (forall s, _safe_float (PStr s) = Ok (float_of_str s)) /\
  (forall z, (Z.abs z < 2 ^ 53)%Z ->
             _safe_float (PInt z) = Ok (Some (Fin (inject_Z z)))) /\
  (forall z, (Z.abs z < 2 ^ 1024 - 2 ^ 970)%Z ->
             exists n, _safe_float (PInt z) = Ok (Some (Fin (inject_Z n))) /\
                       (Z.abs (n - z) * 2 ^ 53 <= Z.abs z)%Z) /\
  (forall z, (2 ^ 1024 - 2 ^ 970 <= Z.abs z)%Z ->
             _safe_float (PInt z)
             = Raise (mkExc OverflowError "int too large to convert to float")).
Proof.
  split; [reflexivity|]. split; [reflexivity|]. split; [reflexivity|].
  split; [reflexivity|]. split; [intros []; reflexivity|].
  split; [intros s; cbn; destruct (float_of_str s); reflexivity|].
  split; [|split].
  - intros z Hz. cbn [_safe_float py_float].
    rewrite (float_of_int_exact z Hz). reflexivity.
  - intros z Hz. cbn [_safe_float py_float]. unfold float_of_int.
    destruct (Z.leb_spec float_overflow (Z.abs z)) as [Hle|_];
      [unfold float_overflow in Hle; lia|].
    eexists. split; [reflexivity|]. apply round_to_53_close.
  - intros z Hz. cbn [_safe_float py_float].
    rewrite (float_of_int_overflow z Hz). reflexivity.
Qed.

Example safe_float_samples :
  @_safe_float plain_host (PInt (10 ^ 400))
  = Raise (mkExc OverflowError "int too large to convert to float") /\
  @_safe_float plain_host (PInt 9007199254740993)
  = Ok (Some (Fin 9007199254740992)) /\
  @_safe_float plain_host (PStr "1.5") = Ok (Some (Fin (3 # 2))) /\
  @_safe_float plain_host (PStr "north") = Ok None.
Proof. vm_compute. repeat split; reflexivity. Qed.

(** ** Requests and messages that are turned down *)

Lemma lstrip_blank (lead rest : string) :
  all_blank lead = true -> lstrip (lead ++ rest) = lstrip rest.
Proof.
  unfold all_blank. induction lead as [|c lead IH]; [reflexivity|].
  cbn [str_exists append lstrip]. intros H.
  apply negb_true_iff, orb_false_iff in H. destruct H as [Hc Hl].
  apply negb_false_iff in Hc. rewrite Hc. apply IH.
  rewrite Hl. reflexivity.
Qed.

Lemma rstrip_blank (trail : string) :
  all_blank trail = true -> rstrip_by is_space trail = "".
Proof.
  unfold all_blank. induction trail as [|c trail IH]; [reflexivity|].
  cbn [str_exists rstrip_by]. intros H.
  apply negb_true_iff, orb_false_iff in H. destruct H as [Hc Hl].
  apply negb_false_iff in Hc. rewrite IH by (rewrite Hl; reflexivity).
  rewrite Hc. reflexivity.
Qed.

Lemma rstrip_trimmed (name trail : string) (b : ascii) :
  last_char name = Some b -> is_space b = false ->
  all_blank trail = true ->
  rstrip_by is_space (name ++ trail) = name.
Proof.
  intros Hl Hb Ht. induction name as [|c [|c' r] IH].
  - discriminate Hl.
  - cbn [last_char] in Hl. injection Hl as ->.
    cbn [append rstrip_by]. rewrite (rstrip_blank trail Ht), Hb. reflexivity.
  - specialize (IH Hl).
    replace (String c (String c' r) ++ trail)%string
      with (String c (String c' r ++ trail)) by reflexivity.
    cbn [rstrip_by]. rewrite IH. reflexivity.
Qed.

Lemma strip_trimmed (lead name trail : string) :
  all_blank lead = true -> all_blank trail = true -> trimmed name = true ->
  strip (lead ++ name ++ trail) = name.
Proof.
  intros Hlead Htrail Hname. unfold strip. rewrite (lstrip_blank lead _ Hlead).
  unfold trimmed in Hname.
  destruct name as [|a r]; [discriminate Hname|].
  destruct (last_char (String a r)) as [b|] eqn:Hl; [|discriminate Hname].
  apply andb_prop in Hname. destruct Hname as [Ha Hb].
  apply negb_true_iff in Ha. apply negb_true_iff in Hb.
  assert (Hls : lstrip (String a r ++ trail) = (String a r ++ trail)%string).
  { cbn [append lstrip]. rewrite Ha. reflexivity. }
  rewrite Hls. exact (rstrip_trimmed _ trail b Hl Hb Htrail).
Qed.

Lemma strip_blank (s : string) : all_blank s = true -> strip s = "".
Proof.
  intros H. unfold strip.
  pose proof (lstrip_blank s "" H) as Hl. cbn [lstrip] in Hl.
  assert (Hs : (s ++ "")%string = s).
  { clear. induction s as [|c s IH]; [reflexivity|]. cbn. rewrite IH.
    reflexivity. }
  rewrite Hs in Hl. rewrite Hl. reflexivity.
Qed.

Lemma set_mode_request_run {host : Host} (payload : dict) (w : World)
    (s : string) :
  command_is payload "set_mode" = true ->
  dict_get "mode" payload = PStr s ->
  handle_command payload w = (set_mode (upper (strip s)) ;; ret PNone) w.
Proof.
  unfold command_is, handle_command.
  destruct (dict_get "type" payload) as [|b|z|f|t|l|d]; cbn [py_is_str];
    try discriminate.
  intros Hs. apply String.eqb_eq in Hs. subst t.
  cbn [String.eqb Ascii.eqb Bool.eqb]. intros ->.
  unfold py_or. cbn [py_truthy].
  destruct (String.eqb_spec s "") as [->|_]; reflexivity.
Qed.

(** X20: the mode of a [set_mode] request, for names in ASCII.  White space
    before and after the name is dropped and the name is put in upper case
    before it is looked up; a request that names no mode (the mode is
    missing, falsy, or white space only) fails before anything is sent, with
    a ValueError when there is a link and a RuntimeError when there is
    none. *)
Theorem set_mode_request_normalised {host : Host} (payload : dict) (w : World) :
  command_is payload "set_mode" = true ->
  let mode := dict_get "mode" payload in
  (forall lead name trail,
      mode = PStr (lead ++ name ++ trail) ->
      all_blank lead = true -> all_blank trail = true ->
      trimmed name = true -> is_ascii_str name = true ->
      handle_command payload w = (set_mode (upper name) ;; ret PNone) w) /\
  (names_no_mode mode ->
   handle_command payload w
   = (Raise (mkExc (match master w with
                    | None => RuntimeError
                    | Some _ => ValueError
                    end)
               (match master w with
                | None => "Vehicle connection not ready"
                | Some _ => "Mode name is required"
                end)), w)).
Proof.
  intros Hc mode. subst mode. split.
  - intros lead name trail Hm Hlead Htrail Hname _.
    rewrite (set_mode_request_run payload w _ Hc Hm).
    rewrite (strip_trimmed lead name trail Hlead Htrail Hname). reflexivity.
  - assert (Hempty : (set_mode "" ;; ret PNone) w
                     = (Raise (mkExc (match master w with
                                      | None => RuntimeError
                                      | Some _ => ValueError
                                      end)
                                 (match master w with
                                  | None => "Vehicle connection not ready"
                                  | Some _ => "Mode name is required"
                                  end)), w)).
    { unfold set_mode. run. destruct (master w); reflexivity. }
    intros [Hf|(s & Hm & Hs)].
    + revert Hc. unfold command_is, handle_command.
      destruct (dict_get "type" payload) as [|b|z|f|t|l|d]; cbn [py_is_str];
        try discriminate.
      intros Ht. apply String.eqb_eq in Ht. subst t.
      cbn [String.eqb Ascii.eqb Bool.eqb].
      unfold py_or. rewrite Hf. exact Hempty.
    + rewrite (set_mode_request_run payload w s Hc Hm).
      rewrite (strip_blank s Hs). exact Hempty.
Qed.

Lemma set_mode_request_normalised_witness :
  let r := @handle_command plain_host
             (set_mode_request (PStr (" " ++ "guided" ++ "  "))) sample_bridge in
  (r = (set_mode "GUIDED" ;; ret PNone) sample_bridge /\
   fst r = Ok PNone /\
   link_sent (snd r)
   = [ command_long_send 1 1 176 0
         [PInt 9; PInt 4; PInt 0; PInt 0; PInt 0; PInt 0; PInt 0];
       set_mode_send 1 9 4 ]) /\
  @handle_command plain_host (set_mode_request (PStr "   ")) sample_bridge
  = (Raise (mkExc ValueError "Mode name is required"), sample_bridge).
Proof.
  cbv zeta. split.
  - rewrite (proj1 (@set_mode_request_normalised plain_host
                      (set_mode_request (PStr (" " ++ "guided" ++ "  ")))
                      sample_bridge eq_refl)
               " " "guided" "  " eq_refl eq_refl eq_refl eq_refl eq_refl).
    vm_compute. repeat split; reflexivity.
  - apply (proj2 (@set_mode_request_normalised plain_host
                    (set_mode_request (PStr "   ")) sample_bridge eq_refl)).
    right. exists "   ". split; reflexivity.
Defined.

(** X21: a HEARTBEAT fails in two cases only, both with a TypeError: when
    [base_mode] is no int, and then the bridge is as it was; and when
    [system_status] is a list or a dict, and then [armed] and [ready] are
    already set and nothing else has changed. *)
Theorem heartbeat_rejected {host : Host} (msg : Message) (w : World) (e : exc) :
  get_type msg = "HEARTBEAT" ->
  fst (handle_message msg w) = Raise e ->
  let w' := snd (handle_message msg w) in
  kind e = TypeError /\
  (is_int (getattr msg "base_mode" (PInt 0)) = false /\ w' = w
   \/ is_int (getattr msg "base_mode" (PInt 0)) = true /\
      hashable (getattr msg "system_status" PNone) = false /\
      only_state w w' /\ keeps_keys ["armed"; "ready"] w w').
Proof.
  intros Ht. unfold handle_message. rewrite Ht.
  cbn [String.eqb Ascii.eqb Bool.eqb]. unfold on_heartbeat.
  destruct (getattr msg "base_mode" (PInt 0)) as [|b|z|f|s|l|d] eqn:Eb;
    cbn [py_and_int is_int]; run.
  all: try (intros He; injection He as <-; split; [reflexivity|]; left;
            split; reflexivity).
  all: destruct (getattr msg "system_status" PNone) as [|sb|s|f|ss|l|d] eqn:Es;
    cbn [hashable].
  all: try (destruct (system_status_name _) as [name|e0|] eqn:En;
            [| |exfalso; revert En; unfold system_status_name;
                match goal with
                | |- context [enum_key ?v] =>
                    destruct (enum_key v) as [[k|]| |] eqn:Ek;
                    [destruct (assoc_Z k mavlink.MAV_STATE)| | |]
                end; try discriminate;
                match type of Ek with
                | enum_key (PFloat ?f) = _ =>
                    destruct f as [q| |]; cbn in Ek;
                    try destruct (Qeq_bool q (inject_Z (Qfloor q)));
                    discriminate Ek
                | _ => discriminate Ek
                end]).
  all: run.
  all: try (destruct (Qle_bool (_status_hold_until w) (monotonic w)); run).
  all: try discriminate.
  all: try (exfalso; revert En; unfold system_status_name;
            match goal with
            | |- context [enum_key ?v] =>
                destruct (enum_key v) as [[k|]| |] eqn:Ek;
                [destruct (assoc_Z k mavlink.MAV_STATE)| | |]
            end; try discriminate;
            match type of Ek with
            | enum_key (PFloat ?f) = _ =>
                destruct f as [q| |]; cbn in Ek;
                try destruct (Qeq_bool q (inject_Z (Qfloor q)));
                discriminate Ek
            | _ => discriminate Ek
            end; fail).
  all: intros He; injection He as <-.
  all: cbn in En; injection En as <-.
  all: split; [reflexivity|]; right; split; [reflexivity|];
    split; [reflexivity|]; split; [reflexivity|].
  all: intros k Hk; cbn [state with_state]; rewrite !dict_get_set;
    cbn [existsb orb] in Hk;
    destruct (String.eqb k "ready") eqn:E1;
    destruct (String.eqb k "armed") eqn:E2; try reflexivity;
    cbn in Hk; discriminate Hk.
Qed.

Lemma heartbeat_rejected_witness :
  snd (@handle_message plain_host heartbeat_text_mode sample_bridge)
  = sample_bridge.
Proof.
  destruct (@heartbeat_rejected plain_host heartbeat_text_mode sample_bridge
              (mkExc TypeError "unsupported operand type(s) for &")
              eq_refl eq_refl) as [_ [[_ H]|[H _]]].
  - exact H.
  - discriminate H.
Defined.
